(** * drupal_parser: a shallow embedding of [src/drupal_parser.py]

    The development follows the source file top to bottom:

    - [Py]      the Python [str] operations the parser calls;
    - [Dom]     the part of the BeautifulSoup tree interface it uses;
    - the component classifier [identify_component_type].

    Text is modelled by Rocq's [string], a list of 8-bit characters.  The
    model is exact on ASCII text.  The character 223 stands for the sharp s,
    a lower-case letter whose title case has two characters; any other
    character above 127 stands for a symbol that has no case and is not
    white space. *)

From Stdlib Require Import Ascii ssreflect.
From Stdlib Require String.
From stdpp Require Import gmap strings list sorting.

Set Warnings "-register-all,-rewrite-rw,-clear-no-such-hyp,-level-tolerance".
Set Default Proof Using "Type".

(* ===================================================================== *)
(** ** Python string operations *)
(* ===================================================================== *)

Module Py.

(** [str.isspace] on one ASCII character: TAB, LF, VT, FF, CR, the four
    separators FS, GS, RS, US and the space.  The same set is what [\s]
    matches in a [str] pattern of [re]. *)
Definition is_space (c : ascii) : bool :=
  match c with
  | "009" | "010" | "011" | "012" | "013"
  | "028" | "029" | "030" | "031" | " " => true
  | _ => false
  end%char.

Definition is_upper (c : ascii) : bool :=
  let n := nat_of_ascii c in (65 <=? n) && (n <=? 90).

Definition is_lower (c : ascii) : bool :=
  let n := nat_of_ascii c in (97 <=? n) && (n <=? 122).

Definition is_alpha (c : ascii) : bool := is_upper c || is_lower c.

Definition is_digit (c : ascii) : bool :=
  let n := nat_of_ascii c in (48 <=? n) && (n <=? 57).

Definition lower_char (c : ascii) : ascii :=
  if is_upper c then ascii_of_nat (nat_of_ascii c + 32) else c.

Definition upper_char (c : ascii) : ascii :=
  if is_lower c then ascii_of_nat (nat_of_ascii c - 32) else c.

(** [len(s)] *)
Definition len (s : string) : nat := String.length s.

(** [bool(s)]: a string is truthy when it is not empty. *)
Definition truthy (s : string) : bool :=
  match s with "" => false | _ => true end.

Fixpoint map_chars (f : ascii -> ascii) (s : string) : string :=
  match s with
  | "" => ""
  | String c s' => String (f c) (map_chars f s')
  end.

(** [s.lower()] *)
Definition lower (s : string) : string := map_chars lower_char s.

(** [c in chars] for one character *)
Fixpoint char_in (c : ascii) (chars : string) : bool :=
  match chars with
  | "" => false
  | String d chars' => Ascii.eqb c d || char_in c chars'
  end.

Fixpoint lstrip_with (p : ascii -> bool) (s : string) : string :=
  match s with
  | "" => ""
  | String c s' => if p c then lstrip_with p s' else s
  end.

Fixpoint rstrip_with (p : ascii -> bool) (s : string) : string :=
  match s with
  | "" => ""
  | String c s' =>
      match rstrip_with p s' with
      | "" => if p c then "" else String c ""
      | r => String c r
      end
  end.

(** [s.strip()], [s.strip(chars)], [s.rstrip(chars)] *)
Definition strip (s : string) : string :=
  lstrip_with is_space (rstrip_with is_space s).

Definition strip_chars (chars s : string) : string :=
  lstrip_with (fun c => char_in c chars) (rstrip_with (fun c => char_in c chars) s).

Definition rstrip_chars (chars s : string) : string :=
  rstrip_with (fun c => char_in c chars) s.

(** [s.startswith(p)] *)
Fixpoint startswith (p s : string) : bool :=
  match p, s with
  | "", _ => true
  | String _ _, "" => false
  | String a p', String b s' => Ascii.eqb a b && startswith p' s'
  end.

(** [s[n:]] and [s[:n]] *)
Fixpoint drop_str (n : nat) (s : string) : string :=
  match n, s with
  | 0, _ => s
  | S _, "" => ""
  | S n', String _ s' => drop_str n' s'
  end.

Fixpoint take_str (n : nat) (s : string) : string :=
  match n, s with
  | 0, _ => ""
  | S _, "" => ""
  | S n', String c s' => String c (take_str n' s')
  end.

(** [s.endswith(p)] *)
Definition endswith (p s : string) : bool :=
  (len p <=? len s) && String.eqb (drop_str (len s - len p) s) p.

(** [needle in s] *)
Fixpoint contains (needle s : string) : bool :=
  startswith needle s ||
  match s with
  | "" => false
  | String _ s' => contains needle s'
  end.

(** [any(w in s for w in ws)] *)
Definition contains_any (ws : list string) (s : string) : bool :=
  existsb (fun w => contains w s) ws.

(** [s.replace(old, new)] for a one-character [old] and [new] *)
Definition replace_char (old new : ascii) (s : string) : string :=
  map_chars (fun c => if Ascii.eqb c old then new else c) s.

(** [s.replace(old, new, 1)]: the first occurrence only *)
Fixpoint replace_first (old new s : string) : string :=
  if startswith old s then new +:+ drop_str (len old) s
  else match s with
       | "" => ""
       | String c s' => String c (replace_first old new s')
       end.

(** The sharp s: lower case, equal to its own lower case, and with the
    title case [Ss]. *)
Definition sharp_s : ascii := "223"%char.

(** The characters that have a case. *)
Definition is_cased (c : ascii) : bool := is_alpha c || Ascii.eqb c sharp_s.

(** The title case of one character. *)
Definition title_char (c : ascii) : string :=
  if Ascii.eqb c sharp_s then "Ss" else String (upper_char c) "".

(** [s.title()]: a character that follows a cased character is lowered,
    any other character is put in title case, which can be longer than the
    character. *)
Fixpoint title_go (prev_cased : bool) (s : string) : string :=
  match s with
  | "" => ""
  | String c s' =>
      (if prev_cased then String (lower_char c) "" else title_char c)
      +:+ title_go (is_cased c) s'
  end.

Definition title (s : string) : string := title_go false s.

(** [sep.join(parts)] *)
Fixpoint join (sep : string) (parts : list string) : string :=
  match parts with
  | [] => ""
  | [p] => p
  | p :: rest => p +:+ sep +:+ join sep rest
  end.

(** [re.sub(r'\s+', ' ', s)]: every maximal run of white space becomes one
    space. *)
Fixpoint collapse_go (in_run : bool) (s : string) : string :=
  match s with
  | "" => ""
  | String c s' =>
      if is_space c
      then (if in_run then collapse_go true s'
            else String " " (collapse_go true s'))
      else String c (collapse_go false s')
  end.

Definition collapse_ws (s : string) : string := collapse_go false s.

(** [re.findall(r'\S+', s)]: the maximal runs of characters that are not
    white space; [cur] holds the run being read, reversed. *)
Fixpoint split_ws_go (cur : string) (s : string) : list string :=
  match s with
  | "" => if truthy cur then [String.rev cur] else []
  | String c s' =>
      if is_space c
      then (if truthy cur then String.rev cur :: split_ws_go "" s'
            else split_ws_go "" s')
      else split_ws_go (String c cur) s'
  end.

Definition split_ws (s : string) : list string := split_ws_go "" s.

(** [s[:n] + "..." if len(s) > n else s] *)
Definition ellipsis (n : nat) (s : string) : string :=
  if n <? len s then take_str n s +:+ "..." else s.

(** [list(dict.fromkeys(l))]: the first occurrence of each value, in order *)
Fixpoint dedup_go (seen : list string) (l : list string) : list string :=
  match l with
  | [] => []
  | x :: l' =>
      if bool_decide (x ∈ seen) then dedup_go seen l'
      else x :: dedup_go (x :: seen) l'
  end.

Definition dict_fromkeys (l : list string) : list string := dedup_go [] l.

End Py.

(* ===================================================================== *)
(** ** [urllib.parse]: [urlparse] *)
(* ===================================================================== *)

(** What a Python call does besides returning: it may raise.  The parser
    catches exceptions in [fetch] and [fetch_sitemap_urls] only. *)
Inductive pyres (A : Type) : Type :=
| Returns (a : A)
| Raises.
Arguments Returns {A} a.
Arguments Raises {A}.

#[global] Instance pyres_bind : MBind pyres := λ A B k m,
  match m with
  | Returns a => k a
  | Raises => Raises
  end.

#[global] Instance pyres_ret : MRet pyres := λ A a, Returns a.

Module Url.

(** The six components [urlparse] returns. *)
Record ParseResult : Type := mkParseResult {
  scheme : string;
  netloc : string;
  path : string;
  params : string;
  query : string;
  fragment : string
}.

Definition scheme_chars : string :=
  "abcdefghijklmnopqrstuvwxyzABCDEFGHIJKLMNOPQRSTUVWXYZ0123456789+-.".

Definition uses_params : list string :=
  [""; "ftp"; "hdl"; "prospero"; "http"; "imap"; "https"; "shttp"; "rtsp";
   "rtspu"; "sip"; "sips"; "mms"; "sftp"; "tel"].

(** The characters [urlsplit] strips from the left: C0 controls and space. *)
Definition c0_control_or_space (c : ascii) : bool := nat_of_ascii c <=? 32.

(** The characters [urlsplit] removes wherever they stand: TAB, CR, LF. *)
Definition unsafe_char (c : ascii) : bool :=
  match c with "009" | "010" | "013" => true | _ => false end%char.

Fixpoint remove_chars (p : ascii -> bool) (s : string) : string :=
  match s with
  | "" => ""
  | String c s' => if p c then remove_chars p s' else String c (remove_chars p s')
  end.

(** [s.partition(c)] on one character: the text before the first [c] and,
    when there is one, the text after it. *)
Fixpoint partition (c : ascii) (s : string) : string * option string :=
  match s with
  | "" => ("", None)
  | String d s' =>
      if Ascii.eqb d c then ("", Some s')
      else let '(before, after) := partition c s' in (String d before, after)
  end.

Fixpoint all_chars (p : ascii -> bool) (s : string) : bool :=
  match s with
  | "" => true
  | String c s' => p c && all_chars p s'
  end.

(** The scheme, when the text before the first colon is one: it is not
    empty, starts with a letter and holds scheme characters only. *)
Definition split_scheme (url : string) : string * string :=
  match partition ":" url with
  | (String c pre, Some rest) =>
      if Py.is_alpha c && all_chars (fun d => Py.char_in d scheme_chars) (String c pre)
      then (Py.lower (String c pre), rest)
      else ("", url)
  | _ => ("", url)
  end.

(** [_splitnetloc(url, 2)] on the text after the two slashes: the netloc
    runs up to the first of [/], [?] and [#]. *)
Definition netloc_delimiter (c : ascii) : bool := Py.char_in c "/?#".

Fixpoint splitnetloc (s : string) : string * string :=
  match s with
  | "" => ("", "")
  | String c s' =>
      if netloc_delimiter c then ("", s)
      else let '(n, rest) := splitnetloc s' in (String c n, rest)
  end.

Section Urlsplit.

(** The validation of a netloc that holds both square brackets (an IP
    literal): it involves [ipaddress] and differs between Python releases,
    so it stays a parameter. *)
Variable bracketed_host_ok : string -> bool.

(** The [ValueError]s of [urlsplit]. *)
Definition check_netloc (netloc : string) : bool :=
  let opening := Py.contains "[" netloc in
  let closing := Py.contains "]" netloc in
  if opening && negb closing || closing && negb opening then false
  else if opening && closing then bracketed_host_ok netloc
  else true.

(** [urlsplit(url)] as of CPython 3.12; [params] stays empty. *)
Definition urlsplit (url : string) : pyres ParseResult :=
  let url := Py.lstrip_with c0_control_or_space url in
  let url := remove_chars unsafe_char url in
  let '(scheme, url) := split_scheme url in
  let '(netloc, url) :=
    if Py.startswith "//" url then splitnetloc (Py.drop_str 2 url) else ("", url) in
  if negb (check_netloc netloc) then Raises
  else
    let '(url, fragment) := partition "#" url in
    let '(url, query) := partition "?" url in
    Returns (mkParseResult scheme netloc url ""
               (default "" query) (default "" fragment)).

(** The path up to and including its last slash, and what follows. *)
Fixpoint rsplit_slash (s : string) : string * string :=
  match s with
  | "" => ("", "")
  | String c s' =>
      let '(h, t) := rsplit_slash s' in
      if Py.truthy h then (String c h, t)
      else if Ascii.eqb c "/" then ("/", s')
      else ("", String c t)
  end.

(** [_splitparams(url)]: the first semicolon of the last path segment. *)
Definition splitparams (url : string) : string * string :=
  let '(h, t) := rsplit_slash url in
  match partition ";" t with
  | (seg, Some params) => (h +:+ seg, params)
  | (_, None) => (url, "")
  end.

(** [urlparse(url)] *)
Definition urlparse (url : string) : pyres ParseResult :=
  r ← urlsplit url;
  if bool_decide (scheme r ∈ uses_params) && Py.contains ";" (path r) then
    let '(url, params) := splitparams (path r) in
    Returns (mkParseResult (scheme r) (netloc r) url params (query r) (fragment r))
  else Returns r.

End Urlsplit.

End Url.

(* ===================================================================== *)
(** ** The BeautifulSoup tree *)
(* ===================================================================== *)

Module Dom.

(** A parsed document: text nodes ([NavigableString]) and tags with their
    attributes and ordered children.  The [class] attribute is kept as
    written; [classes] splits it into its tokens the way the parser does.
    Comments and the payload of [script] and [style] elements, which
    [get_text] leaves out, are not part of the tree. *)
Inductive node : Type :=
| Text (s : string)
| Tag (name : string) (attrs : list (string * string)) (contents : list node).

Definition is_tag (n : node) : bool :=
  match n with Tag _ _ _ => true | Text _ => false end.

Definition name (n : node) : string :=
  match n with Tag nm _ _ => nm | Text _ => "" end.

Definition contents (n : node) : list node :=
  match n with Tag _ _ cs => cs | Text _ => [] end.

(** [tag.descendants]: every node below the tag, in document order. *)
Fixpoint descendants (n : node) : list node :=
  match n with
  | Text _ => []
  | Tag _ _ cs => flat_map (fun c => c :: descendants c) cs
  end.

Fixpoint assoc (k : string) (l : list (string * string)) : option string :=
  match l with
  | [] => None
  | (k', v) :: l' => if String.eqb k k' then Some v else assoc k l'
  end.

(** [tag.get(key)]: [None] when the attribute is absent. *)
Definition get (n : node) (key : string) : option string :=
  match n with Tag _ attrs _ => assoc key attrs | Text _ => None end.

(** [tag.get(key, default)] *)
Definition get_default (n : node) (key default : string) : string :=
  match get n key with Some v => v | None => default end.

(** [tag.find_all(...)]: the descendants that satisfy the filter, in
    document order; [recursive=False] looks at the children only. *)
Definition find_all (p : node -> bool) (n : node) : list node :=
  List.filter p (descendants n).

Definition find_all_children (p : node -> bool) (n : node) : list node :=
  List.filter p (contents n).

(** [tag.find(...)]: the first match, if any. *)
Definition find (p : node -> bool) (n : node) : option node :=
  head (find_all p n).

(** The filters the parser passes to [find] and [find_all]. *)

(** a tag name, or a list of tag names *)
Definition named (names : list string) (n : node) : bool :=
  is_tag n && bool_decide (name n ∈ names).

(** [href=True]: the attribute is present *)
Definition has_attr (key : string) (n : node) : bool :=
  is_tag n && bool_decide (is_Some (get n key)).

(** The tokens of the [class] attribute, [None] when the tag has none. *)
Definition classes (n : node) : option (list string) :=
  Py.split_ws <$> get n "class".

(** [" ".join(tag.get("class", []))] *)
Definition class_string (n : node) : string :=
  match classes n with Some cs => Py.join " " cs | None => "" end.

(** [re.search(r"w1|w2|...", s, re.I)] for literal alternatives *)
Definition search_i (ws : list string) (s : string) : bool :=
  Py.contains_any ws (Py.lower s).

(** [class_=re.compile(r"w1|w2|...", re.I)]: some token of the class
    attribute matches, or the tokens joined by spaces do. *)
Definition class_matches (ws : list string) (n : node) : bool :=
  is_tag n &&
  match classes n with
  | Some cs => existsb (search_i ws) cs || search_i ws (Py.join " " cs)
  | None => false
  end.

(** [id=re.compile(r"w1|w2|...", re.I)] *)
Definition id_matches (ws : list string) (n : node) : bool :=
  is_tag n &&
  match get n "id" with
  | Some v => search_i ws v
  | None => false
  end.

(** The strings below a tag, in document order. *)
Definition strings (n : node) : list string :=
  flat_map (fun d => match d with Text s => [s] | Tag _ _ _ => [] end)
           (descendants n).

(** [tag.get_text(sep, strip=True)]: every string is stripped, the empty
    ones are dropped, the rest joined by [sep]. *)
Definition get_text_strip (sep : string) (n : node) : string :=
  Py.join sep (List.filter Py.truthy (Py.strip <$> strings n)).

(** [tag.get_text()]: the strings as they are, concatenated. *)
Definition get_text (n : node) : string := Py.join "" (strings n).

End Dom.

(* ===================================================================== *)
(** ** The parser's collaborators *)
(* ===================================================================== *)

(** What [session.get] hands back: the status code, the [Content-Type]
    header (empty when the header is absent) and the body. *)
Record response : Type := mkResponse {
  status_code : nat;
  content_type : string;
  text : string
}.

(** The libraries and the network the parser calls, as parameters of the
    model.  [world] is whatever the network's answers depend on: a request
    reads it and may change it. *)
Record externals (world : Type) : Type := mkExternals {
  (** [session.get(url, timeout=...)]; [None] when it raises *)
  session_get : world -> string -> option response * world;
  (** the judgement of [urlsplit] on a netloc with both square brackets *)
  bracketed_host_ok : string -> bool;
  (** [urljoin(base, href)] *)
  urljoin : string -> string -> pyres string;
  (** [BeautifulSoup(html, "lxml")] and [BeautifulSoup(text, "xml")]: the
      document node, whose descendants are the parsed tree *)
  parse_html : string -> Dom.node;
  parse_xml : string -> Dom.node;
  (** [hashlib.md5(text.encode()).hexdigest()] *)
  md5_hexdigest : string -> string;
  (** [re.search(pattern, s)]'s [group(0)], [re.findall(pattern, s)] and
      [re.sub(pattern, repl, s)] for the patterns that extract names,
      addresses, e-mail addresses and phone numbers *)
  re_search : string -> string -> option string;
  re_findall : string -> string -> list string;
  re_sub : string -> string -> string -> string
}.
Arguments session_get {world} _ _ _.
Arguments bracketed_host_ok {world} _ _.
Arguments urljoin {world} _ _ _.
Arguments parse_html {world} _ _.
Arguments parse_xml {world} _ _.
Arguments md5_hexdigest {world} _ _.
Arguments re_search {world} _ _ _.
Arguments re_findall {world} _ _ _.
Arguments re_sub {world} _ _ _ _.

Import Dom.

Section DrupalParser.

Context {world : Type} (X : externals world).

(* ===================================================================== *)
(** ** URL fetching and discovery *)
(* ===================================================================== *)

(** The attributes [__init__] sets once: [base_url] without its trailing
    slashes and the netloc of it.  ([timeout] and the request headers only
    reach [session.get].) *)
Record parser : Type := mkParser {
  base_url : string;
  internal_domain : string
}.

(** What changes during a run: the network, the two sets the parser keeps
    ([visited], [seen_content_hashes]), and, as a ghost, the arguments of
    the calls to [fetch] so far, oldest first. *)
Record state : Type := mkState {
  net : world;
  fetched : list string;
  visited : gset string;
  seen_content_hashes : gset string
}.

Definition init (url : string) : pyres parser :=
  let base := Py.rstrip_chars "/" url in
  parsed ← Url.urlparse (bracketed_host_ok X) base;
  Returns (mkParser base (Url.netloc parsed)).

Definition init_state (w : world) : state := mkState w [] ∅ ∅.

(** [fetch(url)]: the body of a 200 response whose content type mentions
    [text/html]; [None] otherwise, also when the request raises. *)
Definition fetch (url : string) (st : state) : option string * state :=
  let '(r, w) := session_get X (net st) url in
  (match r with
   | Some response =>
       if Nat.eqb (status_code response) 200
       then if Py.contains "text/html" (content_type response)
            then Some (text response) else None
       else None
   | None => None
   end,
   mkState w (fetched st ++ [url]) (visited st) (seen_content_hashes st)).

(** [not html] for what [fetch] returned: nothing, or an empty body. *)
Definition no_html (html : option string) : bool :=
  match html with
  | Some body => negb (Py.truthy body)
  | None => true
  end.

(** [normalize_url(url)]: scheme, netloc and path only; the trailing
    slashes go unless the path is a single character. *)
Definition normalize_url (url : string) : pyres string :=
  parsed ← Url.urlparse (bracketed_host_ok X) url;
  let clean := Url.scheme parsed +:+ "://" +:+ Url.netloc parsed +:+ Url.path parsed in
  Returns (if 1 <? Py.len (Url.path parsed) then Py.rstrip_chars "/" clean else clean).

(** [is_internal_link(url)] *)
Definition is_internal_link (self : parser) (url : string) : pyres bool :=
  parsed ← Url.urlparse (bracketed_host_ok X) url;
  Returns (if negb (Py.truthy (Url.netloc parsed)) then true
           else String.eqb (Url.netloc parsed) (internal_domain self)).

(** The [loc] elements of one sitemap, normalized one after the other; an
    exception ends the loop and is swallowed, what was added stays. *)
Fixpoint add_locs (locs : list node) (urls : gset string) : gset string :=
  match locs with
  | [] => urls
  | loc :: locs' =>
      match normalize_url (Py.strip (get_text loc)) with
      | Returns url => add_locs locs' ({[url]} ∪ urls)
      | Raises => urls
      end
  end.

Definition sitemap_paths : list string :=
  ["/sitemap.xml"; "/sitemap_index.xml"; "/sitemap"].

Fixpoint fetch_sitemaps (self : parser) (paths : list string)
    (urls : gset string) (w : world) : gset string * world :=
  match paths with
  | [] => (urls, w)
  | path :: paths' =>
      let '(r, w) := session_get X w (base_url self +:+ path) in
      let urls :=
        match r with
        | Some response =>
            if Nat.eqb (status_code response) 200 && Py.contains "<loc>" (text response)
            then add_locs (find_all (named ["loc"]) (parse_xml X (text response))) urls
            else urls
        | None => urls
        end in
      fetch_sitemaps self paths' urls w
  end.

(** [fetch_sitemap_urls()]; these requests do not go through [fetch]. *)
Definition fetch_sitemap_urls (self : parser) (st : state) : gset string * state :=
  let '(urls, w) := fetch_sitemaps self sitemap_paths ∅ (net st) in
  (urls, mkState w (fetched st) (visited st) (seen_content_hashes st)).

Definition skipped_schemes : list string :=
  ["#"; "javascript:"; "mailto:"; "tel:"].

(** [href.startswith(("#", "javascript:", "mailto:", "tel:"))] *)
Definition startswith_any (prefixes : list string) (s : string) : bool :=
  existsb (fun p => Py.startswith p s) prefixes.

Definition media_extensions : list string :=
  ["pdf"; "jpg"; "jpeg"; "png"; "gif"; "zip"; "doc"; "docx"].

Definition newline : string := String "010" "".

(** [re.search(r'\.(e1|e2|...)$', s, re.I)]: [$] matches at the end of the
    string and before a newline that ends it. *)
Definition search_extension (exts : list string) (s : string) : bool :=
  let s := Py.lower s in
  existsb (fun e => Py.endswith ("." +:+ e) s || Py.endswith ("." +:+ e +:+ newline) s) exts.

(** The body of the loop of [crawl_internal_links] for one anchor. *)
Definition crawl_anchor (self : parser) (a : node) (urls : gset string)
    : pyres (gset string) :=
  let href := get_default a "href" "" in
  if startswith_any skipped_schemes href then Returns urls
  else
    absolute ← urljoin X (base_url self) href;
    internal ← is_internal_link self absolute;
    if internal : bool then
      clean ← normalize_url absolute;
      if search_extension media_extensions clean then Returns urls
      else Returns ({[clean]} ∪ urls)
    else Returns urls.

Fixpoint crawl_anchors (self : parser) (anchors : list node) (urls : gset string)
    : pyres (gset string) :=
  match anchors with
  | [] => Returns urls
  | a :: anchors' =>
      urls ← crawl_anchor self a urls;
      crawl_anchors self anchors' urls
  end.

(** [crawl_internal_links(html)] *)
Definition crawl_internal_links (self : parser) (html : string) : pyres (gset string) :=
  let soup := parse_html X html in
  crawl_anchors self (find_all (fun n => named ["a"] n && has_attr "href" n) soup) ∅.

(** The frontier of [discover_all_pages]: the set [all_urls], the pending
    [queue] and, as a ghost, the links appended to the queue so far. *)
Record frontier : Type := mkFrontier {
  all_urls : gset string;
  queue : list string;
  appended : list string
}.

(** The [for link in found_links] loop. *)
Fixpoint enqueue_new (links : list string) (f : frontier) : frontier :=
  match links with
  | [] => f
  | link :: links' =>
      if bool_decide (link ∈ all_urls f) then enqueue_new links' f
      else enqueue_new links'
             (mkFrontier ({[link]} ∪ all_urls f) (queue f ++ [link]) (appended f ++ [link]))
  end.

(** One iteration of the [while queue] loop, after [url] was popped. *)
Definition loop_body (self : parser) (url : string) (f : frontier) (st : state)
    : pyres (frontier * state) :=
  if bool_decide (url ∈ visited st) then Returns (f, st)
  else
    let '(html, st) := fetch url st in
    if no_html html then Returns (f, st)
    else
      let st := mkState (net st) (fetched st) ({[url]} ∪ visited st)
                        (seen_content_hashes st) in
      found_links ← crawl_internal_links self (default "" html);
      Returns (enqueue_new (elements found_links) f, st).

(** The [while queue] loop; one unit of [fuel] per iteration, [None] when
    the fuel runs out before the queue does. *)
Fixpoint discover_loop (fuel : nat) (self : parser) (f : frontier) (st : state)
    : option (pyres (frontier * state)) :=
  match fuel with
  | 0 => None
  | S fuel' =>
      match queue f with
      | [] => Some (Returns (f, st))
      | url :: rest =>
          match loop_body self url (mkFrontier (all_urls f) rest (appended f)) st with
          | Returns (f, st) => discover_loop fuel' self f st
          | Raises => Some Raises
          end
      end
  end.

(** The configurations the loop goes through from a given one. *)
Inductive loop_reaches (self : parser) : frontier * state -> frontier * state -> Prop :=
| reaches_here c : loop_reaches self c c
| reaches_next f st url rest c' c'' :
    queue f = url :: rest ->
    loop_body self url (mkFrontier (all_urls f) rest (appended f)) st = Returns c' ->
    loop_reaches self c' c'' ->
    loop_reaches self (f, st) c''.

(** The frontier the loop starts from: the sitemap URLs and [base_url]. *)
Definition initial_frontier (self : parser) (sitemap_urls : gset string) : frontier :=
  let all_urls := {[base_url self]} ∪ sitemap_urls in
  mkFrontier all_urls (elements all_urls) [].

(** [discover_all_pages()]: the discovered URLs, sorted. *)
Definition discover_all_pages (fuel : nat) (self : parser) (st : state)
    : option (pyres (list string * state)) :=
  let '(sitemap_urls, st) := fetch_sitemap_urls self st in
  match discover_loop fuel self (initial_frontier self sitemap_urls) st with
  | Some (Returns (f, st)) => Some (Returns (merge_sort String.le (elements (all_urls f)), st))
  | Some Raises => Some Raises
  | None => None
  end.

(* ===================================================================== *)
(** ** Global component extraction *)
(* ===================================================================== *)

(** The values of the header and footer dictionaries: [None], a string, a
    list of strings, or a dictionary of strings. *)
Inductive value : Type :=
| VNone
| VStr (s : string)
| VList (l : list string)
| VDict (d : list (string * string)).

(** A dictionary: its items in insertion order, no key twice. *)
Definition dict : Type := list (string * value).

(** [bool(v)] *)
Definition value_truthy (v : value) : bool :=
  match v with
  | VNone => false
  | VStr s => Py.truthy s
  | VList l => negb (bool_decide (l = []))
  | VDict d => negb (bool_decide (d = []))
  end.

(** [d[k] = v] on a dictionary of strings *)
Fixpoint dict_set (k v : string) (d : list (string * string)) : list (string * string) :=
  match d with
  | [] => [(k, v)]
  | (k', v') :: d' =>
      if String.eqb k k' then (k, v) :: d' else (k', v') :: dict_set k v d'
  end.

Record metadata : Type := mkMetadata {
  meta_name : string;
  meta_url : string;
  meta_description : string
}.

(** [attrs={"name": "description"}] *)
Definition attr_is (key v : string) (n : node) : bool :=
  is_tag n && bool_decide (get n key = Some v).

Definition extract_website_metadata (self : parser) (soup : node) : metadata :=
  let name :=
    match find (named ["title"]) soup with
    | Some title_tag => re_sub X "\s*[-|–]\s*.*$" "" (get_text_strip "" title_tag)
    | None => ""
    end in
  let description :=
    match find (fun n => named ["meta"] n && attr_is "name" "description" n) soup with
    | Some meta_desc => Py.strip (get_default meta_desc "content" "")
    | None => ""
    end in
  mkMetadata name (base_url self) description.

Definition social_platforms : list string :=
  ["twitter"; "facebook"; "linkedin"; "youtube"; "instagram"].

Definition email_pattern : string := "[A-Za-z0-9._%+-]+@[A-Za-z0-9.-]+\.[A-Z|a-z]{2,}".

(** The text of a header anchor, unless one of the [continue]s skips it. *)
Definition navigation_item (a : node) : option string :=
  let href := get_default a "href" "" in
  let text := get_text_strip "" a in
  if negb (Py.truthy text) || (50 <? Py.len text) || (Py.len text <? 3) then None
  else if Py.contains "@" text || Py.contains "@" href then None
  else if Py.contains_any social_platforms (Py.lower href) then None
  else if Py.endswith ".pdf" href || Py.contains "policy" (Py.lower href) then None
  else if Py.contains_any ["cookie"; "consent"; "refuse"] (Py.lower text) then None
  else Some text.

Fixpoint collect_navigation (anchors : list node) (navigation : list string) : list string :=
  match anchors with
  | [] => navigation
  | a :: anchors' =>
      match navigation_item a with
      | Some text =>
          if bool_decide (text ∈ navigation) then collect_navigation anchors' navigation
          else collect_navigation anchors' (navigation ++ [text])
      | None => collect_navigation anchors' navigation
      end
  end.

Definition anchors_with_href (n : node) : list node :=
  find_all (fun a => named ["a"] a && has_attr "href" a) n.

(** [extract_header(soup)] *)
Definition extract_header (soup : node) : dict :=
  let header :=
    match find (named ["header"]) soup with
    | Some h => Some h
    | None =>
        find (fun n => named ["nav"; "div"] n
                       && class_matches ["header"; "navbar"; "navigation"; "menu"] n) soup
    end in
  let logo :=
    match header with
    | Some header =>
        match find (named ["img"]) header with
        | Some logo_img => get_default logo_img "alt" ""
        | None => ""
        end
    | None => ""
    end in
  let navigation :=
    match header with
    | Some header => collect_navigation (anchors_with_href header) []
    | None => []
    end in
  let contact :=
    match header with
    | Some header =>
        let header_text := get_text_strip " " header in
        let emails := re_findall X email_pattern header_text in
        let phones := re_findall X "\+?\d[\d\s\-()]{7,15}" header_text in
        match emails with email :: _ => [("email", email)] | [] => [] end
        ++ match phones with phone :: _ => [("phone", Py.strip phone)] | [] => [] end
    | None => []
    end in
  [ ("logo", VStr logo);
    ("navigation", VList (take 10 navigation));
    ("contact", match contact with [] => VNone | _ => VDict contact end) ].

Definition address_patterns : list string :=
  [ "Plot\s+No\.?\s*[\w\-,\s]+";
    "Sector[\-\s]\d+";
    "[A-Z][a-z]+(?:\s+[A-Z][a-z]+)*,\s*\d{6}" ].

(** One round of the loop over [address_patterns]. *)
Definition address_step (footer_text : string) (address : list (string * string))
    (pattern : string) : list (string * string) :=
  match re_search X pattern footer_text with
  | Some address_text =>
      if Py.contains "Plot" address_text then dict_set "street" address_text address
      else if Py.contains "Sector" address_text
      then dict_set "street" (default "" (assoc "street" address) +:+ " " +:+ address_text) address
      else address
  | None => address
  end.

Definition add_if (present : bool) (k v : string) (d : list (string * string))
    : list (string * string) :=
  if present then dict_set k v d else d.

(** The footer anchors kept as links: internal, with a text shorter than 30
    characters, not a PDF. *)
Fixpoint collect_footer_links (self : parser) (anchors : list node) (links : list string)
    : pyres (list string) :=
  match anchors with
  | [] => Returns links
  | a :: anchors' =>
      let text := get_text_strip "" a in
      let href := get_default a "href" "" in
      internal ← is_internal_link self href;
      if (internal : bool) && Py.truthy text && negb (Py.endswith ".pdf" href)
         && (Py.len text <? 30)
      then collect_footer_links self anchors' (links ++ [text])
      else collect_footer_links self anchors' links
  end.

(** The first platform named in the anchor's [href], if any. *)
Definition social_link (a : node) : list string :=
  let href := get_default a "href" "" in
  match List.filter (fun platform => Py.contains platform (Py.lower href)) social_platforms with
  | platform :: _ => [platform]
  | [] => []
  end.

(** [{k: v for k, v in result.items() if v}] *)
Definition drop_falsy (result : dict) : dict :=
  List.filter (fun kv => value_truthy kv.2) result.

(** [extract_footer(soup)] *)
Definition extract_footer (self : parser) (soup : node) : pyres dict :=
  match find (named ["footer"]) soup with
  | None => Returns []
  | Some footer =>
      let footer_text := get_text_strip " " footer in
      let address := foldl (address_step footer_text) [] address_patterns in
      let address := add_if (Py.contains "Gurugram" footer_text) "city" "Gurugram" address in
      let address := add_if (Py.contains "Haryana" footer_text) "state" "Haryana" address in
      let address := add_if (Py.contains "India" footer_text) "country" "India" address in
      let emails := re_findall X email_pattern footer_text in
      let phones := re_findall X "\+?\d[\d\s\-/()]{10,20}" footer_text in
      footer_links ← collect_footer_links self (anchors_with_href footer) [];
      let social_links := flat_map social_link (anchors_with_href footer) in
      let result :=
        [ ("address", match address with [] => VNone | _ => VDict address end);
          ("phone", match phones with phone :: _ => VStr (Py.strip phone) | [] => VNone end);
          ("email", match emails with email :: _ => VStr email | [] => VNone end);
          ("footer_links", VList (take 10 (Py.dict_fromkeys footer_links)));
          ("social_links", VList (Py.dict_fromkeys social_links)) ] in
      Returns (drop_falsy result)
  end.

(* ===================================================================== *)
(** ** Page parsing and component identification *)
(* ===================================================================== *)

(** The dictionaries [identify_component_type] returns, one constructor per
    value of their ["type"] key. *)
Inductive component : Type :=
| HeroBanner (title subtitle : string)
| Form (fields : list string)
| Table (columns : option (list string)) (sample_data : list (list string))
| ListItems (items : list string)
| MediaGallery (image_count : nat) (images : list (string * string))
| RichText (heading content_preview : string)
| TextBlock (content : string).

(** The ["type"] entry of a component. *)
Definition component_type (c : component) : string :=
  match c with
  | HeroBanner _ _ => "hero_banner"
  | Form _ => "form"
  | Table _ _ => "table"
  | ListItems _ => "list"
  | MediaGallery _ _ => "media_gallery"
  | RichText _ _ => "rich_text"
  | TextBlock _ => "text_block"
  end.

#[global] Instance component_eq_dec : EqDecision component.
Proof. solve_decision. Defined.

(** *** The blocks of [identify_component_type], in source order *)

(** Hero banner or slider: the element's own classes or a descendant's. *)
Definition hero_vocabulary_own : list string :=
  ["hero"; "banner"; "slider"; "carousel"; "jumbotron"].

Definition hero_vocabulary_child : list string :=
  ["hero"; "banner"; "slider"; "carousel"].

Definition hero_marked (element : node) : bool :=
  search_i hero_vocabulary_own (Py.lower (class_string element))
  || bool_decide (is_Some (find (class_matches hero_vocabulary_child) element)).

Definition hero_title (element : node) : string :=
  match find (named ["h1"; "h2"; "h3"]) element with
  | Some h1 => get_text_strip "" h1
  | None => ""
  end.

(** The first of the first three paragraphs whose text has more than 20
    and fewer than 200 characters. *)
Definition hero_subtitle (element : node) : string :=
  match List.filter (fun p_text => (20 <? Py.len p_text) && (Py.len p_text <? 200))
          (get_text_strip "" <$> take 3 (find_all (named ["p"]) element)) with
  | p_text :: _ => p_text
  | [] => ""
  end.

Definition hero_case (element : node) : option component :=
  if hero_marked element then
    let title := hero_title element in
    let subtitle := hero_subtitle element in
    if Py.truthy title || Py.truthy subtitle
    then Some (HeroBanner title subtitle)
    else None
  else None.

(** Form: the element is a form or contains one. *)
Definition form_of (element : node) : option node :=
  if String.eqb (name element) "form" then Some element
  else find (named ["form"]) element.

(** [inp.get("placeholder") or inp.get("name") or inp.get("id", "")] *)
Definition field_name (inp : node) : string :=
  match get inp "placeholder" with
  | Some (String c s) => String c s
  | _ =>
      match get inp "name" with
      | Some (String c s) => String c s
      | _ => get_default inp "id" ""
      end
  end.

(** The cleaned label: underscores and hyphens become spaces, then the
    white space at both ends goes. *)
Definition clean_field_name (name : string) : string :=
  Py.strip (Py.replace_char "-" " " (Py.replace_char "_" " " name)).

(** What one input contributes to [fields]: nothing, or one label. *)
Definition form_field (inp : node) : list string :=
  let field_type := get_default inp "type" "text" in
  if bool_decide (field_type ∈ ["submit"; "button"; "hidden"]) then []
  else
    let name := field_name inp in
    if Py.truthy name then
      let name := clean_field_name name in
      if Py.truthy name && (Py.len name <? 50) then [Py.title name] else []
    else [].

Definition form_fields (form : node) : list string :=
  flat_map form_field (find_all (named ["input"; "textarea"; "select"]) form).

Definition form_case (element : node) : option component :=
  match form_of element with
  | Some form =>
      let fields := form_fields form in
      match fields with
      | _ :: _ => Some (Form (Py.dict_fromkeys fields))
      | [] => None
      end
  | None => None
  end.

(** Table: the element is a table or contains one. *)
Definition table_of (element : node) : option node :=
  if String.eqb (name element) "table" then Some element
  else find (named ["table"]) element.

(** The header texts that are not empty. *)
Definition table_columns (table : node) : list string :=
  List.filter Py.truthy (get_text_strip "" <$> find_all (named ["th"]) table).

(** What one of the first six rows contributes to [rows]: its cell texts,
    when it has a cell and some cell text is not empty. *)
Definition table_row (tr : node) : list (list string) :=
  match find_all (named ["td"; "th"]) tr with
  | [] => []
  | tds =>
      let row_data := get_text_strip "" <$> tds in
      if existsb Py.truthy row_data then [row_data] else []
  end.

Definition table_rows (table : node) : list (list string) :=
  flat_map table_row (take 6 (find_all (named ["tr"]) table)).

Definition table_case (element : node) : option component :=
  match table_of element with
  | Some table =>
      let columns := table_columns table in
      let rows := table_rows table in
      if bool_decide (columns ≠ []) || (1 <? length rows)
      then Some (Table (match columns with [] => None | _ => Some columns end)
                       (take 5 rows))
      else None
  | None => None
  end.

(** List: the first [ul] or [ol] below the element. *)
Definition list_item (li : node) : list string :=
  let item_text := get_text_strip "" li in
  if Py.truthy item_text && (Py.len item_text <? 200) then [item_text] else [].

Definition list_case (element : node) : option component :=
  match find (named ["ul"; "ol"]) element with
  | Some ul =>
      if bool_decide (name element ∈ ["nav"; "header"; "footer"]) then None
      else
        let items := flat_map list_item (take 10 (find_all_children (named ["li"]) ul)) in
        if 3 <=? length items then Some (ListItems items) else None
  | None => None
  end.

(** Media gallery: two images or more. *)
Definition image_info (img : node) : list (string * string) :=
  let alt := get_default img "alt" "Image" in
  let src := get_default img "src" "" in
  if Py.truthy src then [(alt, src)] else [].

Definition gallery_case (element : node) : option component :=
  let images := find_all (named ["img"]) element in
  if 2 <=? length images then
    match flat_map image_info (take 5 images) with
    | [] => None
    | info => Some (MediaGallery (length images) info)
    end
  else None.

(** Rich text: more than 100 characters and a heading. *)
Definition rich_text_case (element : node) (text : string) : option component :=
  if 100 <? Py.len text then
    match find_all (named ["h1"; "h2"; "h3"; "h4"; "h5"]) element with
    | h :: _ =>
        let heading_text := get_text_strip "" h in
        let content := Py.strip (Py.replace_first heading_text "" text) in
        Some (RichText heading_text (Py.ellipsis 300 content))
    | [] => None
    end
  else None.

(** Plain text block: reached inside the same [len(text) > 100] block,
    after the heading test. *)
Definition text_block_case (text : string) : option component :=
  if 100 <? Py.len text then
    let text := Py.strip (Py.collapse_ws text) in
    if 50 <? Py.len text then Some (TextBlock (Py.ellipsis 400 text)) else None
  else None.

(** [identify_component_type(element)]: the size gate, then the blocks in
    source order; the first block that returns decides. *)
Definition identify_component_type (element : node) : option component :=
  if negb (is_tag element) then None
  else
    let text := get_text_strip " " element in
    if Py.len text <? 20 then None
    else
      match hero_case element with Some c => Some c | None =>
      match form_case element with Some c => Some c | None =>
      match table_case element with Some c => Some c | None =>
      match list_case element with Some c => Some c | None =>
      match gallery_case element with Some c => Some c | None =>
      match rich_text_case element text with Some c => Some c | None =>
      text_block_case text
      end end end end end end.

(** *** Slugs *)

(** [re.sub(r'\.(php|html|htm)$', '', path)] *)
Definition strip_page_extension (path : string) : string :=
  match List.filter (fun e => Py.endswith ("." +:+ e) path) ["php"; "html"; "htm"] with
  | e :: _ => Py.take_str (Py.len path - Py.len ("." +:+ e)) path
  | [] =>
      match List.filter (fun e => Py.endswith ("." +:+ e +:+ newline) path)
              ["php"; "html"; "htm"] with
      | e :: _ => Py.take_str (Py.len path - Py.len ("." +:+ e +:+ newline)) path +:+ newline
      | [] => path
      end
  end.

(** [re.sub(r'-+', '-', s)] *)
Fixpoint squeeze_hyphens_go (in_run : bool) (s : string) : string :=
  match s with
  | "" => ""
  | String c s' =>
      if Ascii.eqb c "-"
      then (if in_run then squeeze_hyphens_go true s'
            else String "-" (squeeze_hyphens_go true s'))
      else String c (squeeze_hyphens_go false s')
  end.

Definition squeeze_hyphens (s : string) : string := squeeze_hyphens_go false s.

(** [re.sub(r'[^a-z0-9\-]', '-', s)] *)
Definition hyphenate (s : string) : string :=
  Py.map_chars (fun c => if Py.is_lower c || Py.is_digit c || Ascii.eqb c "-" then c else "-"%char) s.

(** [generate_page_slug(url)] *)
Definition generate_page_slug (url : string) : pyres string :=
  parsed ← Url.urlparse (bracketed_host_ok X) url;
  let path := Py.strip_chars "/" (Url.path parsed) in
  if negb (Py.truthy path) then Returns "home"
  else
    let path := strip_page_extension path in
    let slug := (Url.rsplit_slash path).2 in
    let slug := hyphenate (Py.lower slug) in
    let slug := Py.strip_chars "-" (squeeze_hyphens slug) in
    Returns (if Py.truthy slug then slug else "home").

(** *** The components and links of a page *)

(** [tag.decompose()] for every tag with one of the names: the subtrees
    are gone from the copy. *)
Fixpoint decompose_all (names : list string) (n : node) : node :=
  match n with
  | Text s => Text s
  | Tag nm attrs cs =>
      Tag nm attrs
        (flat_map (fun c => if named names c then [] else [decompose_all names c]) cs)
  end.

(** Every descendant with its [parent], in document order. *)
Fixpoint descendants_with_parent (n : node) : list (node * node) :=
  match n with
  | Text _ => []
  | Tag _ _ cs => flat_map (fun c => (n, c) :: descendants_with_parent c) cs
  end.

(** The main content area of the copy. *)
Definition main_region (soup_copy : node) : option node :=
  match find (named ["main"]) soup_copy with
  | Some main => Some main
  | None =>
  match find (fun n => named ["div"] n && id_matches ["content"; "main"] n) soup_copy with
  | Some main => Some main
  | None =>
  match find (fun n => named ["div"] n && class_matches ["content"; "main"] n) soup_copy with
  | Some main => Some main
  | None => find (named ["body"]) soup_copy
  end end end.

(** [if comp: components.append(comp)] over the candidates *)
Definition append_components (candidates : list node) (components : list component)
    : list component :=
  components ++ omap identify_component_type candidates.

(** [if comp and comp not in components: components.append(comp)] *)
Fixpoint append_new_components (candidates : list node) (components : list component)
    : list component :=
  match candidates with
  | [] => components
  | c :: candidates' =>
      match identify_component_type c with
      | Some comp =>
          if bool_decide (comp ∈ components)
          then append_new_components candidates' components
          else append_new_components candidates' (components ++ [comp])
      | None => append_new_components candidates' components
      end
  end.

(** [extract_page_components(soup)]; it raises when the copy has no main
    content area at all. *)
Definition extract_page_components (soup : node) : pyres (list component) :=
  let soup_copy := decompose_all ["header"; "footer"] soup in
  match main_region soup_copy with
  | None => Raises
  | Some main =>
      let hero :=
        find (fun n => named ["div"; "section"] n
                       && class_matches ["hero"; "banner"; "slider"; "jumbotron"; "intro"] n)
             main in
      let components := append_components (option_list hero) [] in
      let components := append_components (find_all (named ["form"]) main) components in
      let components := append_components (find_all (named ["table"]) main) components in
      let sections :=
        match find_all (named ["section"; "article"]) main with
        | [] =>
            find_all (fun n => named ["div"] n
                               && class_matches ["section"; "block"; "component"; "paragraph";
                                                 "content-block"; "region"] n) main
        | sections => sections
        end in
      let components := append_new_components (take 10 sections) components in
      let components :=
        match components with
        | [] =>
            append_new_components
              (fst <$> take 5 (List.filter (fun pc => named ["h1"; "h2"; "h3"] pc.2)
                                 (descendants_with_parent main)))
              components
        | _ => components
        end in
      let components :=
        match components with
        | [] =>
            let text := Py.strip (Py.collapse_ws (get_text_strip " " main)) in
            if 50 <? Py.len text then [TextBlock (Py.ellipsis 600 text)] else []
        | _ => components
        end in
      Returns components
  end.

(** The body of the loop of [extract_page_links] for one anchor. *)
Definition page_link (self : parser) (a : node) (links : list string * list string)
    : pyres (list string * list string) :=
  let '(internal, external) := links in
  let href := get_default a "href" "" in
  if startswith_any skipped_schemes href then Returns links
  else if Py.contains "cookie" (Py.lower href) then Returns links
  else
    absolute ← urljoin X (base_url self) href;
    is_internal ← is_internal_link self absolute;
    if is_internal : bool then
      clean ← normalize_url absolute;
      Returns (if negb (bool_decide (clean ∈ internal)) && negb (Py.endswith ".pdf" clean)
               then (internal ++ [clean], external) else links)
    else
      Returns (if negb (bool_decide (absolute ∈ external)) && negb (Py.endswith ".pdf" absolute)
               then (internal, external ++ [absolute]) else links).

Fixpoint page_links (self : parser) (anchors : list node) (links : list string * list string)
    : pyres (list string * list string) :=
  match anchors with
  | [] => Returns links
  | a :: anchors' =>
      links ← page_link self a links;
      page_links self anchors' links
  end.

(** [extract_page_links(soup)] *)
Definition extract_page_links (self : parser) (soup : node)
    : pyres (list string * list string) :=
  let soup_copy := decompose_all ["header"; "footer"; "nav"] soup in
  let content :=
    match find (named ["main"]) soup_copy with
    | Some main => main
    | None => default soup_copy (find (named ["body"]) soup_copy)
    end in
  '(internal, external) ← page_links self (anchors_with_href content) ([], []);
  Returns (take 20 internal, take 10 external).

(** *** One page *)

Record page : Type := mkPage {
  page_slug : string;
  page_title : string;
  page_path : string;
  page_components : list component;
  links_internal : list string;
  links_external : list string
}.

(** [soup.find("main") or soup.body] *)
Definition main_content (soup : node) : option node :=
  match find (named ["main"]) soup with
  | Some main => Some main
  | None => find (named ["body"]) soup
  end.

(** The fingerprint [parse_page] computes: the MD5 of the text of the main
    content; none when the page has neither a [main] element nor a body. *)
Definition content_hash (soup : node) : option string :=
  match main_content soup with
  | Some main_content => Some (md5_hexdigest X (get_text main_content))
  | None => None
  end.

(** [parse_page(url, html)]: [None] for a duplicate, else the page. *)
Definition parse_page (self : parser) (url html : string) (st : state)
    : pyres (option page * state) :=
  let soup := parse_html X html in
  let duplicate :=
    match content_hash soup with
    | Some h => bool_decide (h ∈ seen_content_hashes st)
    | None => false
    end in
  if duplicate then Returns (None, st)
  else
    let st :=
      match content_hash soup with
      | Some h => mkState (net st) (fetched st) (visited st) ({[h]} ∪ seen_content_hashes st)
      | None => st
      end in
    let title :=
      match find (named ["title"]) soup with
      | Some t => get_text_strip "" t
      | None => ""
      end in
    slug ← generate_page_slug url;
    parsed ← Url.urlparse (bracketed_host_ok X) url;
    let path := if Py.truthy (Url.path parsed) then Url.path parsed else "/" in
    components ← extract_page_components soup;
    '(internal, external) ← extract_page_links self soup;
    Returns (Some (mkPage slug title path components internal external), st).

(* ===================================================================== *)
(** ** Main execution *)
(* ===================================================================== *)

Record website : Type := mkWebsite {
  site_name : string;
  site_url : string;
  site_description : string;
  site_header : dict;
  site_footer : dict;
  pages : list page
}.

(** What [run] returns: the empty dictionary, or the website. *)
Inductive output : Type :=
| EmptyResult
| Website (w : website).

(** The loop of [run] over the discovered URLs. *)
Fixpoint parse_pages (self : parser) (urls : list string) (pages : list page) (st : state)
    : pyres (list page * state) :=
  match urls with
  | [] => Returns (pages, st)
  | url :: urls' =>
      let '(html, st) := fetch url st in
      if no_html html then parse_pages self urls' pages st
      else
        '(page_data, st) ← parse_page self url (default "" html) st;
        match page_data with
        | Some p => parse_pages self urls' (pages ++ [p]) st
        | None => parse_pages self urls' pages st
        end
  end.

(** [run()]; [fuel] bounds the iterations of the discovery loop. *)
Definition run (fuel : nat) (self : parser) (st : state) : option (pyres (output * state)) :=
  match discover_all_pages fuel self st with
  | None => None
  | Some Raises => Some Raises
  | Some (Returns (all_urls, st)) =>
      let '(homepage_html, st) := fetch (base_url self) st in
      if no_html homepage_html then Some (Returns (EmptyResult, st))
      else
        let homepage_soup := parse_html X (default "" homepage_html) in
        let metadata := extract_website_metadata self homepage_soup in
        let header := extract_header homepage_soup in
        Some (
          footer ← extract_footer self homepage_soup;
          '(pages, st) ← parse_pages self all_urls [] st;
          Returns (Website (mkWebsite (meta_name metadata) (meta_url metadata)
                              (meta_description metadata) header footer pages), st))
  end.

End DrupalParser.

(* ===================================================================== *)
(** * Notions the statements and proofs use *)
(* ===================================================================== *)

(** ** Shapes of URLs *)

Definition scheme_char (c : ascii) : bool := Py.char_in c Url.scheme_chars.
Definition safe_char (c : ascii) : bool := negb (Url.unsafe_char c).
Definition is_not (d c : ascii) : bool := negb (Ascii.eqb c d).

(** A scheme as [urlsplit] returns it when it finds one: it starts with a
    letter, holds scheme characters only and is in lower case. *)
Definition good_scheme (s : string) : Prop :=
  match s with
  | "" => False
  | String c _ =>
      Py.is_alpha c = true ∧ Url.all_chars scheme_char s = true ∧ Py.lower s = s
  end.

(** The text is empty or starts with a character that ends a netloc. *)
Definition starts_delim (s : string) : bool :=
  match s with "" => true | String c _ => Url.netloc_delimiter c end.

(** The text is empty or starts with a slash. *)
Definition starts_slash (s : string) : bool :=
  match s with "" => true | String c _ => Ascii.eqb c "/" end.

(** What every result of [urlsplit] and [urlparse] satisfies. *)
Record well_split (ok : string → bool) (r : Url.ParseResult) : Prop := {
  ws_scheme : Url.scheme r = "" ∨ good_scheme (Url.scheme r);
  ws_netloc_safe : Url.all_chars safe_char (Url.netloc r) = true;
  ws_netloc_delim :
    Url.all_chars (λ c, negb (Url.netloc_delimiter c)) (Url.netloc r) = true;
  ws_netloc_check : Url.check_netloc ok (Url.netloc r) = true;
  ws_path_safe : Url.all_chars safe_char (Url.path r) = true;
  ws_path_fragment : Url.all_chars (is_not "#") (Url.path r) = true;
  ws_path_query : Url.all_chars (is_not "?") (Url.path r) = true;
  ws_path_start : Url.netloc r ≠ "" → starts_slash (Url.path r) = true
}.

(** The path [normalize_url] keeps: without its trailing slashes when it
    has more than one character. *)
Definition kept_path (p : string) : string :=
  if 1 <? Py.len p then Py.rstrip_chars "/" p else p.

(** ** The matching conditions of the classifier *)

(** The Form heuristic in the words of the specification: the element is
    a form or contains one, and that form has a field that survives. *)
Definition form_heuristic (element : node) : Prop :=
  ∃ form,
    (form = element ∧ name element = "form" ∨ form ∈ find_all (named ["form"]) element)
    ∧ form_fields form ≠ [].

(** What the Form block of the classifier asks for: the form it looks at,
    the element itself when it is a form and the first form below it
    otherwise, has a field that survives. *)
Definition first_form_has_field (element : node) : Prop :=
  ∃ form, form_of element = Some form ∧ form_fields form ≠ [].

(** The TextBlock block matches: the text is long enough. *)
Definition text_block_heuristic (element : node) : Prop :=
  is_Some (text_block_case (get_text_strip " " element)).

(** ** Example documents *)

(** A table as HTML writes it: a row of header cells, then rows of data
    cells; every cell holds one string. *)
Definition cell (tag s : string) : node := Tag tag [] [Text s].

Definition table_row_of (tag : string) (cells : list string) : node :=
  Tag "tr" [] (cell tag <$> cells).

Definition simple_table (headers : list string) (rows : list (list string)) : node :=
  Tag "table" [] (table_row_of "th" headers :: (table_row_of "td" <$> rows)).

(** A newsletter box: a hero class, a paragraph and a form. *)
Definition newsletter : node :=
  Tag "div" [("class", "hero newsletter")]
    [ Tag "p" [] [Text "Join thousands of readers who receive our monthly newsletter with product news, tips and community stories."];
      Tag "form" [("action", "/subscribe")]
        [ Tag "input" [("type", "email"); ("placeholder", "Your email")] [];
          Tag "input" [("type", "submit"); ("value", "Subscribe")] [] ] ].

(** The same box without the hero class. *)
Definition signup : node :=
  Tag "div" [("class", "signup")]
    [ Tag "p" [] [Text "Join thousands of readers who receive our monthly newsletter with product news, tips and community stories."];
      Tag "form" [("action", "/subscribe")]
        [ Tag "input" [("type", "email"); ("placeholder", "Your email")] [];
          Tag "input" [("type", "text");
                       ("name", "a_field_whose_name_is_far_too_long_to_be_kept_as_a_form_label")] [];
          Tag "input" [("type", "submit"); ("value", "Subscribe")] [] ] ].

(** A box whose first form has no field that survives and whose second
    form has one, with a paragraph of more than 100 characters. *)
Definition two_forms : node :=
  Tag "div" [("class", "signup")]
    [ Tag "form" [("action", "/search")]
        [ Tag "input" [("type", "submit"); ("value", "Search")] [] ];
      Tag "p" [] [Text "Join thousands of readers who receive our monthly newsletter with product news, tips and community stories."];
      Tag "form" [("action", "/subscribe")]
        [ Tag "input" [("type", "email"); ("placeholder", "Your email")] [];
          Tag "input" [("type", "submit"); ("value", "Subscribe")] [] ] ].

(** A form whose only field has a placeholder of 49 sharp s. *)
Fixpoint repeat_char (c : ascii) (n : nat) : string :=
  match n with
  | 0 => ""
  | S n' => String c (repeat_char c n')
  end.

Definition sharp_input : node :=
  Tag "input" [("type", "text"); ("placeholder", repeat_char Py.sharp_s 49)] [].

Definition sharp_form : node :=
  Tag "form" [("action", "/send")]
    [ Tag "p" [] [Text "Please fill in the form below."];
      sharp_input;
      Tag "input" [("type", "submit"); ("value", "Send")] [] ].

(** The text holds ASCII characters only. *)
Definition ascii_only (s : string) : bool :=
  Url.all_chars (λ c, nat_of_ascii c <? 128) s.

(** A notice of 56 characters, and one of more than 100. *)
Definition short_notice : node :=
  Tag "div" [("class", "notice")]
    [Text "Our office is closed on public holidays and at weekends."].

Definition long_notice : node :=
  Tag "div" [("class", "notice")]
    [Text "Our office is closed on public holidays and at weekends.   Please use the contact form for urgent requests during these days."].

(** ** The invariant of the discovery loop *)

(** What holds of every configuration of the loop: [q0] is the queue the
    loop started with, [log0] the fetch log at that time, [popped] the URLs
    taken from the queue so far and [tried] those of them passed to
    [fetch]. *)
Definition frontier_inv {world} (q0 log0 : list string) (c : frontier * @state world) : Prop :=
  ∃ popped tried,
    q0 ++ appended c.1 = popped ++ queue c.1
    ∧ NoDup (q0 ++ appended c.1)
    ∧ all_urls c.1 = list_to_set (q0 ++ appended c.1)
    ∧ visited c.2 ⊆ list_to_set popped
    ∧ fetched c.2 = log0 ++ tried
    ∧ tried `sublist_of` popped.

(** ** Collaborators for the examples *)

(** A site that answers nothing: every request raises. *)
Definition offline : externals unit :=
  mkExternals unit (λ w _, (None, w)) (λ _, true) (λ _ href, Returns href)
    (λ _, Tag "[document]" [] []) (λ _, Tag "[document]" [] [])
    (λ s, s) (λ _ _, None) (λ _ _, []) (λ _ _ s, s).

(** A site of one page: every request is answered with the same document,
    which has no link. *)
Definition home_main : node :=
  Tag "main" []
    [Tag "p" [] [Text "Welcome to the example site, a single page without any outbound link."]].

Definition home_page : node :=
  Tag "[document]" []
    [Tag "html" []
       [Tag "head" [] [Tag "title" [] [Text "Example Site"]];
        Tag "body" []
          [Tag "header" [] [Tag "img" [("src", "/logo.png"); ("alt", "Example")] []];
           home_main;
           Tag "footer" [] [Tag "p" [] [Text "All rights reserved."]]]]].

(** A document whose footer has an internal link and a social link, and
    neither an address, a phone number nor an e-mail address. *)
Definition imprint_page : node :=
  Tag "[document]" []
    [Tag "html" []
       [Tag "body" []
          [Tag "footer" []
             [Tag "a" [("href", "https://example.com/imprint")] [Text "Imprint"];
              Tag "a" [("href", "https://twitter.com/example")] [Text "Twitter"]]]]].

Definition one_page : externals unit :=
  mkExternals unit
    (λ w url, (Some (mkResponse 200 "text/html; charset=utf-8" "<html>home</html>"), w))
    (λ _, true) (λ _ href, Returns href)
    (λ _, home_page) (λ _, Tag "[document]" [] [])
    (λ s, s) (λ _ _, None) (λ _ _, []) (λ _ _ s, s).

(** A site that answers every request with status 200, an HTML content
    type and an empty body. *)
Definition blank_home : externals unit :=
  mkExternals unit
    (λ w url, (Some (mkResponse 200 "text/html" ""), w))
    (λ _, true) (λ _ href, Returns href)
    (λ _, Tag "[document]" [] []) (λ _, Tag "[document]" [] [])
    (λ s, s) (λ _ _, None) (λ _ _, []) (λ _ _ s, s).

Definition example_parser : parser := mkParser "https://example.com" "example.com".



(** A crawler trap: every page of [trap.example] is served, and the page
    at [u] links to [u/next-page]. *)
Fixpoint trap_path (k : nat) : string :=
  match k with
  | 0 => ""
  | S k' => trap_path k' +:+ "/next-page"
  end.

Definition trap_url (k : nat) : string :=
  "http" +:+ "://" +:+ "trap.example" +:+ trap_path k.

Definition trap : externals unit :=
  mkExternals unit
    (λ w url, (Some (mkResponse 200 "text/html" url), w))
    (λ _, true)
    (λ _ href, Returns href)
    (λ body, Tag "[document]" []
               [Tag "html" []
                  [Tag "body" []
                     [Tag "a" [("href", body +:+ "/next-page")] [Text "Next page"]]]])
    (λ _, Tag "[document]" [] [])
    (λ s, s) (λ _ _, None) (λ _ _, []) (λ _ _ s, s).

Definition trap_parser : parser := mkParser "http://trap.example" "trap.example".


(* ===================================================================== *)
(** * Further notions and example documents *)
(* ===================================================================== *)

(** The characters of a slug: lower-case letters, digits and the hyphen. *)
Definition slug_char (c : ascii) : bool :=
  Py.is_lower c || Py.is_digit c || Ascii.eqb c "-".

(** What [page_links] keeps of its two lists: no link twice, no PDF, the
    internal links normal forms of internal URLs, the external links not
    internal. *)
Definition links_inv {world} (X : externals world) (self : parser)
    (links : list string * list string) : Prop :=
  NoDup links.1 ∧ NoDup links.2
  ∧ Forall (λ u, Py.endswith ".pdf" u = false
                 ∧ ∃ absolute, is_internal_link X self absolute = Returns true
                               ∧ normalize_url X absolute = Returns u) links.1
  ∧ Forall (λ u, Py.endswith ".pdf" u = false
                 ∧ is_internal_link X self u = Returns false) links.2.

(** ** The entry point *)

(** [s.replace(old, new)] for an [old] that is not empty: the occurrences
    of [old] are replaced from left to right; [skip] counts the characters
    of the occurrence being replaced that are still to be passed. *)
Fixpoint replace_go (old new : string) (skip : nat) (s : string) : string :=
  match s with
  | "" => ""
  | String c s' =>
      match skip with
      | S skip' => replace_go old new skip' s'
      | 0 =>
          if Py.startswith old s then new +:+ replace_go old new (Py.len old - 1) s'
          else String c (replace_go old new 0 s')
      end
  end.

Definition replace_all (old new s : string) : string := replace_go old new 0 s.

(** The URL the entry point hands to the parser: [https://] is put before
    an argument that starts with neither [http://] nor [https://]. *)
Definition website_url (url : string) : string :=
  if startswith_any ["http://"; "https://"] url then url else "https://" +:+ url.

(** The name of the output file when [--output] is not given. *)
Definition output_file (ok : string → bool) (website_url : string) : pyres string :=
  parsed ← Url.urlparse ok website_url;
  let domain := Url.netloc parsed in
  let domain := Py.replace_char "." "_" (replace_all "www." "" domain) in
  Returns (domain +:+ "_analysis.json").

(** ** More example documents *)

(** A section with a list of three items. *)
Definition feature_list : node :=
  Tag "section" [("class", "features")]
    [Tag "ul" []
       [Tag "li" [] [Text "Fast page discovery"];
        Tag "li" [] [Text "Clean component output"];
        Tag "li" [] [Text "No configuration needed"]]].

(** A block with two images, one of them without an [alt] text. *)
Definition photo_strip : node :=
  Tag "div" [("class", "photos")]
    [Tag "img" [("src", "/img/office.jpg"); ("alt", "Office building")] [];
     Tag "img" [("src", "/img/team.jpg")] [];
     Tag "p" [] [Text "Pictures of our new office."]].

(** A page whose main part links to an internal page, twice, to a PDF and
    to another site, and whose header and footer hold links as well. *)
Definition links_page : node :=
  Tag "[document]" []
    [Tag "html" []
       [Tag "body" []
          [Tag "header" [] [Tag "a" [("href", "https://example.com/login")] [Text "Log in"]];
           Tag "main" []
             [Tag "a" [("href", "https://example.com/about/?ref=home#team")] [Text "About us"];
              Tag "a" [("href", "https://example.com/about")] [Text "More about us"];
              Tag "a" [("href", "https://example.com/files/report.pdf")] [Text "Report"];
              Tag "a" [("href", "https://other.example.org/partners")] [Text "Partners"];
              Tag "a" [("href", "mailto:info@example.com")] [Text "Write to us"]];
           Tag "footer" [] [Tag "a" [("href", "https://example.com/imprint")] [Text "Imprint"]]]]].

(** A site whose sitemap lists two pages, one of them with a query string,
    and that serves no HTML. *)
Definition sitemap_site : externals unit :=
  mkExternals unit
    (λ w url, (Some (mkResponse 200 "application/xml" "<urlset><loc>...</loc></urlset>"), w))
    (λ _, true) (λ _ href, Returns href)
    (λ _, Tag "[document]" [] [])
    (λ _, Tag "[document]" []
            [Tag "urlset" []
               [Tag "url" [] [Tag "loc" [] [Text " https://example.com/news/?page=2 "]];
                Tag "url" [] [Tag "loc" [] [Text "https://example.com/contact/"]]]])
    (λ s, s) (λ _ _, None) (λ _ _, []) (λ _ _ s, s).

(** ** Plain hosts and paths *)

(** The characters of a host name with an optional port, and those of a
    path without parameters, query string or fragment. *)
Definition host_char (c : ascii) : bool :=
  Py.is_alpha c || Py.is_digit c || Py.char_in c ".-:".

Definition path_char (c : ascii) : bool :=
  Py.is_alpha c || Py.is_digit c || Py.char_in c "/._-~%".

(* ===================================================================== *)
(** * Facts about the string operations *)
(* ===================================================================== *)

(** Facts about single characters are proved by enumeration. *)
Ltac each_char c := destruct c as [[] [] [] [] [] [] [] []]; vm_compute; try done.

Module PyFacts.
Import Py Url.
#[local] Arguments String.append !_ _ / : simpl nomatch.
#[local] Arguments netloc_delimiter : simpl never.

Lemma app_nil_r a : a +:+ "" = a.
Proof. induction a as [|c a IH]; simpl; [done|]. by rw IH. Qed.

Lemma app_assoc a b c : (a +:+ b) +:+ c = a +:+ b +:+ c.
Proof. induction a as [|x a IH]; simpl; [done|]. by rw IH. Qed.

Lemma len_app a b : len (a +:+ b) = len a + len b.
Proof. unfold len. induction a as [|x a IH]; simpl; [done|]. by rw IH. Qed.

Lemma truthy_len s : truthy s = true ↔ 0 < len s.
Proof. destruct s; simpl; unfold len; simpl; split; (done || lia). Qed.

(** Title case does not shorten a text, and keeps its length when the
    sharp s does not occur. *)
Lemma len_title_char c : 1 ≤ len (title_char c) ≤ 2.
Proof. unfold title_char. destruct (Ascii.eqb c sharp_s); unfold len; simpl; lia. Qed.

Lemma len_title_go b s : len s ≤ len (title_go b s) ≤ 2 * len s.
Proof.
  revert b. induction s as [|c s IH]; intros b; [unfold len; simpl; lia|].
  cbn [title_go]. rw len_app. specialize (IH (is_cased c)).
  pose proof (len_title_char c).
  change (len (String c s)) with (S (len s)).
  destruct b; [change (len (String (lower_char c) "")) with 1|]; lia.
Qed.

Lemma len_title s : len s ≤ len (title s) ≤ 2 * len s.
Proof. apply len_title_go. Qed.

Lemma len_title_go_plain b s :
  all_chars (λ c, negb (Ascii.eqb c sharp_s)) s = true → len (title_go b s) = len s.
Proof.
  revert b. induction s as [|c s IH]; intros b; [done|].
  cbn [all_chars]. intros [Hc%negb_true_iff Hs]%andb_true_iff.
  cbn [title_go]. rw len_app (IH _ Hs). unfold title_char. rw Hc.
  change (len (String c s)) with (S (len s)). by destruct b.
Qed.

Lemma dedup_go_subset seen l x : x ∈ dedup_go seen l → x ∈ l.
Proof.
  revert seen. induction l as [|y l IH]; intros seen; simpl; [done|].
  case_bool_decide.
  - intros Hx%IH. by right.
  - intros [->|Hx%IH]%elem_of_cons; [left|by right].
Qed.

Lemma dict_fromkeys_subset l x : x ∈ dict_fromkeys l → x ∈ l.
Proof. apply dedup_go_subset. Qed.

Lemma all_chars_app P a b : all_chars P (a +:+ b) = all_chars P a && all_chars P b.
Proof. induction a as [|c a IH]; simpl; [done|]. rw IH. by destruct (P c). Qed.

Lemma all_chars_impl (P Q : ascii → bool) s :
  (∀ c, P c = true → Q c = true) → all_chars P s = true → all_chars Q s = true.
Proof.
  intros HPQ. induction s as [|c s IH]; simpl; [done|].
  destruct (P c) eqn:Hc; [|done]. rw (HPQ _ Hc). simpl. auto.
Qed.

Lemma all_chars_map P f s :
  all_chars P (map_chars f s) = all_chars (λ c, P (f c)) s.
Proof. induction s as [|c s IH]; simpl; [done|]. by rw IH. Qed.

Lemma all_chars_cons P c s : all_chars P (String c s) = true → P c = true ∧ all_chars P s = true.
Proof. simpl. by intros ?%andb_true_iff. Qed.

(** [rstrip] *)
Lemma rstrip_with_app P a b :
  rstrip_with P (a +:+ b) =
  match rstrip_with P b with "" => rstrip_with P a | r => a +:+ r end.
Proof.
  induction a as [|c a IH]; simpl; [by destruct (rstrip_with P b)|].
  rw IH. by destruct (rstrip_with P b) eqn:Hb; [|destruct a].
Qed.

Lemma rstrip_with_none P s :
  all_chars (λ c, negb (P c)) s = true → rstrip_with P s = s.
Proof.
  induction s as [|c s IH]; simpl; [done|]. intros [Hc Hs]%andb_true_iff.
  rw IH; [done|]. destruct s; [|done]. by destruct (P c).
Qed.

Lemma rstrip_with_idem P s : rstrip_with P (rstrip_with P s) = rstrip_with P s.
Proof.
  induction s as [|c s IH]; simpl; [done|].
  destruct (rstrip_with P s) eqn:Hs.
  - destruct (P c) eqn:Hc; [done|]. simpl. by rw Hc.
  - simpl. simpl in IH. by rw IH.
Qed.

Lemma all_chars_rstrip Q P s : all_chars Q s = true → all_chars Q (rstrip_with P s) = true.
Proof.
  induction s as [|c s IH]; simpl; [done|]. intros [Hc Hs]%andb_true_iff.
  specialize (IH Hs). destruct (rstrip_with P s); [destruct (P c)|]; simpl in *; by rw ?Hc.
Qed.

Lemma len_rstrip P s : len (rstrip_with P s) ≤ len s.
Proof.
  unfold len. induction s as [|c s IH]; simpl; [done|].
  destruct (rstrip_with P s); [destruct (P c)|]; simpl in *; lia.
Qed.

Lemma remove_chars_none P s :
  all_chars (λ c, negb (P c)) s = true → remove_chars P s = s.
Proof.
  induction s as [|c s IH]; simpl; [done|]. intros [Hc Hs]%andb_true_iff.
  destruct (P c); [done|]. by rw IH.
Qed.

Lemma all_chars_remove P s : all_chars (λ c, negb (P c)) (remove_chars P s) = true.
Proof.
  induction s as [|c s IH]; simpl; [done|]. destruct (P c) eqn:Hc; [done|].
  simpl. by rw Hc.
Qed.

(** [partition] *)
Lemma partition_spec c s a ob :
  partition c s = (a, ob) →
  all_chars (λ d, negb (Ascii.eqb d c)) a = true ∧
  s = a +:+ match ob with Some b => String c b | None => "" end.
Proof.
  revert a ob. induction s as [|d s IH]; intros a ob; simpl.
  { by intros [= <- <-]. }
  destruct (Ascii.eqb d c) eqn:Hd.
  { intros [= <- <-]. by apply Ascii.eqb_eq in Hd as ->. }
  destruct (partition c s) as [a' ob'] eqn:Hp. intros [= <- <-].
  destruct (IH _ _ eq_refl) as [Ha Hs]. simpl. rw Hd. simpl. split; [done|].
  by rw -Hs.
Qed.

Lemma partition_app c a b :
  all_chars (λ d, negb (Ascii.eqb d c)) a = true →
  partition c (a +:+ String c b) = (a, Some b).
Proof.
  induction a as [|d a IH]; simpl.
  { by rw Ascii.eqb_refl. }
  intros [Hd Ha]%andb_true_iff.
  apply negb_true_iff in Hd. by rw Hd IH.
Qed.

Lemma partition_none c a :
  all_chars (λ d, negb (Ascii.eqb d c)) a = true → partition c a = (a, None).
Proof.
  induction a as [|d a IH]; simpl; [done|].
  intros [Hd Ha]%andb_true_iff. apply negb_true_iff in Hd. by rw Hd IH.
Qed.

(** [splitnetloc] *)
Lemma splitnetloc_spec s n rest :
  splitnetloc s = (n, rest) →
  s = n +:+ rest ∧ all_chars (λ c, negb (netloc_delimiter c)) n = true ∧ starts_delim rest = true.
Proof.
  revert n rest. induction s as [|c s IH]; intros n rest; simpl.
  { by intros [= <- <-]. }
  destruct (netloc_delimiter c) eqn:Hc.
  { intros [= <- <-]. simpl. by rw Hc. }
  destruct (splitnetloc s) as [n' r'] eqn:Hs. intros [= <- <-].
  destruct (IH _ _ eq_refl) as (-> & Hn & Hr). simpl. by rw Hc.
Qed.

Lemma splitnetloc_app n rest :
  all_chars (λ c, negb (netloc_delimiter c)) n = true → starts_delim rest = true →
  splitnetloc (n +:+ rest) = (n, rest).
Proof.
  induction n as [|c n IH].
  { intros _. destruct rest as [|c r]; [done|]. simpl. by intros ->. }
  intros [Hc Hn]%all_chars_cons Hr. simpl.
  apply negb_true_iff in Hc. by rw Hc IH.
Qed.


Lemma lower_char_idem c : lower_char (lower_char c) = lower_char c.
Proof. each_char c. Qed.
Lemma is_alpha_lower c : is_alpha (lower_char c) = is_alpha c.
Proof. each_char c. Qed.
Lemma scheme_char_lower c : scheme_char (lower_char c) = scheme_char c.
Proof. each_char c. Qed.
Lemma scheme_char_safe c : scheme_char c = true → safe_char c = true.
Proof. each_char c. Qed.
Lemma scheme_char_not_colon c : scheme_char c = true → is_not ":" c = true.
Proof. each_char c. Qed.
Lemma is_alpha_not_c0 c : is_alpha c = true → c0_control_or_space c = false.
Proof. each_char c. Qed.
Lemma not_delimiter_not_slash c :
  negb (netloc_delimiter c) = true → negb (char_in c "/") = true.
Proof. each_char c. Qed.

Lemma lower_idem s : lower (lower s) = lower s.
Proof. unfold lower. induction s as [|c s IH]; simpl; [done|]. by rw lower_char_idem IH. Qed.

Lemma split_scheme_spec url s rest :
  split_scheme url = (s, rest) →
  (s = "" ∧ rest = url) ∨ (good_scheme s ∧ ∃ pre, url = pre +:+ String ":" rest).
Proof.
  unfold split_scheme. destruct (partition ":" url) as [pre ob] eqn:Hp.
  apply partition_spec in Hp as [Hpre Hurl].
  destruct pre as [|c pre]; [intros [= <- <-]; by left|].
  destruct ob as [b|]; [|intros [= <- <-]; by left].
  destruct (is_alpha c && _) eqn:Hc; [|intros [= <- <-]; by left].
  apply andb_true_iff in Hc as [Hal Hsc]. intros [= <- <-]. right. split.
  - simpl. rw is_alpha_lower. split; [done|]. split.
    + change (all_chars scheme_char (lower (String c pre)) = true).
      unfold lower. rw all_chars_map.
      eapply all_chars_impl; [|exact Hsc]. intros d. by rw scheme_char_lower.
    + change (lower (lower (String c pre)) = lower (String c pre)). apply lower_idem.
  - by exists (String c pre).
Qed.

Lemma split_scheme_good s rest :
  good_scheme s → split_scheme (s +:+ String ":" rest) = (s, rest).
Proof.
  destruct s as [|c s]; [done|]. intros (Hal & Hsc & Hlow).
  unfold split_scheme. rw partition_app.
  { eapply all_chars_impl; [|exact Hsc]. apply scheme_char_not_colon. }
  fold (scheme_char). rw Hal Hsc. simpl andb. cbv iota. by rw Hlow.
Qed.


Lemma netloc_delimiter_cases c :
  netloc_delimiter c = true → c = "/"%char ∨ c = "?"%char ∨ c = "#"%char.
Proof. each_char c; auto. Qed.

Lemma starts_slash_delim s : starts_slash s = true → starts_delim s = true.
Proof. destruct s as [|c s]; [done|]. simpl. by intros ->%Ascii.eqb_eq. Qed.

Lemma starts_slash_rstrip P s : starts_slash s = true → starts_slash (rstrip_with P s) = true.
Proof.
  destruct s as [|c s]; [done|]. simpl. intros Hc.
  destruct (rstrip_with P s); [by destruct (P c)|done].
Qed.

(** The path is what stands before the first [#] and the first [?]. *)
Lemma path_start rest url1 f url2 q :
  starts_delim rest = true →
  partition "#" rest = (url1, f) → partition "?" url1 = (url2, q) →
  starts_slash url2 = true.
Proof.
  destruct rest as [|c rest]; simpl.
  { by intros _ [= <- <-] [= <- <-]. }
  intros [->| [->| ->]]%netloc_delimiter_cases; simpl.
  - destruct (partition "#" rest) as [a oa]. intros [= <- <-]. simpl.
    destruct (partition "?" a) as [b ob]. by intros [= <- <-].
  - destruct (partition "#" rest) as [a oa]. intros [= <- <-]. simpl.
    by intros [= <- <-].
  - by intros [= <- <-] [= <- <-].
Qed.

Lemma rsplit_slash_spec s h t :
  rsplit_slash s = (h, t) →
  s = h +:+ t ∧ (h = "" → all_chars (is_not "/") s = true).
Proof.
  revert h t. induction s as [|c s IH]; intros h t; simpl.
  { by intros [= <- <-]. }
  destruct (rsplit_slash s) as [h' t'] eqn:Hs.
  destruct (IH _ _ eq_refl) as [-> Hh].
  destruct (truthy h') eqn:Hh'.
  { intros [= <- <-]. done. }
  destruct h'; [|done].
  destruct (Ascii.eqb c "/") eqn:Hc.
  { intros [= <- <-]. apply Ascii.eqb_eq in Hc as ->. done. }
  intros [= <- <-]. split; [done|]. intros _. simpl. unfold is_not at 1. rw Hc. simpl.
  by apply Hh.
Qed.

Lemma splitparams_prefix url p ps :
  splitparams url = (p, ps) →
  (∃ t, url = p +:+ t) ∧ (starts_slash url = true → starts_slash p = true).
Proof.
  unfold splitparams. destruct (rsplit_slash url) as [h t] eqn:Hr.
  apply rsplit_slash_spec in Hr as [-> Hh].
  destruct (partition ";" t) as [seg [pars|]] eqn:Hp.
  - apply partition_spec in Hp as [_ ->]. intros [= <- <-]. split.
    { exists (String ";" pars). by rw app_assoc. }
    destruct h as [|c h]; [|done]. intros Hs.
    specialize (Hh eq_refl). simpl in *. destruct seg as [|c seg]; [done|].
    simpl in *. unfold is_not in Hh. by rw Hs in Hh.
  - intros [= <- <-]. split; [|done]. exists "". by rw app_nil_r.
Qed.

Lemma all_chars_prefix P a b : all_chars P (a +:+ b) = true → all_chars P a = true.
Proof. rw all_chars_app. by intros [? _]%andb_true_iff. Qed.

Lemma all_chars_suffix P a b : all_chars P (a +:+ b) = true → all_chars P b = true.
Proof. rw all_chars_app. by intros [_ ?]%andb_true_iff. Qed.

Lemma all_chars_lstrip Q P s : all_chars Q s = true → all_chars Q (lstrip_with P s) = true.
Proof.
  induction s as [|c s IH]; simpl; [done|]. intros [Hc Hs]%andb_true_iff.
  destruct (P c); [auto|]. simpl. by rw Hc Hs.
Qed.

Lemma startswith_drop p s : startswith p s = true → s = p +:+ drop_str (len p) s.
Proof.
  revert s. induction p as [|a p IH]; intros s; simpl; [done|].
  destruct s as [|b s]; [done|]. intros [->%Ascii.eqb_eq Hs]%andb_true_iff.
  simpl. by rw -IH.
Qed.


Lemma urlsplit_well_split ok u r : urlsplit ok u = Returns r → well_split ok r.
Proof.
  unfold urlsplit.
  set (url0 := remove_chars unsafe_char (lstrip_with c0_control_or_space u)).
  assert (all_chars safe_char url0 = true) as Hsafe0 by apply all_chars_remove.
  destruct (split_scheme url0) as [s url1] eqn:Hs.
  assert (all_chars safe_char url1 = true) as Hsafe1.
  { apply split_scheme_spec in Hs as [[_ ->]|[_ [pre ->]]]; [done|].
    apply all_chars_suffix in Hsafe0. by apply all_chars_cons in Hsafe0 as [_ ?]. }
  assert (scheme_ok : s = "" ∨ good_scheme s).
  { apply split_scheme_spec in Hs as [[-> _]|[? _]]; auto. }
  clear Hs Hsafe0.
  destruct (if startswith "//" url1 then _ else _) as [n url2] eqn:Hn.
  assert (all_chars safe_char n = true ∧ all_chars safe_char url2 = true ∧
          all_chars (λ c, negb (netloc_delimiter c)) n = true ∧
          (n ≠ "" → starts_delim url2 = true)) as (Hsn & Hsafe2 & Hdn & Hstart).
  { destruct (startswith "//" url1) eqn:Hsw.
    - apply startswith_drop in Hsw. rw Hsw in Hsafe1.
      apply all_chars_suffix in Hsafe1.
      apply splitnetloc_spec in Hn as (Heq & Hd & Hst). rw Heq in Hsafe1.
      split; [by eapply all_chars_prefix|]. split; [by eapply all_chars_suffix|]. done.
    - injection Hn as <- <-. done. }
  clear Hn Hsafe1.
  destruct (check_netloc ok n) eqn:Hck; simpl; [|done].
  destruct (partition "#" url2) as [url3 f] eqn:Hf.
  destruct (partition "?" url3) as [url4 q] eqn:Hq.
  intros [= <-]. split; simpl; try done.
  - apply partition_spec in Hf as [_ ->]. apply all_chars_prefix in Hsafe2.
    apply partition_spec in Hq as [_ ->]. by apply all_chars_prefix in Hsafe2.
  - apply partition_spec in Hf as [Hf _].
    apply partition_spec in Hq as [_ ->]. by apply all_chars_prefix in Hf.
  - by apply partition_spec in Hq as [Hq _].
  - intros Hne. eapply path_start; eauto.
Qed.

Lemma urlparse_well_split ok u r : urlparse ok u = Returns r → well_split ok r.
Proof.
  unfold urlparse. destruct (urlsplit ok u) as [r0|] eqn:Hr0; [|done]. simpl.
  apply urlsplit_well_split in Hr0 as [].
  destruct (bool_decide _ && _).
  - destruct (splitparams (path r0)) as [p ps] eqn:Hp.
    apply splitparams_prefix in Hp as [[t Ht] Hst]. intros [= <-].
    rw Ht in ws_path_safe0 ws_path_fragment0 ws_path_query0.
    split; simpl; try done; try by eapply all_chars_prefix. auto.
  - by intros [= <-].
Qed.

Lemma contains_char_false c s :
  contains (String c "") s = false → all_chars (is_not c) s = true.
Proof.
  induction s as [|d s IH]; simpl; [done|].
  intros [Hd Hs]%orb_false_iff. unfold is_not at 1.
  rw Ascii.eqb_sym. destruct (Ascii.eqb c d); [done|]. simpl. auto.
Qed.

Lemma all_chars_contains_false c s :
  all_chars (is_not c) s = true → contains (String c "") s = false.
Proof.
  induction s as [|d s IH]; simpl; [done|]. unfold is_not at 1.
  rw Ascii.eqb_sym. destruct (Ascii.eqb c d); [done|]. simpl. auto.
Qed.

(** A URL put together from a scheme, a netloc and a path of the shape
    [urlparse] produces is parsed back into these three. *)
Lemma urlparse_canonical ok s n q :
  good_scheme s →
  all_chars safe_char n = true →
  all_chars (λ c, negb (netloc_delimiter c)) n = true →
  check_netloc ok n = true →
  all_chars safe_char q = true →
  all_chars (is_not "#") q = true →
  all_chars (is_not "?") q = true →
  all_chars (is_not ";") q = true →
  starts_slash q = true →
  urlparse ok (s +:+ "://" +:+ n +:+ q) = Returns (mkParseResult s n q "" "" "").
Proof.
  intros Hs Hsn Hdn Hck Hsq Hfq Hqq Hpq Hst.
  assert (urlsplit ok (s +:+ "://" +:+ n +:+ q) = Returns (mkParseResult s n q "" "" "")) as Hsplit.
  { unfold urlsplit.
    assert (lstrip_with c0_control_or_space (s +:+ "://" +:+ n +:+ q) = s +:+ "://" +:+ n +:+ q) as ->.
    { destruct s as [|c s]; [done|]. destruct Hs as (Hal & _ & _).
      simpl. by rw (is_alpha_not_c0 _ Hal). }
    rw remove_chars_none.
    { rw !all_chars_app. fold safe_char. rw Hsn Hsq.
      destruct s as [|c s]; [done|]. destruct Hs as (_ & Hsc & _).
      by rw (all_chars_impl _ _ _ scheme_char_safe Hsc). }
    change (s +:+ "://" +:+ n +:+ q) with (s +:+ String ":" ("//" +:+ n +:+ q)).
    rw split_scheme_good; [done|]. simpl.
    rw splitnetloc_app; [done|by apply starts_slash_delim|].
    rw Hck. simpl.
    by rw (partition_none "#" q Hfq) (partition_none "?" q Hqq). }
  unfold urlparse. rw Hsplit. simpl.
  rw (all_chars_contains_false _ _ Hpq). by rw andb_false_r.
Qed.

End PyFacts.

(* ===================================================================== *)
(** * URL normalization *)
(* ===================================================================== *)

Section Normalize.
Import Py Url PyFacts.
#[local] Arguments String.append !_ _ / : simpl nomatch.
Context {world : Type} (X : externals world).

Lemma rstrip_slash_url s n p :
  n ≠ "" → all_chars (λ c, negb (netloc_delimiter c)) n = true →
  rstrip_chars "/" (s +:+ "://" +:+ n +:+ p) = s +:+ "://" +:+ n +:+ rstrip_chars "/" p.
Proof.
  intros Hn Hd. unfold rstrip_chars.
  assert (rstrip_with (λ c, char_in c "/") (n +:+ p)
          = n +:+ rstrip_with (λ c, char_in c "/") p) as Hnp.
  { rw rstrip_with_app. destruct (rstrip_with _ p); [|done].
    rw app_nil_r. apply rstrip_with_none.
    eapply all_chars_impl; [|exact Hd]. apply not_delimiter_not_slash. }
  rw rstrip_with_app (rstrip_with_app _ "://") Hnp.
  destruct n as [|c n]; [done|]. done.
Qed.

Lemma kept_path_fixed p : kept_path (kept_path p) = kept_path p.
Proof.
  unfold kept_path. destruct (1 <? len p) eqn:Hp.
  - unfold rstrip_chars. rw rstrip_with_idem. by case_match.
  - by rw Hp.
Qed.

Lemma normalize_url_parts u r :
  urlparse (bracketed_host_ok X) u = Returns r →
  netloc r ≠ "" →
  normalize_url X u = Returns (scheme r +:+ "://" +:+ netloc r +:+ kept_path (path r)).
Proof.
  intros Hr Hn. unfold normalize_url. rw Hr. simpl. f_equal.
  unfold kept_path. destruct (1 <? len (path r)); [|done].
  apply rstrip_slash_url; [done|]. by apply urlparse_well_split in Hr as [].
Qed.

(** C5 (amended).  Normalization is idempotent on the URLs that parse
    with a scheme and a network location and whose path holds no
    semicolon. *)
Theorem normalize_url_idempotent_on_absolute u r :
  urlparse (bracketed_host_ok X) u = Returns r →
  scheme r ≠ "" →
  netloc r ≠ "" →
  contains ";" (path r) = false →
  ∃ v, normalize_url X u = Returns v ∧ normalize_url X v = Returns v.
Proof.
  intros Hr Hs Hn Hp.
  exists (scheme r +:+ "://" +:+ netloc r +:+ kept_path (path r)).
  split; [by apply normalize_url_parts|].
  pose proof (urlparse_well_split _ _ _ Hr) as [].
  destruct ws_scheme0 as [?|Hgood]; [done|].
  assert (∀ Q, all_chars Q (path r) = true → all_chars Q (kept_path (path r)) = true) as Hkeep.
  { intros Q HQ. unfold kept_path. destruct (1 <? _); [|done]. by apply all_chars_rstrip. }
  assert (urlparse (bracketed_host_ok X) (scheme r +:+ "://" +:+ netloc r +:+ kept_path (path r))
          = Returns (mkParseResult (scheme r) (netloc r) (kept_path (path r)) "" "" "")) as Hparse.
  { apply urlparse_canonical; auto.
    - apply Hkeep. by apply contains_char_false.
    - unfold kept_path. destruct (1 <? _); [|by auto].
      apply starts_slash_rstrip. auto. }
  rw (normalize_url_parts _ _ Hparse); [done|]. simpl.
  fold (kept_path (kept_path (path r))). by rw kept_path_fixed.
Qed.

End Normalize.

(** The theorem at an absolute URL with upper case, a trailing slash, a
    query and a fragment. *)
Lemma normalize_url_witness :
  ∃ v, normalize_url offline "HTTP://example.com/about/?page=2#team" = Returns v
       ∧ normalize_url offline v = Returns v.
Proof.
  eapply (normalize_url_idempotent_on_absolute offline); [vm_compute; reflexivity|done..].
Defined.

(** C5 as it stands fails: a relative URL gains [://] at each
    normalization, and a path with parameters loses its trailing slash at
    the first normalization and its parameters at the second. *)
Lemma normalize_url_not_idempotent :
  normalize_url offline "/about" = Returns ":///about"
  ∧ normalize_url offline ":///about" = Returns "://:///about"
  ∧ normalize_url offline "http://example.com/a;b/" = Returns "http://example.com/a;b"
  ∧ normalize_url offline "http://example.com/a;b" = Returns "http://example.com/a".
Proof. by vm_compute. Qed.

(* ===================================================================== *)
(** * The component classifier *)
(* ===================================================================== *)

(** Each block returns its own kind of component. *)
Lemma hero_case_type e c : hero_case e = Some c → component_type c = "hero_banner".
Proof. unfold hero_case. repeat case_match; naive_solver. Qed.
Lemma form_case_type e c : form_case e = Some c → component_type c = "form".
Proof. unfold form_case. repeat case_match; naive_solver. Qed.
Lemma table_case_type e c : table_case e = Some c → component_type c = "table".
Proof. unfold table_case. repeat case_match; naive_solver. Qed.
Lemma list_case_type e c : list_case e = Some c → component_type c = "list".
Proof. unfold list_case. repeat case_match; naive_solver. Qed.
Lemma gallery_case_type e c : gallery_case e = Some c → component_type c = "media_gallery".
Proof. unfold gallery_case. repeat case_match; naive_solver. Qed.
Lemma rich_text_case_type e t c : rich_text_case e t = Some c → component_type c = "rich_text".
Proof. unfold rich_text_case. repeat case_match; naive_solver. Qed.
Lemma text_block_case_type t c : text_block_case t = Some c → component_type c = "text_block".
Proof. unfold text_block_case. repeat case_match; naive_solver. Qed.

Lemma identify_form_inv e fields :
  identify_component_type e = Some (Form fields) → form_case e = Some (Form fields).
Proof.
  unfold identify_component_type.
  destruct (is_tag e); simpl; [|done].
  case_match; [done|].
  destruct (hero_case e) eqn:Hh.
  { intros [= ->]. by apply hero_case_type in Hh. }
  destruct (form_case e) eqn:Hf; [done|].
  destruct (table_case e) eqn:Ht.
  { intros [= ->]. by apply table_case_type in Ht. }
  destruct (list_case e) eqn:Hl.
  { intros [= ->]. by apply list_case_type in Hl. }
  destruct (gallery_case e) eqn:Hg.
  { intros [= ->]. by apply gallery_case_type in Hg. }
  destruct (rich_text_case e _) eqn:Hr.
  { intros [= ->]. by apply rich_text_case_type in Hr. }
  intros Hb. by apply text_block_case_type in Hb.
Qed.

Lemma form_field_inv inp f :
  f ∈ form_field inp →
  f = Py.title (clean_field_name (field_name inp)) ∧
  0 < Py.len (clean_field_name (field_name inp)) < 50.
Proof.
  unfold form_field. case_bool_decide; [by intros ?%elem_of_nil|].
  destruct (Py.truthy (field_name inp)); [|by intros ?%elem_of_nil].
  destruct (Py.truthy _ && _) eqn:Hc; [|by intros ?%elem_of_nil].
  apply andb_true_iff in Hc as [Ht Hl].
  apply PyFacts.truthy_len in Ht. apply Nat.ltb_lt in Hl.
  intros ->%list_elem_of_singleton. split; [done|lia].
Qed.

Lemma form_field_long inp :
  50 ≤ Py.len (clean_field_name (field_name inp)) → form_field inp = [].
Proof.
  intros H. unfold form_field. case_bool_decide; [done|].
  destruct (Py.truthy (field_name inp)); [|done].
  destruct (Py.len _ <? 50) eqn:Hl; [apply Nat.ltb_lt in Hl; lia|].
  by rewrite andb_false_r.
Qed.

Lemma ascii_only_plain s :
  ascii_only s = true → Url.all_chars (λ c, negb (Ascii.eqb c Py.sharp_s)) s = true.
Proof. apply PyFacts.all_chars_impl. intros c. each_char c. Qed.

(** C10 as it stands fails: the length is tested before the label is put
    in title case, and title case can lengthen a text.  The cleaned label
    of the field of [sharp_form] has 49 characters, so the field is kept,
    and the label the form lists for it has 50. *)
Lemma sharp_label_has_50_characters :
  Py.len (clean_field_name (field_name sharp_input)) = 49
  ∧ identify_component_type sharp_form
    = Some (Form ["Ss" +:+ repeat_char Py.sharp_s 48])
  ∧ Py.len ("Ss" +:+ repeat_char Py.sharp_s 48) = 50.
Proof. by vm_compute. Qed.

(** C10 (amended).  A candidate field whose cleaned label has 50
    characters or more gives no entry of the form.  Every label of a form
    the classifier returns is the title-cased cleaned label of a field of
    the form the classifier looks at, that cleaned label being non-empty
    and shorter than 50 characters; the label itself is at least as long as
    the cleaned label, and is shorter than 50 characters when the cleaned
    label is ASCII text. *)
Theorem form_labels_of_short_names :
  (∀ inp, 50 ≤ Py.len (clean_field_name (field_name inp)) → form_field inp = []) ∧
  (∀ element fields f,
     identify_component_type element = Some (Form fields) →
     f ∈ fields →
     ∃ form inp,
       form_of element = Some form ∧
       inp ∈ find_all (named ["input"; "textarea"; "select"]) form ∧
       f = Py.title (clean_field_name (field_name inp)) ∧
       0 < Py.len (clean_field_name (field_name inp)) < 50 ∧
       Py.len (clean_field_name (field_name inp)) ≤ Py.len f ∧
       (ascii_only (clean_field_name (field_name inp)) = true → Py.len f < 50)).
Proof.
  split; [apply form_field_long|].
  intros element fields f Hid Hf.
  apply identify_form_inv in Hid. unfold form_case in Hid.
  destruct (form_of element) as [form|] eqn:Hform; [|done].
  destruct (form_fields form) as [|x fs] eqn:Hfs; [done|].
  injection Hid as <-. apply PyFacts.dict_fromkeys_subset in Hf.
  rewrite <- Hfs in Hf. unfold form_fields in Hf.
  apply list_elem_of_In, in_flat_map in Hf as (inp & Hinp & Hin).
  apply list_elem_of_In in Hin. apply form_field_inv in Hin as [-> Hlen].
  exists form, inp. rewrite list_elem_of_In.
  split_and!; [done|done|done|lia|lia|apply PyFacts.len_title|].
  intros Hascii%ascii_only_plain. unfold Py.title.
  rewrite (PyFacts.len_title_go_plain _ _ Hascii). lia.
Qed.

(** The theorem at the fields of [signup]. *)
Lemma form_labels_witness :
  form_field (Tag "input" [("type", "text");
                           ("name", "a_field_whose_name_is_far_too_long_to_be_kept_as_a_form_label")] [])
  = []
  ∧ ∃ form inp,
      form_of signup = Some form ∧
      inp ∈ find_all (named ["input"; "textarea"; "select"]) form ∧
      "Your Email" = Py.title (clean_field_name (field_name inp)) ∧
      0 < Py.len (clean_field_name (field_name inp)) < 50 ∧
      Py.len (clean_field_name (field_name inp)) ≤ Py.len "Your Email" ∧
      (ascii_only (clean_field_name (field_name inp)) = true → Py.len "Your Email" < 50).
Proof.
  destruct form_labels_of_short_names as [Hlong Hshort]. split.
  - apply Hlong. vm_compute. lia.
  - apply (Hshort signup ["Your Email"] "Your Email"); [by vm_compute|set_solver].
Defined.

Lemma form_case_is_tag e : is_Some (form_case e) → is_tag e = true.
Proof. destruct e; [|done]. vm_compute. by intros [? ?]. Qed.

Lemma text_block_case_long t : is_Some (text_block_case t) → 100 < Py.len t.
Proof.
  unfold text_block_case. destruct (100 <? Py.len t) eqn:H; [|by intros [? ?]].
  by apply Nat.ltb_lt in H.
Qed.

Lemma get_text_strip_text sep s : get_text_strip sep (Text s) = "".
Proof. done. Qed.

Lemma first_form_is_form element :
  first_form_has_field element → form_heuristic element ∧ is_Some (form_case element).
Proof.
  intros (form & Hform & Hfields). split.
  - exists form. split; [|done]. unfold form_of in Hform.
    destruct (String.eqb (name element) "form") eqn:Hname.
    + left. injection Hform as <-. by apply String.eqb_eq in Hname.
    + right. unfold find in Hform.
      destruct (find_all (named ["form"]) element) as [|x l]; [done|].
      injection Hform as ->. by left.
  - unfold form_case. rewrite Hform. by destruct (form_fields form); [|eexists].
Qed.

(** C1 as it stands fails twice.  [newsletter] has a hero class: it meets
    the Form heuristic and the TextBlock heuristic, and the classifier
    returns a hero banner, since the hero block stands before the form
    block.  [two_forms] has no hero mark and contains a form with a field,
    but its first form has none: it meets both heuristics, and the
    classifier returns a text block, since the form block looks at the
    first form only. *)
Lemma form_heuristic_counterexamples :
  (form_heuristic newsletter
   ∧ text_block_heuristic newsletter
   ∧ identify_component_type newsletter
     = Some (HeroBanner "" "Join thousands of readers who receive our monthly newsletter with product news, tips and community stories."))
  ∧ (form_heuristic two_forms
     ∧ text_block_heuristic two_forms
     ∧ hero_case two_forms = None
     ∧ identify_component_type two_forms
       = Some (TextBlock "Join thousands of readers who receive our monthly newsletter with product news, tips and community stories.")).
Proof.
  split.
  - split; [|split; [vm_compute; eauto|vm_compute; reflexivity]].
    exists (Tag "form" [("action", "/subscribe")]
              [ Tag "input" [("type", "email"); ("placeholder", "Your email")] [];
                Tag "input" [("type", "submit"); ("value", "Subscribe")] [] ]).
    split; [right; apply list_elem_of_In; vm_compute; auto|by vm_compute].
  - split; [|split; [vm_compute; eauto|split; vm_compute; reflexivity]].
    exists (Tag "form" [("action", "/subscribe")]
              [ Tag "input" [("type", "email"); ("placeholder", "Your email")] [];
                Tag "input" [("type", "submit"); ("value", "Subscribe")] [] ]).
    split; [right; apply list_elem_of_In; vm_compute; auto|by vm_compute].
Qed.

(** C1 (amended).  Take an element whose first form (the element itself
    when it is a form, the first form below it otherwise) has a field that
    survives, that meets the TextBlock heuristic (its text is long enough),
    and for which the hero block returns nothing.  It meets the Form
    heuristic, and the classifier returns one component, the form with the
    fields of that first form: never a text block. *)
Theorem form_beats_text_block element :
  first_form_has_field element →
  text_block_heuristic element →
  hero_case element = None →
  form_heuristic element
  ∧ ∃ form,
      form_of element = Some form
      ∧ identify_component_type element
        = Some (Form (Py.dict_fromkeys (form_fields form)))
      ∧ component_type (Form (Py.dict_fromkeys (form_fields form))) = "form".
Proof.
  intros Hfirst Ht Hh.
  destruct (first_form_is_form _ Hfirst) as [Hheur Hcase].
  split; [done|]. destruct Hfirst as (form & Hform & Hfields).
  exists form. split; [done|]. split; [|done].
  unfold identify_component_type.
  rewrite (form_case_is_tag _ Hcase). simpl.
  apply text_block_case_long in Ht.
  destruct (Py.len _ <? 20) eqn:Hlen; [apply Nat.ltb_lt in Hlen; lia|].
  rewrite Hh. unfold form_case. rewrite Hform.
  by destruct (form_fields form).
Qed.

(** The theorem at [signup]. *)
Lemma form_beats_text_block_witness :
  form_heuristic signup
  ∧ ∃ form,
      form_of signup = Some form
      ∧ identify_component_type signup = Some (Form (Py.dict_fromkeys (form_fields form)))
      ∧ component_type (Form (Py.dict_fromkeys (form_fields form))) = "form".
Proof.
  apply (form_beats_text_block signup); [|by vm_compute; eauto|by vm_compute].
  eexists. split; [vm_compute; reflexivity|by vm_compute].
Defined.

(** C7 as it stands fails: [short_notice] is claimed by no block before
    the text block and its collapsed text has 56 characters, and the
    classifier returns nothing, since text blocks are only looked for in
    texts of more than 100 characters. *)
Lemma short_text_is_no_text_block :
  hero_case short_notice = None
  ∧ form_case short_notice = None
  ∧ table_case short_notice = None
  ∧ list_case short_notice = None
  ∧ gallery_case short_notice = None
  ∧ rich_text_case short_notice (get_text_strip " " short_notice) = None
  ∧ Py.len (Py.strip (Py.collapse_ws (get_text_strip " " short_notice))) = 56
  ∧ identify_component_type short_notice = None.
Proof. by vm_compute. Qed.

(** C7 (amended).  An element that no block before the text block claims,
    whose text has more than 100 characters and, once runs of whitespace
    are collapsed and the ends stripped, more than 50, is classified as a
    text block with the collapsed text, cut at 400 characters and followed
    by an ellipsis when longer. *)
Theorem text_block_fallback element :
  hero_case element = None →
  form_case element = None →
  table_case element = None →
  list_case element = None →
  gallery_case element = None →
  rich_text_case element (get_text_strip " " element) = None →
  100 < Py.len (get_text_strip " " element) →
  50 < Py.len (Py.strip (Py.collapse_ws (get_text_strip " " element))) →
  identify_component_type element
  = Some (TextBlock (Py.ellipsis 400 (Py.strip (Py.collapse_ws (get_text_strip " " element))))).
Proof.
  intros Hh Hf Ht Hl Hg Hr Hlen Hcol. unfold identify_component_type.
  destruct element as [s|nm attrs cs]; [by vm_compute in Hlen; lia|].
  change (is_tag (Tag nm attrs cs)) with true. simpl negb. cbv iota.
  destruct (Py.len _ <? 20) eqn:Hlt; [apply Nat.ltb_lt in Hlt; lia|].
  rw Hh Hf Ht Hl Hg Hr. unfold text_block_case.
  apply Nat.ltb_lt in Hlen, Hcol. by rw Hlen Hcol.
Qed.

(** The theorem at [long_notice]. *)
Lemma text_block_fallback_witness :
  identify_component_type long_notice
  = Some (TextBlock "Our office is closed on public holidays and at weekends. Please use the contact form for urgent requests during these days.").
Proof. apply (text_block_fallback long_notice); vm_compute; (done || lia). Defined.

Lemma filter_flat_map {A B} (p : B → bool) (f : A → list B) l :
  List.filter p (flat_map f l) = flat_map (λ x, List.filter p (f x)) l.
Proof. induction l as [|x l IH]; simpl; [done|]. by rw List.filter_app IH. Qed.

Lemma flat_map_singleton {A B} (f : A → B) l : flat_map (λ x, [f x]) l = f <$> l.
Proof. induction l as [|x l IH]; simpl; [done|]. by rw IH. Qed.

Lemma flat_map_nil {A B} (l : list A) : flat_map (λ _, @nil B) l = [].
Proof. by induction l. Qed.

Lemma flat_map_ext' {A B} (f g : A → list B) l :
  (∀ x, x ∈ l → f x = g x) → flat_map f l = flat_map g l.
Proof.
  induction l as [|x l IH]; simpl; [done|]. intros H.
  rw (H x); [by left|]. rw IH; [|done]. intros y Hy. apply H. by right.
Qed.

Lemma descendants_row tag cells :
  descendants (table_row_of tag cells) = flat_map (λ s, [cell tag s; Text s]) cells.
Proof. unfold table_row_of. simpl. induction cells as [|s cells IH]; simpl; [done|]. by rw IH. Qed.

Lemma descendants_table hs rs :
  descendants (simple_table hs rs)
  = flat_map (λ r, r :: descendants r) (table_row_of "th" hs :: (table_row_of "td" <$> rs)).
Proof. done. Qed.

Lemma get_text_strip_cell tag s : get_text_strip "" (cell tag s) = Py.strip s.
Proof.
  unfold get_text_strip, cell, strings. simpl.
  by destruct (Py.strip s).
Qed.

(** Filters over a row. *)
Lemma find_all_row p tag cells :
  find_all p (table_row_of tag cells)
  = flat_map (λ s, List.filter p [cell tag s; Text s]) cells.
Proof. unfold find_all. by rw descendants_row filter_flat_map. Qed.

Lemma find_all_table p hs rs :
  find_all p (simple_table hs rs)
  = flat_map (λ r, List.filter p [r] ++ find_all p r)
      (table_row_of "th" hs :: (table_row_of "td" <$> rs)).
Proof.
  unfold find_all. rw descendants_table filter_flat_map.
  apply flat_map_ext'. intros r _. simpl. by destruct (p r).
Qed.

Lemma table_ths hs rs :
  find_all (named ["th"]) (simple_table hs rs) = cell "th" <$> hs.
Proof.
  rw find_all_table. simpl. rw find_all_row. simpl.
  rw (flat_map_singleton (cell "th")).
  rw (flat_map_ext' _ (λ _, [])); [|by rw flat_map_nil app_nil_r].
  intros r (cells & -> & _)%list_elem_of_fmap. simpl.
  rw find_all_row. simpl. apply flat_map_nil.
Qed.

Lemma table_trs hs rs :
  find_all (named ["tr"]) (simple_table hs rs)
  = table_row_of "th" hs :: (table_row_of "td" <$> rs).
Proof.
  rw find_all_table. simpl. rw find_all_row. simpl. rw flat_map_nil. simpl. f_equal.
  induction rs as [|r rs IH]; simpl; [done|]. rw find_all_row. simpl.
  by rw flat_map_nil IH.
Qed.

Lemma find_all_table_nil p hs rs :
  (∀ tag attrs cs, tag ∈ ["tr"; "th"; "td"] → p (Tag tag attrs cs) = false ∨ attrs ≠ []) →
  (∀ s, p (Text s) = false) →
  find_all p (simple_table hs rs) = [].
Proof.
  intros Htag Htext.
  assert (∀ tag cells, tag ∈ ["th"; "td"] → find_all p (table_row_of tag cells) = []) as Hrow.
  { intros tag cells Hin. rw find_all_row.
    rw (flat_map_ext' _ (λ _, [])); [|apply flat_map_nil].
    intros s _. simpl. rw Htext. unfold cell.
    destruct (Htag tag [] [Text s]) as [->|?]; [set_solver|done..]. }
  assert (∀ tag cells, p (table_row_of tag cells) = false) as Hself.
  { intros tag cells. unfold table_row_of.
    destruct (Htag "tr" [] (cell tag <$> cells)) as [->|?]; [set_solver|done..]. }
  rw find_all_table. rw (flat_map_ext' _ (λ _, [])); [|apply flat_map_nil].
  intros r [->|(cells & -> & _)%list_elem_of_fmap]%elem_of_cons; simpl.
  - rw Hself Hrow; [set_solver|done].
  - rw Hself Hrow; [set_solver|done].
Qed.

Lemma table_no_hero hs rs : hero_case (simple_table hs rs) = None.
Proof.
  unfold hero_case, hero_marked.
  assert (find (class_matches hero_vocabulary_child) (simple_table hs rs) = None) as ->.
  { unfold find. rw find_all_table_nil; [|done..].
    intros tag attrs cs _. destruct attrs; [by left|by right]. }
  done.
Qed.

Lemma table_no_form hs rs : form_case (simple_table hs rs) = None.
Proof.
  unfold form_case, form_of. simpl.
  unfold find. rw find_all_table_nil; [|done..].
  intros tag attrs cs Hin. left. unfold named. simpl.
  rw bool_decide_eq_false_2; [|done]. set_solver.
Qed.

Lemma table_columns_simple hs rs :
  Forall (λ h, Py.strip h ≠ "") hs →
  table_columns (simple_table hs rs) = Py.strip <$> hs.
Proof.
  intros Hhs. unfold table_columns. rw table_ths -list_fmap_compose.
  induction Hhs as [|h hs Hh _ IH]; simpl; [done|].
  rw get_text_strip_cell IH. by destruct (Py.strip h).
Qed.

Lemma get_text_strip_cells tag (cells : list string) :
  get_text_strip "" <$> (cell tag <$> cells) = Py.strip <$> cells.
Proof.
  rw -list_fmap_compose. apply list_fmap_ext. intros _ s _. apply get_text_strip_cell.
Qed.

Lemma table_row_simple tag cells :
  tag ∈ ["th"; "td"] →
  Exists (λ c, Py.strip c ≠ "") cells →
  table_row (table_row_of tag cells) = [Py.strip <$> cells].
Proof.
  intros Htag Hex. unfold table_row. rw find_all_row.
  assert (flat_map (λ s, List.filter (named ["td"; "th"]) [cell tag s; Text s]) cells
          = cell tag <$> cells) as ->.
  { rw -flat_map_singleton. apply flat_map_ext'. intros s _.
    assert (tag = "th" ∨ tag = "td") as [-> | ->] by set_solver; done. }
  assert (existsb Py.truthy (Py.strip <$> cells) = true) as Htruthy.
  { induction Hex as [c cells Hc|c cells _ IH]; simpl.
    - by destruct (Py.strip c).
    - rw IH. apply orb_true_r. }
  destruct (cell tag <$> cells) as [|x xs] eqn:Hl.
  { apply fmap_nil_inv in Hl as ->. by apply Exists_nil in Hex. }
  by rw -Hl get_text_strip_cells Htruthy.
Qed.

Lemma table_rows_simple hs rs :
  Exists (λ c, Py.strip c ≠ "") hs →
  Forall (Exists (λ c, Py.strip c ≠ "")) rs →
  table_rows (simple_table hs rs)
  = take 6 ((Py.strip <$> hs) :: (fmap (M:=list) Py.strip <$> rs)).
Proof.
  intros Hhs Hrs. unfold table_rows. rw table_trs.
  assert (∀ l : list (string * list string),
    Forall (λ r : string * list string, r.1 ∈ ["th"; "td"] ∧ Exists (λ c, Py.strip c ≠ "") r.2) l →
    ∀ n, flat_map table_row (take n ((λ r : string * list string, table_row_of r.1 r.2) <$> l))
         = take n ((λ r : string * list string, Py.strip <$> r.2) <$> l)) as Hgen.
  { intros l Hl. induction Hl as [|[tag cells] l [Ht Hc] _ IH]; intros n.
    { by rw !take_nil. }
    destruct n as [|n]; [done|]. simpl. rw table_row_simple; [done..|]. simpl. by rw IH. }
  set (l := ("th", hs) :: ((λ r : list string, ("td", r)) <$> rs)).
  assert (table_row_of "th" hs :: (table_row_of "td" <$> rs)
          = (λ r : string * list string, table_row_of r.1 r.2) <$> l) as ->.
  { unfold l. by rw fmap_cons -list_fmap_compose. }
  assert ((Py.strip <$> hs) :: (fmap (M:=list) Py.strip <$> rs)
          = (λ r : string * list string, Py.strip <$> r.2) <$> l) as ->.
  { unfold l. by rw fmap_cons -list_fmap_compose. }
  apply Hgen. unfold l.
  constructor; [split; [set_solver|done]|].
  apply Forall_fmap. eapply Forall_impl; [exact Hrs|]. simpl. intros r Hr. split; [set_solver|done].
Qed.

(** C2 (amended).  The table of the example, with header cells Name and
    Age and the rows A 1 and B 2, is given no component: its text has 16
    characters and the classifier returns nothing under 20.  A table of the
    same shape (a row of [th] cells, then rows of [td] cells) whose text
    has 20 characters or more is classified as a table whose columns are
    the stripped header texts and whose sample data are the first five rows
    of the table with the header row first, since the cells of a row are
    looked up as [td] or [th]. *)
Theorem table_classification :
  identify_component_type (simple_table ["Name"; "Age"] [["A"; "1"]; ["B"; "2"]]) = None
  ∧ ∀ headers rows,
      headers ≠ [] →
      Forall (λ h, Py.strip h ≠ "") headers →
      Forall (Exists (λ c, Py.strip c ≠ "")) rows →
      20 ≤ Py.len (get_text_strip " " (simple_table headers rows)) →
      identify_component_type (simple_table headers rows)
      = Some (Table (Some (Py.strip <$> headers))
                    (take 5 ((Py.strip <$> headers) :: (fmap (M:=list) Py.strip <$> rows)))).
Proof.
  split; [by vm_compute|].
  intros hs rs Hne Hhs Hrs Hlen. unfold identify_component_type.
  change (is_tag (simple_table hs rs)) with true. simpl negb. cbv iota.
  destruct (Py.len _ <? 20) eqn:Hlt; [apply Nat.ltb_lt in Hlt; lia|].
  rw table_no_hero table_no_form. unfold table_case.
  change (table_of (simple_table hs rs)) with (Some (simple_table hs rs)). cbv iota.
  rw table_columns_simple; [done|].
  rw table_rows_simple; [|done|].
  { destruct Hhs; [done|]. by left. }
  rw bool_decide_eq_true_2; [by destruct hs|]. simpl orb. cbv iota.
  rw take_take. destruct hs; [done|]. done.
Qed.

(** The theorem at a table with longer cells. *)
Lemma table_classification_witness :
  identify_component_type
    (simple_table ["Full name"; "Age (years)"] [["Alice Smith"; "31"]; ["Bob Jones"; "27"]])
  = Some (Table (Some ["Full name"; "Age (years)"])
                [["Full name"; "Age (years)"]; ["Alice Smith"; "31"]; ["Bob Jones"; "27"]]).
Proof.
  apply (proj2 table_classification ["Full name"; "Age (years)"]
           [["Alice Smith"; "31"]; ["Bob Jones"; "27"]]).
  - done.
  - by repeat constructor.
  - repeat constructor; done.
  - vm_compute. lia.
Defined.

(** C2 as it stands fails: the text of the example table is
    [Name Age A 1 B 2], the classifier returns nothing for it, and the
    table block alone would list the header row among the sample rows. *)
Lemma name_age_table_rejected :
  get_text_strip " " (simple_table ["Name"; "Age"] [["A"; "1"]; ["B"; "2"]]) = "Name Age A 1 B 2"
  ∧ identify_component_type (simple_table ["Name"; "Age"] [["A"; "1"]; ["B"; "2"]]) = None
  ∧ table_case (simple_table ["Name"; "Age"] [["A"; "1"]; ["B"; "2"]])
    = Some (Table (Some ["Name"; "Age"]) [["Name"; "Age"]; ["A"; "1"]; ["B"; "2"]]).
Proof. by vm_compute. Qed.

(* ===================================================================== *)
(** * The discovery loop *)
(* ===================================================================== *)

Section Discovery.
Context {world : Type} (X : externals world).

Lemma enqueue_new_spec links f :
  ∃ new,
    (enqueue_new links f
     = mkFrontier (all_urls f ∪ (list_to_set new)) (queue f ++ new) (appended f ++ new))
    ∧ NoDup new
    ∧ ∀ x, x ∈ new → x ∉ all_urls f ∧ x ∈ links.
Proof.
  revert f. induction links as [|link links IH]; intros f; simpl.
  { exists []. rw !app_nil_r. rw list_to_set_nil union_empty_r_L.
    split; [by destruct f|]. split; [constructor|]. by intros x ?%elem_of_nil. }
  case_bool_decide as Hin.
  - destruct (IH f) as (new & -> & Hnd & Hnew). exists new.
    split; [done|]. split; [done|]. intros x Hx. destruct (Hnew x Hx). split; [done|by right].
  - destruct (IH (mkFrontier ({[link]} ∪ all_urls f) (queue f ++ [link]) (appended f ++ [link])))
      as (new & -> & Hnd & Hnew). simpl in *.
    exists (link :: new). rw -!app_assoc. simpl. split.
    { f_equal. set_solver. }
    split.
    { constructor; [|done]. intros Hl. destruct (Hnew _ Hl) as [Hl' _]. set_solver. }
    intros x [->|Hx]%elem_of_cons; [split; [done|by left]|].
    destruct (Hnew x Hx) as [Hx1 Hx2]. split; [set_solver|by right].
Qed.

Lemma fetch_state url st :
  (fetch X url st).2 = mkState (net (fetch X url st).2) (fetched st ++ [url])
                               (visited st) (seen_content_hashes st).
Proof. unfold fetch. by destruct (session_get X (net st) url). Qed.

Lemma loop_body_inv self q0 log0 f st url rest c' :
  frontier_inv q0 log0 (f, st) →
  queue f = url :: rest →
  loop_body X self url (mkFrontier (all_urls f) rest (appended f)) st = Returns c' →
  frontier_inv q0 log0 c'.
Proof.
  intros (popped & tried & Hq & Hnd & Hall & Hvis & Hlog & Hsub) Hqueue. simpl in *.
  rw Hqueue in Hq.
  assert (q0 ++ appended f = (popped ++ [url]) ++ rest) as Hq' by by rw -app_assoc.
  unfold loop_body. case_bool_decide as Hv.
  { intros [= <-]. exists (popped ++ [url]), tried. simpl.
    split_and!; try done; [set_solver|by apply sublist_inserts_r]. }
  pose proof (fetch_state url st) as Hst.
  destruct (fetch X url st) as [html st1]. simpl in Hst.
  destruct (no_html html).
  { intros [= <-]. exists (popped ++ [url]), (tried ++ [url]). simpl.
    rw Hst. simpl. split_and!; try done; [set_solver|by rw Hlog -app_assoc|].
    by apply sublist_app. }
  destruct (crawl_internal_links X self _) as [found|]; [|done]. simpl.
  intros [= <-].
  destruct (enqueue_new_spec (elements found) (mkFrontier (all_urls f) rest (appended f)))
    as (new & -> & Hndn & Hnew). simpl in *.
  exists (popped ++ [url]), (tried ++ [url]). simpl. rw Hst. simpl.
  rw !app_assoc Hq'. split_and!.
  - by rw -!app_assoc.
  - rw -Hq'. apply NoDup_app. split; [done|]. split; [|done].
    intros x Hx Hx'. destruct (Hnew x Hx') as [Hx'' _]. set_solver.
  - rw -Hq' list_to_set_app_L. by rw Hall.
  - set_solver.
  - by rw Hlog -app_assoc.
  - by apply sublist_app.
Qed.

Lemma loop_reaches_inv self q0 log0 c c' :
  loop_reaches X self c c' → frontier_inv q0 log0 c → frontier_inv q0 log0 c'.
Proof.
  induction 1 as [|f st url rest c' c'' Hq Hbody _ IH]; [done|].
  intros Hinv. apply IH. by eapply loop_body_inv.
Qed.

Lemma frontier_inv_initial f0 (st0 : @state world) :
  NoDup (queue f0) → all_urls f0 = list_to_set (queue f0) → appended f0 = [] →
  visited st0 = ∅ →
  frontier_inv (queue f0) (fetched st0) (f0, st0).
Proof.
  intros Hnd Hall Happ Hvis. exists [], []. simpl. rw Happ !app_nil_r Hvis.
  split_and!; try done.
Qed.


Lemma discover_loop_reaches fuel self f st c :
  discover_loop X fuel self f st = Some (Returns c) →
  loop_reaches X self (f, st) c ∧ queue c.1 = [].
Proof.
  revert f st. induction fuel as [|fuel IH]; intros f st; simpl; [done|].
  destruct (queue f) as [|url rest] eqn:Hq.
  { intros [= <-]. split; [constructor|done]. }
  destruct (loop_body X self url _ st) as [[f1 st1]|] eqn:Hb; [|done].
  intros [Hr Hc]%IH. split; [|done]. by eapply reaches_next.
Qed.


(** What an iteration does to the frontier: it appends fresh links. *)
Lemma loop_body_frontier self url f st f1 st1 :
  loop_body X self url f st = Returns (f1, st1) →
  ∃ new,
    f1 = mkFrontier (all_urls f ∪ (list_to_set new)) (queue f ++ new) (appended f ++ new)
    ∧ NoDup new
    ∧ (∀ x, x ∈ new → x ∉ all_urls f)
    ∧ (new = [] ∨ ∃ html links,
         crawl_internal_links X self html = Returns links ∧ ∀ x, x ∈ new → x ∈ links).
Proof.
  assert (∃ new : list string,
    f = mkFrontier (all_urls f ∪ (list_to_set new)) (queue f ++ new) (appended f ++ new)
    ∧ NoDup new ∧ (∀ x, x ∈ new → x ∉ all_urls f)
    ∧ (new = [] ∨ ∃ html links,
         crawl_internal_links X self html = Returns links ∧ ∀ x, x ∈ new → x ∈ links)) as Hsame.
  { exists []. rw !app_nil_r list_to_set_nil union_empty_r_L.
    split; [by destruct f|]. split; [constructor|]. split; [by intros x ?%elem_of_nil|by left]. }
  unfold loop_body. case_bool_decide; [by intros [= <- <-]|].
  destruct (fetch X url st) as [html st2]. destruct (no_html html); [by intros [= <- <-]|].
  destruct (crawl_internal_links X self _) as [found|] eqn:Hcr; [|done]. simpl.
  intros [= <- <-].
  destruct (enqueue_new_spec (elements found) f) as (new & -> & Hnd & Hnew).
  exists new. split; [done|]. split; [done|]. split; [by intros x [? _]%Hnew|].
  right. exists (default "" html), found. split; [done|].
  intros x [_ ?%elem_of_elements]%Hnew. done.
Qed.


(** More fuel does not change what the loop returns. *)
Lemma discover_loop_fuel fuel fuel' self f st r :
  discover_loop X fuel self f st = Some r → fuel ≤ fuel' →
  discover_loop X fuel' self f st = Some r.
Proof.
  revert fuel' f st. induction fuel as [|fuel IH]; intros fuel' f st; simpl; [done|].
  intros Hr Hle. destruct fuel' as [|fuel']; [lia|]. simpl.
  destruct (queue f) as [|url rest]; [done|].
  destruct (loop_body X self url _ st) as [[f1 st1]|]; [|done].
  apply IH; [done|lia].
Qed.


End Discovery.

Section DiscoveryClaims.
Context {world : Type} (X : externals world).

Lemma initial_frontier_inv self sitemap_urls (st0 : @state world) :
  visited st0 = ∅ →
  frontier_inv (queue (initial_frontier self sitemap_urls)) (fetched st0)
    (initial_frontier self sitemap_urls, st0).
Proof.
  intros Hv. apply frontier_inv_initial; simpl; try done.
  - apply NoDup_elements.
  - by rw list_to_set_elements_L.
Qed.



End DiscoveryClaims.

Section Trap.
Import Py Url PyFacts.
#[local] Arguments String.append !_ _ / : simpl nomatch.

Lemma trap_path_chars P k :
  all_chars P "/next-page" = true → all_chars P (trap_path k) = true.
Proof.
  intros HP. induction k as [|k IH]; simpl; [done|]. by rw all_chars_app IH HP.
Qed.

Lemma trap_path_start k : starts_slash (trap_path k) = true.
Proof.
  induction k as [|k IH]; simpl; [done|]. by destruct (trap_path k).
Qed.

Lemma trap_path_kept k : kept_path (trap_path k) = trap_path k.
Proof.
  unfold kept_path. destruct (1 <? _); [|done].
  destruct k as [|k]; simpl; [done|]. unfold rstrip_chars. by rw rstrip_with_app.
Qed.

Lemma trap_url_parse k :
  urlparse (bracketed_host_ok trap) (trap_url k)
  = Returns (mkParseResult "http" "trap.example" (trap_path k) "" "" "").
Proof.
  unfold trap_url. apply urlparse_canonical; try done;
    try (by apply trap_path_chars); apply trap_path_start.
Qed.

Lemma trap_url_normal k : normalize_url trap (trap_url k) = Returns (trap_url k).
Proof.
  rw (normalize_url_parts trap _ _ (trap_url_parse k)); [done|].
  simpl. by rw trap_path_kept.
Qed.

Lemma trap_url_internal k : is_internal_link trap trap_parser (trap_url k) = Returns true.
Proof. unfold is_internal_link. by rw trap_url_parse. Qed.

Lemma trap_url_next k : trap_url k +:+ "/next-page" = trap_url (S k).
Proof. unfold trap_url. by rw !app_assoc. Qed.



Lemma drop_str_app a b n : drop_str (len a + n) (a +:+ b) = drop_str n b.
Proof. induction a as [|c a IH]; simpl; [done|]. apply IH. Qed.

Lemma endswith_app p a b : len p ≤ len b → endswith p (a +:+ b) = endswith p b.
Proof.
  intros Hle. unfold endswith. rw len_app.
  replace (len a + len b - len p) with (len a + (len b - len p)) by lia.
  rw drop_str_app.
  rw (leb_correct (len p) (len b)); [done|].
  rw (leb_correct (len p) (len a + len b)); [lia|]. done.
Qed.

Lemma lower_app a b : lower (a +:+ b) = lower a +:+ lower b.
Proof. unfold lower. induction a as [|c a IH]; simpl; [done|]. by rw IH. Qed.

Lemma trap_url_no_media k : search_extension media_extensions (trap_url (S k)) = false.
Proof.
  unfold search_extension, media_extensions. rw -trap_url_next lower_app.
  unfold existsb. rw !endswith_app; vm_compute; (done || lia).
Qed.

Lemma bind_returns {A B} (a : A) (k : A → pyres B) : (Returns a ≫= k) = k a.
Proof. done. Qed.

Lemma trap_anchor k urls :
  crawl_anchor trap trap_parser
    (Tag "a" [("href", trap_url k +:+ "/next-page")] [Text "Next page"]) urls
  = Returns ({[trap_url (S k)]} ∪ urls).
Proof.
  unfold crawl_anchor.
  change (get_default _ "href" "") with (trap_url k +:+ "/next-page").
  rw trap_url_next.
  assert (startswith_any skipped_schemes (trap_url (S k)) = false) as -> by done.
  change (urljoin trap (base_url trap_parser) (trap_url (S k))) with (Returns (trap_url (S k))).
  rw bind_returns trap_url_internal bind_returns trap_url_normal bind_returns.
  by rw trap_url_no_media.
Qed.

Lemma trap_crawl k :
  crawl_internal_links trap trap_parser (trap_url k) = Returns {[trap_url (S k)]}.
Proof.
  unfold crawl_internal_links.
  change (find_all _ _) with [Tag "a" [("href", trap_url k +:+ "/next-page")] [Text "Next page"]].
  unfold crawl_anchors. rw trap_anchor bind_returns. f_equal. apply union_empty_r_L.
Qed.






End Trap.

(* ===================================================================== *)
(** * A whole run *)
(* ===================================================================== *)

Section Run.
Context {world : Type} (X : externals world).

Lemma fetch_sets url (st : @state world) :
  fetched (fetch X url st).2 = fetched st ++ [url]
  ∧ visited (fetch X url st).2 = visited st
  ∧ seen_content_hashes (fetch X url st).2 = seen_content_hashes st.
Proof. by rw fetch_state. Qed.

Lemma fetch_sitemaps_world self paths urls w :
  ∃ urls' w', fetch_sitemaps X self paths urls w = (urls', w').
Proof. by destruct (fetch_sitemaps X self paths urls w); eauto. Qed.

Lemma fetch_sitemap_urls_sets self (st : @state world) :
  fetched (fetch_sitemap_urls X self st).2 = fetched st
  ∧ visited (fetch_sitemap_urls X self st).2 = visited st
  ∧ seen_content_hashes (fetch_sitemap_urls X self st).2 = seen_content_hashes st.
Proof. unfold fetch_sitemap_urls. by destruct (fetch_sitemaps X self _ _ _). Qed.

Lemma parse_page_sets self url html (st : @state world) r st' :
  parse_page X self url html st = Returns (r, st') →
  net st' = net st ∧ fetched st' = fetched st ∧ visited st' = visited st.
Proof.
  unfold parse_page.
  destruct (generate_page_slug X url) as [slug|];
    destruct (Url.urlparse _ url) as [parsed|];
    destruct (extract_page_components _) as [components|];
    destruct (extract_page_links X self _) as [[internal external]|];
    destruct (content_hash X _) as [h|]; try case_bool_decide; simpl;
    try done; by intros [= <- <-].
Qed.

Lemma parse_pages_fetched self urls pages (st : @state world) pages' st' :
  parse_pages X self urls pages st = Returns (pages', st') →
  fetched st' = fetched st ++ urls.
Proof.
  revert pages st. induction urls as [|url urls IH]; intros pages st; simpl.
  { intros [= <- <-]. by rw app_nil_r. }
  pose proof (fetch_sets url st) as (Hlog & _).
  destruct (fetch X url st) as [html st1]. simpl in Hlog.
  destruct (no_html html).
  { intros Hrest%IH. by rw Hrest Hlog -app_assoc. }
  destruct (parse_page X self url _ st1) as [[page_data st2]|] eqn:Hpage; [|done].
  apply parse_page_sets in Hpage as (_ & Hlog2 & _). simpl.
  destruct page_data; intros Hrest%IH; by rw Hrest Hlog2 Hlog -app_assoc.
Qed.

(** What discovery leaves in the fetch log: URLs it discovered, no URL
    twice. *)
Lemma discover_all_pages_log fuel self (st : @state world) urls st' :
  visited st = ∅ →
  discover_all_pages X fuel self st = Some (Returns (urls, st')) →
  ∃ tried,
    fetched st' = fetched st ++ tried
    ∧ NoDup tried
    ∧ NoDup urls
    ∧ ∀ u, u ∈ tried → u ∈ urls.
Proof.
  intros Hv. unfold discover_all_pages.
  pose proof (fetch_sitemap_urls_sets self st) as (Hlog0 & Hv0 & _).
  destruct (fetch_sitemap_urls X self st) as [sitemap_urls st1]. simpl in *.
  destruct (discover_loop X fuel self _ st1) as [[[f st2]|]|] eqn:Hloop; [|done..].
  intros [= <- <-].
  apply discover_loop_reaches in Hloop as [Hreach Hq]. simpl in Hq.
  eapply loop_reaches_inv in Hreach; [|apply initial_frontier_inv; by rw Hv0 Hv].
  destruct Hreach as (popped & tried & Hpop & Hnd & Hall & _ & Hlog & Hsub). simpl in *.
  rw Hq app_nil_r in Hpop. rw Hpop in Hnd Hall.
  exists tried. split; [by rw Hlog Hlog0|]. split; [by eapply sublist_NoDup|].
  split.
  { rw merge_sort_Permutation. apply NoDup_elements. }
  intros u Hu. rw merge_sort_Permutation. apply elem_of_elements. rw Hall.
  apply elem_of_list_to_set. by eapply elem_of_sublist.
Qed.

(** C8 (amended).  When a run of a fresh parser returns, discovery has
    returned a list of URLs, and the URLs the run has passed to [fetch] are,
    in this order: the URLs tried by the discovery loop, each one once and
    each one in that list; the base URL, for the global components; and,
    when the run gives a website, every URL of that list once more, for the
    assembly of its page. *)
Theorem run_fetch_log fuel self (st0 : @state world) out st' :
  visited st0 = ∅ →
  run X fuel self st0 = Some (Returns (out, st')) →
  ∃ tried urls st1,
    discover_all_pages X fuel self st0 = Some (Returns (urls, st1))
    ∧ fetched st1 = fetched st0 ++ tried
    ∧ NoDup tried
    ∧ NoDup urls
    ∧ (∀ u, u ∈ tried → u ∈ urls)
    ∧ fetched st'
      = fetched st0 ++ tried
        ++ base_url self :: match out with Website _ => urls | EmptyResult => [] end.
Proof.
  intros Hv. unfold run.
  destruct (discover_all_pages X fuel self st0) as [[[urls st1]|]|] eqn:Hd; [|done..].
  apply discover_all_pages_log in Hd as (tried & Hlog1 & Hnd1 & Hnd2 & Hin); [|done].
  pose proof (fetch_sets (base_url self) st1) as (Hlog2 & _).
  destruct (fetch X (base_url self) st1) as [homepage_html st2]. simpl in Hlog2.
  destruct (no_html homepage_html).
  { intros [= <- <-]. exists tried, urls, st1. split_and!; try done.
    by rw Hlog2 Hlog1 -app_assoc. }
  intros [= Hrun].
  destruct (extract_footer X self _) as [footer|]; [|done]. simpl in Hrun.
  destruct (parse_pages X self urls [] st2) as [[pages st3]|] eqn:Hpages; [|done].
  simpl in Hrun. injection Hrun as <- <-.
  apply parse_pages_fetched in Hpages.
  exists tried, urls, st1. split_and!; try done.
  by rw Hpages Hlog2 Hlog1 -!app_assoc.
Qed.

(** [fetch] hands back no HTML when the request raises, the status is not
    200, the content type does not mention [text/html], or the body is
    empty. *)
Lemma no_html_fetch url (st : @state world) :
  no_html (fetch X url st).1 = true ↔
  match (session_get X (net st) url).1 with
  | None => True
  | Some response =>
      status_code response ≠ 200
      ∨ Py.contains "text/html" (content_type response) = false
      ∨ text response = ""
  end.
Proof.
  unfold fetch. destruct (session_get X (net st) url) as [[response|] w]; simpl; [|done].
  destruct (Nat.eqb_spec (status_code response) 200) as [->|Hne]; [|by split; auto].
  destruct (Py.contains "text/html" _); [|by split; auto]. simpl.
  destruct (text response); simpl; split; try done; auto.
  intros [?|[?|?]]; done.
Qed.

Lemma loop_body_skip self url f (st : @state world) :
  url ∉ visited st →
  no_html (fetch X url st).1 = true →
  loop_body X self url f st = Returns (f, (fetch X url st).2).
Proof.
  intros Hv Hno. unfold loop_body. rw bool_decide_eq_false_2; [done|].
  destruct (fetch X url st) as [html st1]. simpl in *. by rw Hno.
Qed.

Lemma parse_pages_skip self url urls pages (st : @state world) :
  no_html (fetch X url st).1 = true →
  parse_pages X self (url :: urls) pages st
  = parse_pages X self urls pages (fetch X url st).2.
Proof.
  intros Hno. simpl. destruct (fetch X url st) as [html st1]. simpl in *. by rw Hno.
Qed.

(** C6 (amended).  What decides between the empty result and a website is
    whether [fetch] hands back HTML for the base URL after discovery:
    - when [run] returns, its result is the empty one exactly when that
      fetch gave no HTML;
    - a URL of the discovery loop whose fetch gives no HTML leaves the
      frontier as it was, and the loop goes on with the next URL;
    - a URL of the assembly loop whose fetch gives no HTML is skipped, and
      the loop goes on with the next URL;
    - when discovery has returned and the fetch of the base URL gives no
      HTML, [run] returns the empty result;
    - [fetch] gives no HTML when the request raises, when the status is not
      200, when the content type does not mention [text/html], and also
      when the body of a successful HTML response is empty. *)
Theorem run_empty_iff_no_homepage :
  (∀ fuel self (st0 : @state world) urls st1 out st',
     discover_all_pages X fuel self st0 = Some (Returns (urls, st1)) →
     run X fuel self st0 = Some (Returns (out, st')) →
     (out = EmptyResult ↔ no_html (fetch X (base_url self) st1).1 = true))
  ∧ (∀ self url f (st : @state world),
       url ∉ visited st →
       no_html (fetch X url st).1 = true →
       loop_body X self url f st = Returns (f, (fetch X url st).2))
  ∧ (∀ self url urls pages (st : @state world),
       no_html (fetch X url st).1 = true →
       parse_pages X self (url :: urls) pages st
       = parse_pages X self urls pages (fetch X url st).2)
  ∧ (∀ fuel self (st0 : @state world) urls st1,
       discover_all_pages X fuel self st0 = Some (Returns (urls, st1)) →
       no_html (fetch X (base_url self) st1).1 = true →
       run X fuel self st0
       = Some (Returns (EmptyResult, (fetch X (base_url self) st1).2)))
  ∧ (∀ url (st : @state world),
       no_html (fetch X url st).1 = true ↔
       match (session_get X (net st) url).1 with
       | None => True
       | Some response =>
           status_code response ≠ 200
           ∨ Py.contains "text/html" (content_type response) = false
           ∨ text response = ""
       end).
Proof.
  split_and!; [|apply loop_body_skip|apply parse_pages_skip| |apply no_html_fetch].
  - intros fuel self st0 urls st1 out st' Hd. unfold run. rw Hd.
    destruct (fetch X (base_url self) st1) as [homepage_html st2]. simpl.
    destruct (no_html homepage_html).
    { by intros [= <- <-]. }
    intros [= Hrun].
    destruct (extract_footer X self _) as [footer|]; [|done]. simpl in Hrun.
    destruct (parse_pages X self urls [] st2) as [[pages st3]|]; [|done].
    simpl in Hrun. by injection Hrun as <- <-.
  - intros fuel self st0 urls st1 Hd. unfold run. rw Hd.
    destruct (fetch X (base_url self) st1) as [homepage_html st2]. simpl.
    by intros ->.
Qed.

(** C4.  The fingerprint of a page is the MD5 digest of the text of its
    main content, the first [main] element and, when there is none, the
    first [body]: two pages whose main contents have the same text have the
    same fingerprint, whatever their URLs and the rest of their documents.
    When such pages are parsed one after the other, the fingerprint not
    having been seen before, the first gives a page and registers the
    fingerprint, and the second gives nothing and leaves the state as it
    is. *)
Theorem duplicate_content_dropped self url1 url2 html1 html2 mc1 mc2 (st : @state world) r st1 :
  (find (named ["main"]) (parse_html X html1) = Some mc1
   ∨ (find (named ["main"]) (parse_html X html1) = None
      ∧ find (named ["body"]) (parse_html X html1) = Some mc1)) →
  (find (named ["main"]) (parse_html X html2) = Some mc2
   ∨ (find (named ["main"]) (parse_html X html2) = None
      ∧ find (named ["body"]) (parse_html X html2) = Some mc2)) →
  get_text mc1 = get_text mc2 →
  content_hash X (parse_html X html1) = Some (md5_hexdigest X (get_text mc1))
  ∧ content_hash X (parse_html X html2) = content_hash X (parse_html X html1)
  ∧ (md5_hexdigest X (get_text mc1) ∉ seen_content_hashes st →
     parse_page X self url1 html1 st = Returns (r, st1) →
     is_Some r
     ∧ seen_content_hashes st1 = {[md5_hexdigest X (get_text mc1)]} ∪ seen_content_hashes st
     ∧ parse_page X self url2 html2 st1 = Returns (None, st1)).
Proof.
  intros H1 H2 Htext.
  assert (content_hash X (parse_html X html1) = Some (md5_hexdigest X (get_text mc1))) as Hh1.
  { unfold content_hash, main_content. by destruct H1 as [->|[-> ->]]. }
  assert (content_hash X (parse_html X html2) = Some (md5_hexdigest X (get_text mc1))) as Hh2.
  { unfold content_hash, main_content. rw Htext. by destruct H2 as [->|[-> ->]]. }
  split; [done|]. split; [by rw Hh1 Hh2|]. intros Hfresh. unfold parse_page at 1. rw Hh1.
  rw bool_decide_eq_false_2; [done|].
  destruct (generate_page_slug X url1) as [slug|]; [|done]. simpl.
  destruct (Url.urlparse _ url1) as [parsed|]; [|done]. simpl.
  destruct (extract_page_components _) as [components|]; [|done]. simpl.
  destruct (extract_page_links X self _) as [[internal external]|]; [|done]. simpl.
  intros [= <- <-]. split; [by eexists|]. split; [done|].
  unfold parse_page. rw Hh2. rw bool_decide_eq_true_2; [set_solver|done].
Qed.

End Run.

(* ===================================================================== *)
(** * Examples: the theorems at concrete sites *)
(* ===================================================================== *)


(** The fetch log of a run on the site of one page. *)
Lemma run_fetch_log_witness :
  ∃ out st tried urls st1,
    run one_page 5 example_parser (init_state tt) = Some (Returns (out, st))
    ∧ discover_all_pages one_page 5 example_parser (init_state tt)
      = Some (Returns (urls, st1))
    ∧ fetched st1 = fetched (init_state tt) ++ tried
    ∧ NoDup tried
    ∧ NoDup urls
    ∧ (∀ u, u ∈ tried → u ∈ urls)
    ∧ fetched st
      = fetched (init_state tt) ++ tried
        ++ base_url example_parser :: match out with Website _ => urls | EmptyResult => [] end.
Proof.
  eexists _, _.
  edestruct (run_fetch_log one_page 5 example_parser (init_state tt)) as (tried & urls & st1 & H);
    [reflexivity|vm_compute; reflexivity|].
  exists tried, urls, st1. split; [vm_compute; reflexivity|exact H].
Defined.

(** C8 as it stands fails: on the site of one page the only URL is passed
    to [fetch] three times, in discovery, for the global components and in
    assembly. *)
Lemma home_page_fetched_three_times :
  ∃ w st,
    run one_page 5 example_parser (init_state tt) = Some (Returns (Website w, st))
    ∧ fetched st = ["https://example.com"; "https://example.com"; "https://example.com"].
Proof. eexists _, _. split; vm_compute; reflexivity. Qed.

(** The run on the site of one page gives a website, the home page having
    been fetched; the run on the site that answers nothing gives the empty
    result, and a URL of that site is skipped by both loops. *)
Lemma run_empty_witness :
  (∃ w st,
     run one_page 5 example_parser (init_state tt) = Some (Returns (Website w, st))
     ∧ no_html (fetch one_page (base_url example_parser)
                  (mkState tt ["https://example.com"] {[ "https://example.com" ]} ∅)).1 = false)
  ∧ (∃ st, run offline 5 example_parser (init_state tt) = Some (Returns (EmptyResult, st)))
  ∧ loop_body offline example_parser "https://example.com/a"
      (initial_frontier example_parser ∅) (init_state tt)
    = Returns (initial_frontier example_parser ∅,
               (fetch offline "https://example.com/a" (init_state tt)).2)
  ∧ parse_pages offline example_parser ["https://example.com/a"; "https://example.com/b"] []
      (init_state tt)
    = parse_pages offline example_parser ["https://example.com/b"] []
        (fetch offline "https://example.com/a" (init_state tt)).2
  ∧ (no_html (fetch offline "https://example.com/a" (init_state tt)).1 = true ↔ True).
Proof.
  split; [|split; [|split; [|split]]].
  - destruct (run_empty_iff_no_homepage one_page) as (Hiff & _ & _).
    eexists _, _. split; [vm_compute; reflexivity|].
    edestruct (Hiff 5 example_parser (init_state tt)) as [_ Hempty];
      [vm_compute; reflexivity|vm_compute; reflexivity|].
    destruct (no_html _) eqn:Hno; [|done]. by specialize (Hempty eq_refl).
  - destruct (run_empty_iff_no_homepage offline) as (_ & _ & _ & Hempty & _).
    eexists. eapply (Hempty 5 example_parser (init_state tt)); vm_compute; reflexivity.
  - destruct (run_empty_iff_no_homepage offline) as (_ & Hloop & _).
    apply Hloop; [apply not_elem_of_empty|by vm_compute].
  - destruct (run_empty_iff_no_homepage offline) as (_ & _ & Hpages & _).
    apply Hpages. by vm_compute.
  - destruct (run_empty_iff_no_homepage offline) as (_ & _ & _ & _ & Hfetch).
    apply (Hfetch "https://example.com/a" (init_state tt)).
Defined.

(** C6 as it stands fails: on a site that answers with status 200, an HTML
    content type and an empty body, the fetch of the home page does not
    fail, and [run] returns the empty result. *)
Lemma empty_home_page_aborts :
  (fetch blank_home "https://example.com" (init_state tt)).1 = Some ""
  ∧ ∃ st, run blank_home 5 example_parser (init_state tt) = Some (Returns (EmptyResult, st)).
Proof. split; [done|]. eexists. vm_compute. reflexivity. Qed.

(** Two URLs of the site of one page: the second is a duplicate. *)
Lemma duplicate_content_witness :
  ∃ r st1,
    content_hash one_page home_page = Some (get_text home_main)
    ∧ parse_page one_page example_parser "https://example.com" "<html>home</html>"
        (init_state tt) = Returns (r, st1)
    ∧ is_Some r
    ∧ seen_content_hashes st1 = {[get_text home_main]} ∪ ∅
    ∧ parse_page one_page example_parser "https://example.com/index.html" "<html>home</html>"
        st1 = Returns (None, st1).
Proof.
  destruct (parse_page one_page example_parser "https://example.com" "<html>home</html>"
              (init_state tt)) as [[r st1]|] eqn:Hfirst; [|by vm_compute in Hfirst].
  exists r, st1.
  destruct (duplicate_content_dropped one_page example_parser
              "https://example.com" "https://example.com/index.html"
              "<html>home</html>" "<html>home</html>" home_main home_main
              (init_state tt) r st1 (or_introl eq_refl) (or_introl eq_refl) eq_refl)
    as (Hhash & _ & Hdup).
  destruct (Hdup (not_elem_of_empty _) Hfirst) as (Hsome & Hseen & Hsecond). done.
Defined.

(** C9.  The header always has the three keys [logo], [navigation] and
    [contact]: on a home page whose header shows neither an e-mail address
    nor a phone number, [contact] is present with the value [None], while
    the footer of the same page, which has no field to show, is empty. *)
Theorem header_contact_is_null :
  (∀ world (X : externals world) soup,
     (extract_header X soup).*1 = ["logo"; "navigation"; "contact"])
  ∧ extract_header one_page home_page
    = [("logo", VStr "Example"); ("navigation", VList []); ("contact", VNone)]
  ∧ extract_footer one_page example_parser home_page = Returns [].
Proof. split; [done|]. split; by vm_compute. Qed.

Lemma drop_falsy_truthy result kv : kv ∈ drop_falsy result → value_truthy kv.2 = true.
Proof. unfold drop_falsy. intros Hin%list_elem_of_In. by apply filter_In in Hin as [_ ?]. Qed.

(** X1.  The footer holds no empty field: its falsy values are filtered
    out. *)
Lemma footer_fields_truthy {world} (X : externals world) self soup footer :
  extract_footer X self soup = Returns footer →
  Forall (λ kv, value_truthy kv.2 = true ∧ kv.2 ≠ VNone) footer.
Proof.
  unfold extract_footer. destruct (find (named ["footer"]) soup) as [f|].
  2: { intros [= <-]. constructor. }
  destruct (collect_footer_links X self _ _) as [links|]; [|done].
  rw bind_returns. cbv zeta.
  match goal with |- Returns (drop_falsy ?r) = _ → _ => generalize r end.
  intros result [= <-]. apply Forall_forall.
  intros [k v] Hv%drop_falsy_truthy. simpl in *. split; [done|].
  intros Hnone. by rw Hnone in Hv.
Qed.

(** The footer of [imprint_page]: the fields without a value are gone. *)
Lemma footer_fields_witness :
  extract_footer one_page example_parser imprint_page
  = Returns [("footer_links", VList ["Imprint"]); ("social_links", VList ["twitter"])]
  ∧ Forall (λ kv : string * value, value_truthy kv.2 = true ∧ kv.2 ≠ VNone)
      [("footer_links", VList ["Imprint"]); ("social_links", VList ["twitter"])].
Proof.
  split; [by vm_compute|].
  apply (footer_fields_truthy one_page example_parser imprint_page). by vm_compute.
Defined.

(* ===================================================================== *)
(** * More facts about strings and lists *)
(* ===================================================================== *)

Section MoreFacts.
Import Py Url PyFacts.
#[local] Arguments String.append !_ _ / : simpl nomatch.

Lemma len_take_str n s : len (take_str n s) = n `min` len s.
Proof.
  unfold len. revert s. induction n as [|n IH]; intros [|c s]; simpl; try done.
  by rw IH.
Qed.

Lemma len_ellipsis n s : len (ellipsis n s) ≤ n + 3.
Proof.
  unfold ellipsis. destruct (n <? len s) eqn:H.
  - rw len_app len_take_str. change (len "...") with 3. lia.
  - apply Nat.ltb_ge in H. lia.
Qed.

Lemma len_ellipsis_ge n s : n `min` len s ≤ len (ellipsis n s).
Proof.
  unfold ellipsis. destruct (n <? len s) eqn:H.
  - rw len_app len_take_str. lia.
  - lia.
Qed.

Lemma dedup_go_NoDup seen l :
  NoDup (dedup_go seen l) ∧ ∀ x, x ∈ dedup_go seen l → x ∉ seen.
Proof.
  revert seen. induction l as [|y l IH]; intros seen; simpl.
  { split; [constructor|]. by intros x ?%elem_of_nil. }
  case_bool_decide as Hy; [apply IH|].
  destruct (IH (y :: seen)) as [Hnd Hnot]. split.
  - constructor; [|done]. intros Hin%Hnot. apply Hin. by left.
  - intros x [->|Hx%Hnot]%elem_of_cons; [done|]. intros ?. apply Hx. by right.
Qed.

Lemma dict_fromkeys_NoDup l : NoDup (dict_fromkeys l).
Proof. apply dedup_go_NoDup. Qed.

Lemma dedup_go_complete seen l x : x ∈ l → x ∉ seen → x ∈ dedup_go seen l.
Proof.
  revert seen. induction l as [|y l IH]; intros seen; simpl; [by intros ?%elem_of_nil|].
  intros [->|Hx]%elem_of_cons Hs.
  - rw bool_decide_eq_false_2; [done|]. by left.
  - case_bool_decide; [by apply IH|].
    destruct (decide (x = y)) as [->|Hne]; [by left|].
    right. apply IH; [done|]. by intros [?|?]%elem_of_cons.
Qed.

Lemma dict_fromkeys_elem l x : x ∈ dict_fromkeys l ↔ x ∈ l.
Proof.
  split; [apply dict_fromkeys_subset|].
  intros Hx. apply dedup_go_complete; [done|]. by intros ?%elem_of_nil.
Qed.

Lemma endswith_cons c d r :
  r ≠ "" → endswith (String c "") (String d r) = endswith (String c "") r.
Proof.
  intros Hr. change (String d r) with (String d "" +:+ r). apply endswith_app.
  destruct r; [done|]. unfold len. simpl. lia.
Qed.

Lemma endswith_rstrip P c s :
  P c = true → endswith (String c "") (rstrip_with P s) = false.
Proof.
  intros Hc. induction s as [|d s IH]; simpl; [done|].
  destruct (rstrip_with P s) as [|e r] eqn:Hr.
  - destruct (P d) eqn:Hd; [done|]. unfold endswith. simpl.
    destruct (Ascii.eqb_spec d c) as [->|Hne]; [congruence|done].
  - by rw endswith_cons.
Qed.

Lemma endswith_lstrip P c s :
  endswith (String c "") s = false → endswith (String c "") (lstrip_with P s) = false.
Proof.
  induction s as [|d s IH]; simpl; [done|]. intros Hs.
  destruct (P d); [|done]. destruct s as [|e s]; [done|].
  apply IH. by rw endswith_cons in Hs.
Qed.

Lemma startswith_lstrip P c s :
  P c = true → startswith (String c "") (lstrip_with P s) = false.
Proof.
  intros Hc. induction s as [|d s IH]; simpl; [done|].
  destruct (P d) eqn:Hd; [done|]. simpl.
  destruct (Ascii.eqb_spec c d) as [->|Hne]; [congruence|done].
Qed.

Lemma startswith_app_l n a b : startswith n a = true → startswith n (a +:+ b) = true.
Proof.
  revert a. induction n as [|x n IH]; intros [|y a]; simpl; try done.
  intros [-> ?]%andb_true_iff. simpl. auto.
Qed.

Lemma contains_prefix n a b : contains n (a +:+ b) = false → contains n a = false.
Proof.
  induction a as [|c a IH].
  - simpl. destruct n; [|done]. by destruct b.
  - simpl. intros [Hs Hc]%orb_false_iff. rw (IH Hc) orb_false_r.
    destruct (startswith n (String c a)) eqn:Hn; [|done].
    by rw (startswith_app_l n (String c a) b Hn) in Hs.
Qed.

Lemma rstrip_with_prefix P s : ∃ t, s = rstrip_with P s +:+ t.
Proof.
  induction s as [|c s [t IH]]; simpl; [by exists ""|].
  destruct (rstrip_with P s) as [|d r] eqn:Hr.
  - destruct (P c); [by exists (String c s)|]. exists s. done.
  - exists t. by rw {1}IH.
Qed.

Lemma contains_rstrip n P s : contains n s = false → contains n (rstrip_with P s) = false.
Proof.
  destruct (rstrip_with_prefix P s) as [t Ht]. rw {1}Ht. apply contains_prefix.
Qed.

Lemma contains_lstrip n P s : contains n s = false → contains n (lstrip_with P s) = false.
Proof.
  induction s as [|c s IH]; [done|]. intros Hs. simpl lstrip_with.
  destruct (P c); [|done]. apply IH. simpl in Hs. by apply orb_false_iff in Hs as [_ ?].
Qed.

Lemma startswith_cons a p b s :
  startswith (String a p) (String b s) = Ascii.eqb a b && startswith p s.
Proof. done. Qed.

Lemma contains_cons n c s :
  contains n (String c s) = startswith n (String c s) || contains n s.
Proof. done. Qed.

Lemma squeeze_hyphens_go_spec b s :
  contains "--" (squeeze_hyphens_go b s) = false
  ∧ (b = true → startswith "-" (squeeze_hyphens_go b s) = false).
Proof.
  revert b. induction s as [|c s IH]; intros b; [done|]. simpl squeeze_hyphens_go.
  destruct (Ascii.eqb_spec c "-") as [->|Hne].
  - destruct b.
    + apply IH.
    + destruct (IH true) as [Hc Hs]. split; [|done].
      rw contains_cons startswith_cons Hc (Hs eq_refl). done.
  - destruct (IH false) as [Hc _]. apply Ascii.eqb_neq in Hne. rw Ascii.eqb_sym in Hne.
    split; [|intros _]; by rw ?contains_cons startswith_cons Hne ?Hc.
Qed.

Lemma all_chars_squeeze Q b s :
  all_chars Q s = true → all_chars Q (squeeze_hyphens_go b s) = true.
Proof.
  revert b. induction s as [|c s IH]; intros b; [done|].
  intros [Hc Hs]%all_chars_cons. cbn [squeeze_hyphens_go].
  destruct (Ascii.eqb_spec c "-") as [->|_]; [destruct b|]; cbn [all_chars]; rw ?Hc ?IH //.
Qed.

Lemma all_chars_hyphenate s : all_chars slug_char (hyphenate s) = true.
Proof.
  unfold hyphenate. rw all_chars_map. induction s as [|c s IH]; simpl; [done|].
  rw IH andb_true_r. unfold slug_char.
  destruct (is_lower c || is_digit c || Ascii.eqb c "-") eqn:Hc; [done|]. done.
Qed.


Lemma flat_map_length_le {A B} (f : A → list B) l :
  (∀ x, length (f x) ≤ 1) → length (flat_map f l) ≤ length l.
Proof.
  intros Hf. induction l as [|x l IH]; simpl; [done|].
  rw length_app. specialize (Hf x). lia.
Qed.

Lemma NoDup_take {A} n (l : list A) : NoDup l → NoDup (take n l).
Proof. intros H. exact (sublist_NoDup _ _ H (sublist_take l n)). Qed.

Lemma elem_of_take_l {A} n (l : list A) x : x ∈ take n l → x ∈ l.
Proof. intros H. exact (elem_of_sublist _ _ _ H (sublist_take l n)). Qed.

Lemma startswith_app_refl p s : startswith p (p +:+ s) = true.
Proof. induction p as [|c p IH]; [done|]. cbn [String.append startswith]. by rw Ascii.eqb_refl. Qed.

Lemma all_chars_replace_char Q a b s :
  Q b = true → all_chars Q s = true → all_chars Q (replace_char a b s) = true.
Proof.
  intros Hb. unfold replace_char. rw all_chars_map. apply all_chars_impl.
  intros c Hc. by destruct (Ascii.eqb c a).
Qed.

Lemma replace_char_gone a b s :
  Ascii.eqb b a = false → all_chars (is_not a) (replace_char a b s) = true.
Proof.
  intros Hb. unfold replace_char. rw all_chars_map.
  induction s as [|c s IH]; [done|]. cbn [all_chars]. rw IH andb_true_r. unfold is_not.
  destruct (Ascii.eqb c a) eqn:Hc; by rw ?Hb ?Hc.
Qed.

Lemma all_chars_replace_go Q old skip s :
  all_chars Q s = true → all_chars Q (replace_go old "" skip s) = true.
Proof.
  revert skip. induction s as [|c s IH]; intros skip; [done|].
  intros [Hc Hs]%all_chars_cons. cbn [replace_go].
  destruct skip; [|auto]. destruct (startswith old (String c s)); [by apply IH|].
  cbn [all_chars]. rw Hc. by apply IH.
Qed.

End MoreFacts.

(* ===================================================================== *)
(** * The shape of normalized URLs *)
(* ===================================================================== *)

Section UrlFacts.
Import Py Url PyFacts.

Lemma scheme_char_plain c : scheme_char c = true → is_not "#" c = true ∧ is_not "?" c = true.
Proof. each_char c. Qed.

Lemma not_delimiter_plain c :
  negb (netloc_delimiter c) = true → is_not "#" c = true ∧ is_not "?" c = true.
Proof. each_char c. Qed.

Lemma good_scheme_chars s : s = "" ∨ good_scheme s → all_chars scheme_char s = true.
Proof. intros [->|H]; [done|]. destruct s; [done|]. by destruct H as (_ & ? & _). Qed.

End UrlFacts.

(* ===================================================================== *)
(** * Query strings and fragments *)
(* ===================================================================== *)

Section UrlTail.
Import Py Url PyFacts.
#[local] Arguments String.append !_ _ / : simpl nomatch.
#[local] Arguments netloc_delimiter : simpl never.

Lemma lstrip_with_app_stop P u d t :
  P d = false → lstrip_with P (u +:+ String d t) = lstrip_with P u +:+ String d t.
Proof.
  intros Hd. induction u as [|c u IH]; simpl; [by rw Hd|]. by destruct (P c).
Qed.

Lemma remove_chars_app P a b :
  remove_chars P (a +:+ b) = remove_chars P a +:+ remove_chars P b.
Proof. induction a as [|c a IH]; simpl; [done|]. destruct (P c); [done|]. simpl. by rw IH. Qed.

Lemma all_chars_remove_keep Q P s :
  all_chars Q s = true → all_chars Q (remove_chars P s) = true.
Proof.
  induction s as [|c s IH]; simpl; [done|]. intros [Hc Hs]%andb_true_iff.
  destruct (P c); [auto|]. simpl. rw Hc. auto.
Qed.

Lemma partition_app_none c a b :
  all_chars (λ d, negb (Ascii.eqb d c)) a = true →
  partition c (a +:+ b) = ((a +:+ (partition c b).1), (partition c b).2).
Proof.
  induction a as [|d a IH]; simpl; [by destruct (partition c b)|].
  intros [Hd Ha]%andb_true_iff. apply negb_true_iff in Hd. rw Hd (IH Ha). done.
Qed.

(** The characters that start a query string or a fragment. *)
Lemma tail_char_cases d :
  d = "?"%char ∨ d = "#"%char →
  c0_control_or_space d = false ∧ unsafe_char d = false ∧ scheme_char d = false
  ∧ Ascii.eqb d ":" = false ∧ Ascii.eqb "/" d = false ∧ netloc_delimiter d = true.
Proof. by intros [->| ->]. Qed.

Lemma split_scheme_tail u d t :
  d = "?"%char ∨ d = "#"%char →
  split_scheme (u +:+ String d t) = ((split_scheme u).1, (split_scheme u).2 +:+ String d t).
Proof.
  intros (_ & _ & Hsc & Hcolon & _)%tail_char_cases. unfold split_scheme.
  destruct (partition ":" u) as [pre ob] eqn:Hp.
  apply partition_spec in Hp as [Hpre ->]. destruct ob as [b|].
  - rw app_assoc. change (String ":" b +:+ String d t) with (String ":" (b +:+ String d t)).
    rw !partition_app //.
    destruct pre as [|c pre]; [done|].
    destruct (is_alpha c && _); [done|]. simpl. by rw app_assoc.
  - rw app_nil_r. rw partition_app_none //.
    cbn [partition]. rw Hcolon. destruct (partition ":" t) as [p o]. cbn [fst snd].
    destruct pre as [|c pre].
    + cbn [String.append fst snd]. destruct o; [|done].
      cbn [all_chars]. fold (scheme_char d). rw Hsc. by rw andb_false_r.
    + cbn [String.append]. destruct o; [|done].
      change (String c (pre +:+ String d p)) with (String c pre +:+ String d p).
      rw all_chars_app. cbn [all_chars]. fold (scheme_char d). rw Hsc.
      by rw andb_false_r andb_false_r.
Qed.

Lemma startswith_slashes_tail rest d t :
  Ascii.eqb "/" d = false →
  startswith "//" (rest +:+ String d t) = startswith "//" rest.
Proof.
  intros Hd. destruct rest as [|a [|b rest]]; cbn [String.append]; rw ?startswith_cons ?Hd //.
Qed.

Lemma splitnetloc_tail x d t :
  netloc_delimiter d = true →
  splitnetloc (x +:+ String d t) = ((splitnetloc x).1, (splitnetloc x).2 +:+ String d t).
Proof.
  intros Hd. induction x as [|c x IH]; simpl; [by rw Hd|].
  destruct (netloc_delimiter c); [done|]. rw IH. by destruct (splitnetloc x).
Qed.

Lemma drop_two_tail rest d t :
  startswith "//" rest = true → drop_str 2 (rest +:+ String d t) = drop_str 2 rest +:+ String d t.
Proof.
  destruct rest as [|a [|b rest]]; rw ?startswith_cons; cbn [startswith]; rw ?andb_false_r //.
Qed.

Lemma split_scheme_suffix Q u : all_chars Q u = true → all_chars Q (split_scheme u).2 = true.
Proof.
  intros Hu. destruct (split_scheme u) as [s rest] eqn:Hs.
  apply split_scheme_spec in Hs as [[_ ->]|[_ [pre ->]]]; [done|].
  apply all_chars_suffix in Hu. by apply all_chars_cons in Hu as [_ ?].
Qed.

Lemma drop_str_suffix Q n u : all_chars Q u = true → all_chars Q (drop_str n u) = true.
Proof.
  revert u. induction n as [|n IH]; intros [|c u]; simpl; try done.
  intros [_ ?]%andb_true_iff. auto.
Qed.

Lemma splitnetloc_suffix Q u : all_chars Q u = true → all_chars Q (splitnetloc u).2 = true.
Proof.
  intros Hu. destruct (splitnetloc u) as [n rest] eqn:Hs.
  apply splitnetloc_spec in Hs as (-> & _ & _). by apply all_chars_suffix in Hu.
Qed.

(** What [urlsplit] makes of a URL followed by a query string or a
    fragment: the scheme, the netloc and the path of the URL itself. *)
Lemma urlsplit_tail ok u d t :
  all_chars (is_not "#") u = true → all_chars (is_not "?") u = true →
  d = "?"%char ∨ d = "#"%char →
  match urlsplit ok u with
  | Returns r =>
      ∃ q f, urlsplit ok (u +:+ String d t)
             = Returns (mkParseResult (scheme r) (netloc r) (path r) "" q f)
  | Raises => urlsplit ok (u +:+ String d t) = Raises
  end.
Proof.
  intros Hfrag Hquery Hd. pose proof (tail_char_cases d Hd) as (Hc0 & Hun & _ & _ & Hsl & Hdel).
  unfold urlsplit.
  rw lstrip_with_app_stop // remove_chars_app. cbn [remove_chars]. rw Hun.
  set (u2 := remove_chars unsafe_char (lstrip_with c0_control_or_space u)).
  set (t2 := remove_chars unsafe_char t).
  assert (all_chars (is_not "#") u2 = true) as Hf2
    by by apply all_chars_remove_keep, all_chars_lstrip.
  assert (all_chars (is_not "?") u2 = true) as Hq2
    by by apply all_chars_remove_keep, all_chars_lstrip.
  rw split_scheme_tail //.
  pose proof (split_scheme_suffix _ _ Hf2) as Hf3.
  pose proof (split_scheme_suffix _ _ Hq2) as Hq3.
  destruct (split_scheme u2) as [s rest]. cbn [fst snd] in *.
  rw startswith_slashes_tail //.
  assert (∃ n rest2,
            (if startswith "//" rest then splitnetloc (drop_str 2 rest) else ("", rest))
            = (n, rest2)
            ∧ (if startswith "//" rest then splitnetloc (drop_str 2 (rest +:+ String d t2))
               else ("", rest +:+ String d t2)) = (n, rest2 +:+ String d t2)
            ∧ all_chars (is_not "#") rest2 = true ∧ all_chars (is_not "?") rest2 = true)
    as (n & rest2 & -> & -> & Hf4 & Hq4).
  { destruct (startswith "//" rest) eqn:Hst.
    - rw drop_two_tail // splitnetloc_tail //.
      pose proof (splitnetloc_suffix _ _ (drop_str_suffix _ 2 _ Hf3)).
      pose proof (splitnetloc_suffix _ _ (drop_str_suffix _ 2 _ Hq3)).
      destruct (splitnetloc (drop_str 2 rest)) as [n rest2]. by exists n, rest2.
    - by exists "", rest. }
  destruct (negb (check_netloc ok n)); [done|].
  rw (partition_none "#" rest2 Hf4) (partition_none "?" rest2 Hq4).
  destruct Hd as [-> | ->].
  - rw (partition_app_none "#" rest2) //. cbn [partition]. simpl Ascii.eqb. cbv iota.
    destruct (partition "#" t2) as [p o]. cbn [fst snd].
    change (rest2 +:+ String "?" p) with (rest2 +:+ String "?" p).
    rw (partition_app "?" rest2 p) //. by eexists _, _.
  - rw (partition_app "#" rest2 t2) // (partition_none "?" rest2 Hq4). by eexists _, _.
Qed.

Lemma urlsplit_params ok u r : urlsplit ok u = Returns r → params r = "".
Proof.
  unfold urlsplit. destruct (split_scheme _) as [s rest].
  destruct (if startswith "//" rest then _ else _) as [n rest2].
  destruct (negb _); [done|].
  destruct (partition "#" rest2) as [p f]. destruct (partition "?" p) as [p2 q].
  by intros [= <-].
Qed.

Lemma urlparse_tail ok u d t :
  all_chars (is_not "#") u = true → all_chars (is_not "?") u = true →
  d = "?"%char ∨ d = "#"%char →
  match urlparse ok u with
  | Returns r =>
      ∃ q f, urlparse ok (u +:+ String d t)
             = Returns (mkParseResult (scheme r) (netloc r) (path r) (params r) q f)
  | Raises => urlparse ok (u +:+ String d t) = Raises
  end.
Proof.
  intros Hf Hq Hd. pose proof (urlsplit_tail ok u d t Hf Hq Hd) as Hsplit.
  unfold urlparse. destruct (urlsplit ok u) as [r|] eqn:Hr; [|by rw Hsplit].
  destruct Hsplit as (q & f & ->). rw !bind_returns. cbn [scheme path netloc query fragment].
  destruct (_ && _).
  - destruct (splitparams (path r)) as [p ps]. by exists q, f.
  - exists q, f. by rw (urlsplit_params _ _ _ Hr).
Qed.

End UrlTail.

Section NormalizeShape.
Import Py Url PyFacts.
#[local] Arguments String.append !_ _ / : simpl nomatch.
Context {world : Type} (X : externals world).

Lemma normalize_url_inv u v :
  normalize_url X u = Returns v →
  ∃ r, urlparse (bracketed_host_ok X) u = Returns r
       ∧ v = (if 1 <? len (path r)
              then rstrip_chars "/" (scheme r +:+ "://" +:+ netloc r +:+ path r)
              else scheme r +:+ "://" +:+ netloc r +:+ path r).
Proof.
  unfold normalize_url. destruct (urlparse _ u) as [r|]; [|done].
  rw bind_returns. intros [= <-]. by exists r.
Qed.

(** A property of characters that the scheme, the netloc and the path of
    a parsed URL have carries over to the normalized URL. *)
Lemma normalize_url_all_chars (Q : ascii → bool) u v :
  (∀ c, scheme_char c = true → Q c = true) →
  (∀ c, negb (netloc_delimiter c) = true → safe_char c = true → Q c = true) →
  (∀ r, urlparse (bracketed_host_ok X) u = Returns r → all_chars Q (path r) = true) →
  Q ":"%char = true → Q "/"%char = true →
  normalize_url X u = Returns v → all_chars Q v = true.
Proof.
  intros Hs Hn Hp Hc Hsl (r & Hr & ->)%normalize_url_inv.
  pose proof (urlparse_well_split _ _ _ Hr) as [Hsch Hnsafe Hndelim _ _ _ _ _].
  apply good_scheme_chars in Hsch. specialize (Hp r Hr).
  assert (all_chars Q (scheme r +:+ "://" +:+ netloc r +:+ path r) = true) as Hcl.
  { rw !all_chars_app. rw (all_chars_impl _ _ _ Hs Hsch).
    cbn [all_chars]. rw Hc Hsl Hp. cbn [andb].
    assert (all_chars Q (netloc r) = true) as ->; [|done].
    clear -Hnsafe Hndelim Hn. induction (netloc r) as [|c n IH]; [done|].
    apply all_chars_cons in Hnsafe as [? ?]. apply all_chars_cons in Hndelim as [? ?].
    cbn [all_chars]. rw Hn; [done..|]. by rw IH. }
  destruct (1 <? _); [|done]. by apply all_chars_rstrip.
Qed.

Lemma normalize_url_plain u v :
  normalize_url X u = Returns v → contains "?" v = false ∧ contains "#" v = false.
Proof.
  intros Hv. split; apply all_chars_contains_false;
    (eapply normalize_url_all_chars; [..|exact Hv]; try done;
     [by intros c []%scheme_char_plain
     |by intros c []%not_delimiter_plain
     |by intros r [_ _ _ _ _ ? ? _]%urlparse_well_split]).
Qed.

(** X2.  A normalized URL holds no question mark, no hash sign and no tab,
    carriage return or line feed; it ends with a slash only when the path
    of the URL it comes from has at most one character. *)
Theorem normalize_url_shape u v :
  normalize_url X u = Returns v →
  contains "?" v = false
  ∧ contains "#" v = false
  ∧ all_chars safe_char v = true
  ∧ (endswith "/" v = true →
     ∃ r, urlparse (bracketed_host_ok X) u = Returns r ∧ len (path r) ≤ 1).
Proof.
  intros Hv. destruct (normalize_url_plain _ _ Hv) as [Hq Hf].
  split_and!; [done|done| |].
  - eapply normalize_url_all_chars; [..|exact Hv]; try done.
    + apply scheme_char_safe.
    + by intros r [_ _ _ _ ? _ _ _]%urlparse_well_split.
  - apply normalize_url_inv in Hv as (r & Hr & ->).
    intros Hend. exists r. split; [done|].
    destruct (1 <? len (path r)) eqn:Hlen; [|by apply Nat.ltb_ge in Hlen].
    unfold rstrip_chars in Hend. by rw endswith_rstrip in Hend.
Qed.

(** X3.  A query string or a fragment put after a URL that has neither
    changes nothing to its normal form, to whether it is internal, or to
    its slug. *)
Theorem url_tail_ignored self u d t :
  contains "#" u = false → contains "?" u = false →
  d = "?"%char ∨ d = "#"%char →
  normalize_url X (u +:+ String d t) = normalize_url X u
  ∧ is_internal_link X self (u +:+ String d t) = is_internal_link X self u
  ∧ generate_page_slug X (u +:+ String d t) = generate_page_slug X u.
Proof.
  intros Hf%contains_char_false Hq%contains_char_false Hd.
  pose proof (urlparse_tail (bracketed_host_ok X) u d t Hf Hq Hd) as Htail.
  unfold normalize_url, is_internal_link, generate_page_slug.
  destruct (urlparse _ u) as [r|]; [|by rw Htail].
  by destruct Htail as (q & f & ->).
Qed.

End NormalizeShape.


(* ===================================================================== *)
(** * The parser's own URL, and links without a host *)
(* ===================================================================== *)

Section InternalLinks.
Import Py Url PyFacts.
#[local] Arguments String.append !_ _ / : simpl nomatch.
Context {world : Type} (X : externals world).

Lemma contains_suffix n a b : contains n (a +:+ b) = false → contains n b = false.
Proof.
  induction a as [|c a IH]; [done|]. cbn [String.append]. rw contains_cons.
  by intros [_ ?]%orb_false_iff; auto.
Qed.

Lemma contains_startswith n s : contains n s = false → startswith n s = false.
Proof. destruct s; cbn [contains]; by intros [? _]%orb_false_iff. Qed.

Lemma check_netloc_empty ok : check_netloc ok "" = true.
Proof. done. Qed.

(** A URL in which no two slashes follow each other has no netloc. *)
Lemma urlparse_no_authority ok u :
  all_chars safe_char u = true → contains "//" u = false →
  ∃ r, urlparse ok u = Returns r ∧ netloc r = "".
Proof.
  intros Hsafe Hno.
  assert (∃ r, urlsplit ok u = Returns r ∧ netloc r = "") as (r & Hr & Hn).
  { unfold urlsplit.
    rw (remove_chars_none unsafe_char); [by apply all_chars_lstrip|].
    pose proof (contains_lstrip "//" c0_control_or_space u Hno) as Hno1.
    destruct (split_scheme _) as [s rest] eqn:Hs.
    assert (startswith "//" rest = false) as ->.
    { apply contains_startswith.
      apply split_scheme_spec in Hs as [[_ ->]|[_ [pre Hpre]]]; [done|].
      rw Hpre in Hno1. apply contains_suffix in Hno1.
      rw contains_cons in Hno1. by apply orb_false_iff in Hno1 as [_ ?]. }
    rw check_netloc_empty. cbn [negb].
    destruct (partition "#" rest) as [p f]. destruct (partition "?" p) as [p2 q].
    by eexists. }
  unfold urlparse. rw Hr bind_returns.
  destruct (_ && _); [|by exists r].
  destruct (splitparams (path r)) as [p ps]. by eexists.
Qed.

(** X5.  A link without tab, carriage return or line feed in which no two
    slashes follow each other has no netloc, and so is internal whatever
    its scheme: relative paths, and also [mailto:] and [tel:] links. *)
Theorem links_without_host_are_internal self u :
  all_chars safe_char u = true → contains "//" u = false →
  is_internal_link X self u = Returns true.
Proof.
  intros Hsafe Hno.
  destruct (urlparse_no_authority (bracketed_host_ok X) u Hsafe Hno) as (r & Hr & Hn).
  unfold is_internal_link. by rw Hr bind_returns Hn.
Qed.

(** X4.  The base URL of a parser is the URL it was made from without its
    trailing slashes: it does not end with a slash, it is an internal link
    of the parser, and the internal domain is its netloc. *)
Theorem parser_base_url url self :
  init X url = Returns self →
  base_url self = rstrip_chars "/" url
  ∧ endswith "/" (base_url self) = false
  ∧ is_internal_link X self (base_url self) = Returns true
  ∧ ∃ r, urlparse (bracketed_host_ok X) (base_url self) = Returns r
         ∧ internal_domain self = netloc r.
Proof.
  unfold init. destruct (urlparse _ (rstrip_chars "/" url)) as [parsed|] eqn:Hp; [|done].
  rw bind_returns. intros [= <-]. cbn [base_url internal_domain].
  split_and!; [done|by apply endswith_rstrip| |by exists parsed].
  unfold is_internal_link. rw Hp bind_returns. cbn [internal_domain].
  destruct (negb _); [done|]. by rw String.eqb_refl.
Qed.

Lemma host_char_plain c :
  host_char c = true →
  safe_char c = true ∧ negb (netloc_delimiter c) = true
  ∧ Ascii.eqb c "[" = false ∧ Ascii.eqb c "]" = false.
Proof. each_char c. Qed.

Lemma path_char_plain c :
  path_char c = true →
  safe_char c = true ∧ is_not "#" c = true ∧ is_not "?" c = true ∧ is_not ";" c = true.
Proof. each_char c. Qed.

Lemma all_chars_not_contains c s :
  all_chars (λ d, negb (Ascii.eqb d c)) s = true → contains (String c "") s = false.
Proof. apply all_chars_contains_false. Qed.

(** X23.  For a URL made of a scheme, a plain host that is not empty and a
    plain path, [is_internal_link] compares the host with the internal
    domain, character by character: another case, a [www.] before it or a
    port after it make the link external. *)
Theorem absolute_link_internal self s n q :
  good_scheme s →
  n ≠ "" → all_chars host_char n = true →
  starts_slash q = true → all_chars path_char q = true →
  is_internal_link X self (s +:+ "://" +:+ n +:+ q)
  = Returns (String.eqb n (internal_domain self)).
Proof.
  intros Hs Hne Hn Hst Hq.
  assert (urlparse (bracketed_host_ok X) (s +:+ "://" +:+ n +:+ q)
          = Returns (mkParseResult s n q "" "" "")) as Hp.
  { apply urlparse_canonical; try done.
    - eapply all_chars_impl; [|exact Hn]. by intros c (? & _)%host_char_plain.
    - eapply all_chars_impl; [|exact Hn]. by intros c (_ & ? & _)%host_char_plain.
    - unfold check_netloc.
      rw (all_chars_not_contains "[" n).
      { eapply all_chars_impl; [|exact Hn]. by intros c (_ & _ & -> & _)%host_char_plain. }
      rw (all_chars_not_contains "]" n).
      { eapply all_chars_impl; [|exact Hn]. by intros c (_ & _ & _ & ->)%host_char_plain. }
      done.
    - eapply all_chars_impl; [|exact Hq]. by intros c (? & _)%path_char_plain.
    - eapply all_chars_impl; [|exact Hq]. by intros c (_ & ? & _)%path_char_plain.
    - eapply all_chars_impl; [|exact Hq]. by intros c (_ & _ & ? & _)%path_char_plain.
    - eapply all_chars_impl; [|exact Hq]. by intros c (_ & _ & _ & ?)%path_char_plain. }
  unfold is_internal_link. rw Hp bind_returns. cbn [netloc].
  by destruct n.
Qed.

End InternalLinks.

(* ===================================================================== *)
(** * What the classifier returns *)
(* ===================================================================== *)

(** What the classifier returns comes from one of its blocks, for a tag
    whose text has 20 characters or more. *)
Lemma identify_inv e c :
  identify_component_type e = Some c →
  is_tag e = true
  ∧ 20 ≤ Py.len (get_text_strip " " e)
  ∧ (hero_case e = Some c ∨ form_case e = Some c ∨ table_case e = Some c
     ∨ list_case e = Some c ∨ gallery_case e = Some c
     ∨ rich_text_case e (get_text_strip " " e) = Some c
     ∨ text_block_case (get_text_strip " " e) = Some c).
Proof.
  unfold identify_component_type.
  destruct (is_tag e); simpl; [|done].
  destruct (Py.len _ <? 20) eqn:Hlen; [done|]. apply Nat.ltb_ge in Hlen.
  intros H. split; [done|]. split; [done|].
  repeat case_match; naive_solver.
Qed.

(** List component *)
Lemma list_item_inv li i : i ∈ list_item li → 0 < Py.len i < 200.
Proof.
  unfold list_item. destruct (Py.truthy _ && _) eqn:Hc; [|by intros ?%elem_of_nil].
  apply andb_true_iff in Hc as [Ht Hl%Nat.ltb_lt]. apply PyFacts.truthy_len in Ht.
  by intros ->%list_elem_of_singleton.
Qed.

Lemma list_item_length li : length (list_item li) ≤ 1.
Proof. unfold list_item. case_match; simpl; lia. Qed.

(** X13.  A list component has 3 to 10 items, each not empty and shorter
    than 200 characters, and never comes from a [nav], [header] or [footer]
    element. *)
Theorem list_component_bounds element items :
  identify_component_type element = Some (ListItems items) →
  3 ≤ length items ≤ 10
  ∧ Forall (λ item, 0 < Py.len item < 200) items
  ∧ name element ∉ ["nav"; "header"; "footer"].
Proof.
  intros (_ & _ & Hcase)%identify_inv.
  assert (list_case element = Some (ListItems items)) as Hl.
  { destruct Hcase as [H|[H|[H|[H|[H|[H|H]]]]]]; try done.
    - by apply hero_case_type in H.
    - by apply form_case_type in H.
    - by apply table_case_type in H.
    - by apply gallery_case_type in H.
    - by apply rich_text_case_type in H.
    - by apply text_block_case_type in H. }
  unfold list_case in Hl. destruct (find _ element) as [ul|]; [|done].
  case_bool_decide as Hname; [done|].
  destruct (3 <=? _) eqn:Hlen; [|done]. apply Nat.leb_le in Hlen.
  injection Hl as <-. split_and!; [done| |..].
  - etrans; [apply flat_map_length_le, list_item_length|]. rw length_take. lia.
  - apply Forall_forall. intros i Hi.
    apply list_elem_of_In, in_flat_map in Hi as (li & _ & Hi).
    eapply list_item_inv. by apply list_elem_of_In.
  - done.
Qed.

Ltac other_block H :=
  first [ by apply hero_case_type in H | by apply form_case_type in H
        | by apply table_case_type in H | by apply list_case_type in H
        | by apply gallery_case_type in H | by apply rich_text_case_type in H
        | by apply text_block_case_type in H ].

Lemma table_row_inv tr row : row ∈ table_row tr → row ≠ [] ∧ Exists (λ cell, cell ≠ "") row.
Proof.
  unfold table_row. destruct (find_all _ tr) as [|td tds] eqn:Htds; [by intros ?%elem_of_nil|].
  destruct (existsb _ _) eqn:Hany; [|by intros ?%elem_of_nil].
  intros ->%list_elem_of_singleton. split; [done|].
  apply existsb_exists in Hany as (cell & Hin & Hcell).
  apply Exists_exists. exists cell. split; [by apply list_elem_of_In|]. by intros ->.
Qed.

(** X14.  A table component has at most five sample rows, each with a
    cell and with a cell that is not empty; its columns, when given, are
    not empty and none of them is; without columns there are at least two
    sample rows. *)
Theorem table_component_bounds element columns rows :
  identify_component_type element = Some (Table columns rows) →
  length rows ≤ 5
  ∧ Forall (λ row, row ≠ [] ∧ Exists (λ cell, cell ≠ "") row) rows
  ∧ match columns with
    | Some names => names ≠ [] ∧ Forall (λ name, name ≠ "") names
    | None => 2 ≤ length rows
    end.
Proof.
  intros (_ & _ & Hcase)%identify_inv.
  assert (table_case element = Some (Table columns rows)) as Ht.
  { destruct Hcase as [H|[H|[H|[H|[H|[H|H]]]]]]; try done; other_block H. }
  unfold table_case in Ht. destruct (table_of element) as [table|]; [|done].
  destruct (bool_decide _ || _) eqn:Hc; [|done]. injection Ht as <- <-.
  split_and!.
  - rw length_take. lia.
  - apply Forall_take, Forall_forall. intros row Hrow.
    apply list_elem_of_In, in_flat_map in Hrow as (tr & _ & Hrow).
    eapply table_row_inv. by apply list_elem_of_In.
  - destruct (table_columns table) as [|col cols] eqn:Hcols.
    + simpl in Hc. apply Nat.ltb_lt in Hc. rw length_take. lia.
    + split; [done|]. rw -Hcols. unfold table_columns.
      apply Forall_forall. intros name Hn.
      apply list_elem_of_In, filter_In in Hn as [_ Hn]. by intros ->.
Qed.

Lemma image_info_inv img alt src : (alt, src) ∈ image_info img → src ≠ "".
Proof.
  unfold image_info. destruct (Py.truthy _) eqn:Ht; [|by intros ?%elem_of_nil].
  intros [= -> ->]%list_elem_of_singleton. by intros Hs; rw Hs in Ht.
Qed.

Lemma image_info_length img : length (image_info img) ≤ 1.
Proof. unfold image_info. case_match; simpl; lia. Qed.

(** X15.  A media gallery counts all the images below the element, two at
    least, and lists one to five of them, no more than it counts, each with
    a source that is not empty. *)
Theorem gallery_component_bounds element image_count images :
  identify_component_type element = Some (MediaGallery image_count images) →
  2 ≤ image_count
  ∧ image_count = length (find_all (named ["img"]) element)
  ∧ 1 ≤ length images ≤ 5
  ∧ length images ≤ image_count
  ∧ Forall (λ image, image.2 ≠ "") images.
Proof.
  intros (_ & _ & Hcase)%identify_inv.
  assert (gallery_case element = Some (MediaGallery image_count images)) as Hg.
  { destruct Hcase as [H|[H|[H|[H|[H|[H|H]]]]]]; try done; other_block H. }
  unfold gallery_case in Hg.
  destruct (2 <=? _) eqn:Hn; [|done]. apply Nat.leb_le in Hn.
  destruct (flat_map _ _) as [|i0 rest] eqn:Hinfo; [done|]. injection Hg as <- <-.
  pose proof (flat_map_length_le image_info
                (take 5 (find_all (named ["img"]) element)) image_info_length) as Hle.
  rw Hinfo length_take in Hle. cbn [length] in *.
  split_and!; [done|done|lia|lia|lia|].
  rw -Hinfo. apply Forall_forall. intros [alt src] Hi.
  apply list_elem_of_In, in_flat_map in Hi as (img & _ & Hi).
  eapply image_info_inv. by apply list_elem_of_In.
Qed.

(** X16.  The fields of a form component are not empty as a list, hold no
    label twice and no empty label. *)
Theorem form_component_fields element fields :
  identify_component_type element = Some (Form fields) →
  fields ≠ [] ∧ NoDup fields ∧ Forall (λ f, f ≠ "") fields.
Proof.
  intros Hf%identify_form_inv. unfold form_case in Hf.
  destruct (form_of element) as [form|]; [|done].
  destruct (form_fields form) as [|f fs] eqn:Hfs; [done|]. injection Hf as <-.
  split_and!.
  - intros Hnil. assert (f ∈ Py.dict_fromkeys (f :: fs)) as Hin.
    { apply dict_fromkeys_elem. by left. }
    rw Hnil in Hin. by apply elem_of_nil in Hin.
  - apply dict_fromkeys_NoDup.
  - apply Forall_forall. intros x Hx%PyFacts.dict_fromkeys_subset. rw -Hfs in Hx.
    apply list_elem_of_In, in_flat_map in Hx as (inp & _ & Hx).
    apply list_elem_of_In, form_field_inv in Hx as [-> Hlen].
    intros Hempty. pose proof (PyFacts.len_title (clean_field_name (field_name inp))) as Ht.
    rw Hempty in Ht. simpl in Ht. unfold Py.len in *. simpl in Ht. lia.
Qed.

(** X17.  A hero banner has a title or a subtitle, and its subtitle is
    empty or has more than 20 and fewer than 200 characters; a rich text
    and a text block come from a text of more than 100 characters, the
    preview of a rich text has at most 303 characters and the content of a
    text block more than 50 and at most 403. *)
Theorem text_component_lengths element c :
  identify_component_type element = Some c →
  match c with
  | HeroBanner title subtitle =>
      (title ≠ "" ∨ subtitle ≠ "") ∧ (subtitle = "" ∨ 20 < Py.len subtitle < 200)
  | RichText heading content_preview =>
      100 < Py.len (get_text_strip " " element) ∧ Py.len content_preview ≤ 303
  | TextBlock content =>
      100 < Py.len (get_text_strip " " element) ∧ 50 < Py.len content ≤ 403
  | _ => True
  end.
Proof.
  intros (_ & _ & Hcase)%identify_inv. destruct c; try done.
  - assert (hero_case element = Some (HeroBanner title subtitle)) as Hh.
    { destruct Hcase as [H|[H|[H|[H|[H|[H|H]]]]]]; try done; other_block H. }
    unfold hero_case in Hh. destruct (hero_marked element); [|done].
    destruct (_ || _) eqn:Hts; [|done]. injection Hh as <- <-. split.
    + apply orb_true_iff in Hts as [Ht|Ht]; [left|right]; intros Hs; by rw Hs in Ht.
    + unfold hero_subtitle.
      destruct (List.filter _ _) as [|p ps] eqn:Hps; [by left|]. right.
      assert (In p (p :: ps)) as Hin by by left.
      rw -Hps in Hin. apply filter_In in Hin as [_ [H1%Nat.ltb_lt H2%Nat.ltb_lt]%andb_true_iff].
      done.
  - assert (rich_text_case element (get_text_strip " " element)
            = Some (RichText heading content_preview)) as Hr.
    { destruct Hcase as [H|[H|[H|[H|[H|[H|H]]]]]]; try done; other_block H. }
    unfold rich_text_case in Hr. destruct (100 <? _) eqn:Hlen; [|done].
    apply Nat.ltb_lt in Hlen. destruct (find_all _ element) as [|h hs]; [done|].
    injection Hr as <- <-. split; [done|]. apply (len_ellipsis 300).
  - assert (text_block_case (get_text_strip " " element) = Some (TextBlock content)) as Hb.
    { destruct Hcase as [H|[H|[H|[H|[H|[H|H]]]]]]; try done; other_block H. }
    unfold text_block_case in Hb. destruct (100 <? _) eqn:Hlen; [|done].
    apply Nat.ltb_lt in Hlen. destruct (50 <? _) eqn:Hc; [|done]. apply Nat.ltb_lt in Hc.
    injection Hb as <-. split; [done|].
    pose proof (len_ellipsis 400 (Py.strip (Py.collapse_ws (get_text_strip " " element)))).
    pose proof (len_ellipsis_ge 400 (Py.strip (Py.collapse_ws (get_text_strip " " element)))).
    lia.
Qed.

(* ===================================================================== *)
(** * Slugs, components and links of a page *)
(* ===================================================================== *)

Section Slug.
Import Py Url PyFacts.
Context {world : Type} (X : externals world).

(** X12.  A slug is never empty; it is made of lower-case letters, digits
    and hyphens, neither starts nor ends with a hyphen, and has no two
    hyphens in a row. *)
Theorem page_slug_shape url slug :
  generate_page_slug X url = Returns slug →
  slug ≠ ""
  ∧ all_chars slug_char slug = true
  ∧ startswith "-" slug = false
  ∧ endswith "-" slug = false
  ∧ contains "--" slug = false.
Proof.
  unfold generate_page_slug.
  destruct (urlparse _ url) as [parsed|]; [|done]. rw bind_returns.
  destruct (negb _); [by intros [= <-]|].
  set (path := strip_page_extension _).
  set (raw := squeeze_hyphens (hyphenate (lower (rsplit_slash path).2))).
  destruct (truthy (strip_chars "-" raw)) eqn:Ht; intros [= <-]; [|done].
  split_and!.
  - intros Hs. by rw Hs in Ht.
  - apply all_chars_lstrip, all_chars_rstrip, all_chars_squeeze, all_chars_hyphenate.
  - by apply startswith_lstrip.
  - by apply endswith_lstrip, endswith_rstrip.
  - apply contains_lstrip, contains_rstrip, squeeze_hyphens_go_spec.
Qed.
End Slug.

(** Induction on a tree, with the children as a list. *)
Lemma node_tree_ind (P : node → Prop) :
  (∀ s, P (Text s)) →
  (∀ nm attrs cs, Forall P cs → P (Tag nm attrs cs)) →
  ∀ n, P n.
Proof.
  intros HT HG. fix IH 1. intros [s|nm attrs cs]; [apply HT|].
  apply HG. induction cs as [|c cs IHcs]; constructor; [apply IH|apply IHcs].
Qed.

Lemma named_decompose_all names ns n : named names (decompose_all ns n) = named names n.
Proof. by destruct n. Qed.

Lemma elem_of_descendants d nm attrs cs :
  d ∈ descendants (Tag nm attrs cs) ↔ ∃ c, c ∈ cs ∧ (d = c ∨ d ∈ descendants c).
Proof.
  cbn [descendants]. rw list_elem_of_In in_flat_map. split.
  - intros (c & Hc & Hd). exists c. rw list_elem_of_In. split; [done|].
    destruct Hd as [<-|Hd]; [by left|right]. by apply list_elem_of_In.
  - intros (c & Hc & Hd). exists c. split; [by apply list_elem_of_In|].
    destruct Hd as [->|Hd]; [by left|right]. by apply list_elem_of_In.
Qed.

(** After [decompose_all] no tag with one of the names is left below the
    root. *)
Lemma decompose_all_descendants names n d :
  d ∈ descendants (decompose_all names n) → named names d = false.
Proof.
  revert d. induction n as [s|nm attrs cs IH] using node_tree_ind; intros d.
  { by intros ?%elem_of_nil. }
  cbn [decompose_all]. intros (c' & Hc' & Hd)%elem_of_descendants.
  apply list_elem_of_In, in_flat_map in Hc' as (c & Hc & Hc').
  destruct (named names c) eqn:Hnamed; [done|].
  destruct Hc' as [<-|[]].
  rw Forall_forall in IH. apply list_elem_of_In in Hc.
  destruct Hd as [->|Hd]; [by rw named_decompose_all|]. by eapply IH.
Qed.

Lemma descendants_trans a b c : a ∈ descendants b → b ∈ descendants c → a ∈ descendants c.
Proof.
  revert a b. induction c as [s|nm attrs cs IH] using node_tree_ind; intros a b Ha.
  { by intros ?%elem_of_nil. }
  intros (c & Hc & Hb)%elem_of_descendants. apply elem_of_descendants.
  exists c. split; [done|]. right. destruct Hb as [->|Hb]; [done|].
  rw Forall_forall in IH. by eapply IH.
Qed.

Lemma find_all_elem p n d : d ∈ find_all p n ↔ d ∈ descendants n ∧ p d = true.
Proof. unfold find_all. by rw !list_elem_of_In filter_In. Qed.

Lemma find_elem p n d : find p n = Some d → d ∈ descendants n ∧ p d = true.
Proof.
  unfold find. destruct (find_all p n) as [|x l] eqn:Hf; [done|]. intros [= ->].
  apply find_all_elem. rw Hf. by left.
Qed.

(** X18.  Once the tags with given names are decomposed, [find_all] finds
    none of them in the copy, nor below any element of the copy. *)
Theorem decompose_all_removes names n :
  find_all (named names) (decompose_all names n) = []
  ∧ (∀ d, d ∈ descendants (decompose_all names n) →
       named names d = false ∧ find_all (named names) d = []).
Proof.
  assert (∀ m, (∀ d, d ∈ descendants m → named names d = false) →
               find_all (named names) m = []) as Hnone.
  { intros m Hm. destruct (find_all (named names) m) as [|x l] eqn:Hf; [done|].
    assert (x ∈ find_all (named names) m) as [Hx Hn]%find_all_elem by (rw Hf; by left).
    by rw (Hm x Hx) in Hn. }
  split.
  - apply Hnone. apply decompose_all_descendants.
  - intros d Hd. split; [by eapply decompose_all_descendants|].
    apply Hnone. intros e He. eapply decompose_all_descendants, descendants_trans; done.
Qed.

Section PageLinks.
Context {world : Type} (X : externals world).

Lemma page_link_inv self a links links' :
  page_link X self a links = Returns links' → links_inv X self links → links_inv X self links'.
Proof.
  unfold page_link. destruct links as [internal external].
  destruct (startswith_any _ _); [by intros [= <-]|].
  destruct (Py.contains "cookie" _); [by intros [= <-]|].
  destruct (urljoin X _ _) as [absolute|]; [|done]. rw bind_returns.
  destruct (is_internal_link X self absolute) as [[]|] eqn:Hint; [| |done]; rw bind_returns.
  - destruct (normalize_url X absolute) as [clean|] eqn:Hn; [|done]. rw bind_returns.
    destruct (negb _ && negb _) eqn:Hc; intros [= <-]; [|done].
    apply andb_true_iff in Hc as [Hnew%negb_true_iff%bool_decide_eq_false Hpdf%negb_true_iff].
    intros (Hi & He & Hfi & Hfe). split_and!; simpl; [|done| |done].
    + apply NoDup_app. split; [done|]. split; [|apply NoDup_singleton].
      by intros x Hx ->%list_elem_of_singleton.
    + apply Forall_app. split; [done|]. constructor; [|done]. split; [done|]. eauto.
  - destruct (negb _ && negb _) eqn:Hc; intros [= <-]; [|done].
    apply andb_true_iff in Hc as [Hnew%negb_true_iff%bool_decide_eq_false Hpdf%negb_true_iff].
    intros (Hi & He & Hfi & Hfe). split_and!; simpl; [done| |done|].
    + apply NoDup_app. split; [done|]. split; [|apply NoDup_singleton].
      by intros x Hx ->%list_elem_of_singleton.
    + apply Forall_app. split; [done|]. by constructor.
Qed.

Lemma page_links_inv self anchors links links' :
  page_links X self anchors links = Returns links' → links_inv X self links → links_inv X self links'.
Proof.
  revert links. induction anchors as [|a anchors IH]; intros links; simpl.
  { by intros [= <-]. }
  destruct (page_link X self a links) as [links1|] eqn:Ha; [|done]. rw bind_returns.
  intros Hrest Hinv. apply (IH _ Hrest). by eapply page_link_inv.
Qed.

(** X19.  The links of a page are at most 20 internal and 10 external
    ones, no link twice in either list and no PDF; an internal link is the
    normal form of an internal URL, without query string or fragment; an
    external link is not internal. *)
Theorem page_links_shape self soup internal external :
  extract_page_links X self soup = Returns (internal, external) →
  length internal ≤ 20 ∧ length external ≤ 10
  ∧ NoDup internal ∧ NoDup external
  ∧ Forall (λ u, Py.endswith ".pdf" u = false
                 ∧ Py.contains "?" u = false ∧ Py.contains "#" u = false
                 ∧ ∃ absolute, is_internal_link X self absolute = Returns true
                               ∧ normalize_url X absolute = Returns u) internal
  ∧ Forall (λ u, Py.endswith ".pdf" u = false
                 ∧ is_internal_link X self u = Returns false) external.
Proof.
  unfold extract_page_links.
  destruct (page_links X self _ _) as [[internal' external']|] eqn:Hlinks; [|done].
  rw bind_returns. intros [= <- <-].
  apply page_links_inv in Hlinks as (Hi & He & Hfi & Hfe).
  2: { split_and!; simpl; constructor. }
  simpl in *. split_and!.
  - rw length_take. lia.
  - rw length_take. lia.
  - by apply NoDup_take.
  - by apply NoDup_take.
  - apply Forall_take. eapply Forall_impl; [exact Hfi|]. simpl.
    intros u (Hpdf & absolute & Hint & Hn).
    destruct (normalize_url_plain X _ _ Hn). split_and!; eauto.
  - by apply Forall_take.
Qed.

End PageLinks.

Section PageComponents.
Context {world : Type} (X : externals world).

Lemma descendants_with_parent_elem n p c :
  (p, c) ∈ descendants_with_parent n → p = n ∨ p ∈ descendants n.
Proof.
  revert p c. induction n as [s|nm attrs cs IH] using node_tree_ind; intros p c.
  { by intros ?%elem_of_nil. }
  cbn [descendants_with_parent]. intros Hin.
  apply list_elem_of_In, in_flat_map in Hin as (c' & Hc' & Hin).
  destruct Hin as [[= <- <-]|Hin]; [by left|]. right.
  rw Forall_forall in IH. apply list_elem_of_In in Hc', Hin.
  apply elem_of_descendants. exists c'. split; [done|].
  destruct (IH c' Hc' p c Hin) as [->|?]; auto.
Qed.

Lemma append_components_inv (P : component → Prop) candidates components :
  (∀ e c, e ∈ candidates → identify_component_type e = Some c → P c) →
  Forall P components → Forall P (append_components candidates components).
Proof.
  intros Hc Hall. unfold append_components. apply Forall_app. split; [done|].
  apply Forall_forall. intros c (e & He & Hid)%list_elem_of_omap. by eapply Hc.
Qed.

Lemma append_new_components_inv (P : component → Prop) candidates components :
  (∀ e c, e ∈ candidates → identify_component_type e = Some c → P c) →
  Forall P components → Forall P (append_new_components candidates components).
Proof.
  revert components. induction candidates as [|e candidates IH]; intros components Hc Hall;
    simpl; [done|].
  assert (∀ e' c, e' ∈ candidates → identify_component_type e' = Some c → P c) as Hc'.
  { intros e' c He'. apply Hc. by right. }
  destruct (identify_component_type e) as [comp|] eqn:Hid; [|by apply IH].
  case_bool_decide; [by apply IH|]. apply IH; [done|].
  apply Forall_app. split; [done|]. constructor; [|done]. eapply Hc; [by left|done].
Qed.

Lemma append_new_components_grows candidates components :
  components ≠ [] → append_new_components candidates components ≠ [].
Proof.
  revert components. induction candidates as [|e candidates IH]; intros components Hne;
    simpl; [done|].
  destruct (identify_component_type e); [|by apply IH].
  case_bool_decide; apply IH; [done|]. by destruct components.
Qed.

(** X20.  [extract_page_components] raises when the copy of the document
    without header and footer has no main region ([main], a [div] whose id
    or class suggests content, or [body]).  Otherwise it returns a list in
    which every component is what the classifier returns for an element of
    that copy, or the last-resort text block; the list is not empty when
    the text of the main region, collapsed, has more than 50
    characters. *)
Theorem page_components_shape soup :
  match main_region (decompose_all ["header"; "footer"] soup) with
  | None => extract_page_components soup = Raises
  | Some main =>
      ∃ components,
        extract_page_components soup = Returns components
        ∧ (50 < Py.len (Py.strip (Py.collapse_ws (get_text_strip " " main))) →
           components ≠ [])
        ∧ Forall (λ c,
            (∃ e, e ∈ descendants (decompose_all ["header"; "footer"] soup)
                  ∧ named ["header"; "footer"] e = false
                  ∧ identify_component_type e = Some c)
            ∨ c = TextBlock (Py.ellipsis 600
                               (Py.strip (Py.collapse_ws (get_text_strip " " main)))))
            components
  end.
Proof.
  unfold extract_page_components.
  destruct (main_region _) as [main|] eqn:Hmain; [|done].
  eexists. split; [reflexivity|].
  set (copy := decompose_all ["header"; "footer"] soup) in *.
  set (last_resort := TextBlock _).
  set (P := λ c : component,
         (∃ e, e ∈ descendants copy ∧ named ["header"; "footer"] e = false
               ∧ identify_component_type e = Some c) ∨ c = last_resort).
  assert (main ∈ descendants copy) as Hm.
  { unfold main_region in Hmain.
    do 3 (destruct (find _ copy) as [m|] eqn:?Hf in Hmain;
          [injection Hmain as ->; by eapply find_elem|]).
    by eapply find_elem. }
  assert (∀ e c, e = main ∨ e ∈ descendants main →
                 identify_component_type e = Some c → P c) as Hcand.
  { intros e c He Hid. left. exists e.
    assert (e ∈ descendants copy) as Hin.
    { destruct He as [->|He]; [done|]. by eapply descendants_trans. }
    split; [done|]. split; [|done]. by eapply decompose_all_descendants. }
  assert (∀ p e c, e ∈ find_all p main → identify_component_type e = Some c → P c) as Hfind.
  { intros p e c [He _]%find_all_elem. apply Hcand. by right. }
  set (c1 := append_components (option_list _) []).
  set (c2 := append_components _ c1).
  set (c3 := append_components _ c2).
  set (sections := match find_all (named ["section"; "article"]) main with
                   | [] => _ | _ => _ end).
  set (c4 := append_new_components (take 10 sections) c3).
  set (c5 := match c4 with [] => _ | _ => c4 end).
  assert (Forall P c5) as H5.
  { assert (Forall P c4) as H4.
    { apply append_new_components_inv.
      { intros e c He%elem_of_take_l. subst sections.
        destruct (find_all (named ["section"; "article"]) main) eqn:Hs.
        - by eapply Hfind.
        - apply (Hfind (named ["section"; "article"])). by rw Hs. }
      repeat apply append_components_inv; [..|constructor]; try by apply Hfind.
      intros e c He. apply Hcand. right.
      destruct (find _ main) as [h|] eqn:Hh; [|by apply elem_of_nil in He].
      apply list_elem_of_singleton in He as ->. by eapply find_elem. }
    subst c5. destruct c4; [|done].
    apply append_new_components_inv; [|constructor].
    intros e c He. apply Hcand.
    apply list_elem_of_fmap in He as ([p ch] & -> & Hin%elem_of_take_l).
    apply list_elem_of_In, filter_In in Hin as [Hin%list_elem_of_In _].
    by eapply descendants_with_parent_elem. }
  split.
  - intros Hlen. destruct c5; [|done]. by apply Nat.ltb_lt in Hlen as ->.
  - destruct c5; [|done]. destruct (50 <? _); [|constructor].
    constructor; [by right|constructor].
Qed.

End PageComponents.

(* ===================================================================== *)
(** * Links and discovered URLs *)
(* ===================================================================== *)

Section Links.
Context {world : Type} (X : externals world).

(** The URL an anchor contributes to [crawl_internal_links]: its [href]
    is not skipped, joins with the base URL to an internal URL, and the
    normal form of that URL is not a media file. *)
Lemma crawl_anchor_spec self a urls urls' :
  crawl_anchor X self a urls = Returns urls' →
  ∀ u, u ∈ urls' ↔
    u ∈ urls
    ∨ ∃ absolute,
        startswith_any skipped_schemes (get_default a "href" "") = false
        ∧ urljoin X (base_url self) (get_default a "href" "") = Returns absolute
        ∧ is_internal_link X self absolute = Returns true
        ∧ normalize_url X absolute = Returns u
        ∧ search_extension media_extensions u = false.
Proof.
  unfold crawl_anchor.
  destruct (startswith_any _ _) eqn:Hskip.
  { intros [= <-] u. split; [by left|]. by intros [?|(? & ? & _)]. }
  destruct (urljoin X _ _) as [absolute|] eqn:Hjoin; [|done]. rw bind_returns.
  destruct (is_internal_link X self absolute) as [internal|] eqn:Hint; [|done].
  rw bind_returns. destruct internal.
  2: { intros [= <-] u. split; [by left|].
       intros [?|(abs' & _ & [= <-] & Hint' & _)]; [done|]. by rw Hint in Hint'. }
  destruct (normalize_url X absolute) as [clean|] eqn:Hnorm; [|done]. rw bind_returns.
  destruct (search_extension _ clean) eqn:Hmedia; intros [= <-] u.
  - split; [by left|].
    intros [?|(abs' & _ & [= <-] & _ & Hn & Hm)]; [done|].
    rw Hnorm in Hn. injection Hn as <-. by rw Hmedia in Hm.
  - rw elem_of_union elem_of_singleton. split.
    + intros [->|?]; [right|by left]. by exists absolute.
    + intros [?|(abs' & _ & [= <-] & _ & Hn & _)]; [by right|].
      rw Hnorm in Hn. injection Hn as <-. by left.
Qed.

Lemma crawl_anchors_spec self anchors urls urls' :
  crawl_anchors X self anchors urls = Returns urls' →
  ∀ u, u ∈ urls' ↔
    u ∈ urls
    ∨ ∃ a absolute,
        a ∈ anchors
        ∧ startswith_any skipped_schemes (get_default a "href" "") = false
        ∧ urljoin X (base_url self) (get_default a "href" "") = Returns absolute
        ∧ is_internal_link X self absolute = Returns true
        ∧ normalize_url X absolute = Returns u
        ∧ search_extension media_extensions u = false.
Proof.
  revert urls. induction anchors as [|a anchors IH]; intros urls; simpl.
  { intros [= <-] u. split; [by left|]. by intros [?|(? & ? & ?%elem_of_nil & _)]. }
  destruct (crawl_anchor X self a urls) as [urls1|] eqn:Ha; [|done]. rw bind_returns.
  intros Hrest u. rw (IH _ Hrest u) (crawl_anchor_spec _ _ _ _ Ha u). split.
  - intros [[?|(absolute & H)]|(a' & absolute & Hin & H)]; [by left|right..].
    + exists a, absolute. split; [by left|done].
    + exists a', absolute. split; [by right|done].
  - intros [?|(a' & absolute & [->|Hin]%elem_of_cons & H)]; [by left; left| |].
    + left. right. by exists absolute.
    + right. by exists a', absolute.
Qed.

(** X6.  The URLs [crawl_internal_links] returns are exactly the normal
    forms of the internal URLs that the anchors with an [href] lead to,
    leaving out the skipped prefixes ([#], [javascript:], [mailto:],
    [tel:]) and the normal forms that end in a media extension. *)
Theorem crawl_internal_links_spec self html urls :
  crawl_internal_links X self html = Returns urls →
  ∀ u, u ∈ urls ↔
    ∃ a absolute,
      a ∈ anchors_with_href (parse_html X html)
      ∧ startswith_any skipped_schemes (get_default a "href" "") = false
      ∧ urljoin X (base_url self) (get_default a "href" "") = Returns absolute
      ∧ is_internal_link X self absolute = Returns true
      ∧ normalize_url X absolute = Returns u
      ∧ search_extension media_extensions u = false.
Proof.
  intros Hc u. rw (crawl_anchors_spec _ _ _ _ Hc u). split; [|by right].
  by intros [?%elem_of_empty|?].
Qed.

End Links.

Section Discovered.
Context {world : Type} (X : externals world).

(** The URLs of a sitemap are normalized URLs. *)
Lemma add_locs_spec locs urls u :
  u ∈ add_locs X locs urls →
  u ∈ urls ∨ ∃ loc, loc ∈ locs ∧ normalize_url X (Py.strip (get_text loc)) = Returns u.
Proof.
  revert urls. induction locs as [|loc locs IH]; intros urls; simpl; [by left|].
  destruct (normalize_url X _) as [url|] eqn:Hn; [|by left].
  intros [[->%elem_of_singleton|?]%elem_of_union|(loc' & ? & ?)]%IH.
  - right. exists loc. split; [by left|done].
  - by left.
  - right. exists loc'. split; [by right|done].
Qed.

Lemma fetch_sitemaps_spec self paths urls w u :
  u ∈ (fetch_sitemaps X self paths urls w).1 →
  u ∈ urls ∨ ∃ v, normalize_url X v = Returns u.
Proof.
  revert urls w. induction paths as [|path paths IH]; intros urls w; simpl; [by left|].
  destruct (session_get X w _) as [r w'].
  intros [Hu|?]%IH; [|by right].
  destruct r as [response|]; [|by left].
  destruct (_ && _); [|by left].
  apply add_locs_spec in Hu as [?|(loc & _ & ?)]; [by left|right; eauto].
Qed.

Lemma fetch_sitemap_urls_spec self (st : @state world) u :
  u ∈ (fetch_sitemap_urls X self st).1 → ∃ v, normalize_url X v = Returns u.
Proof.
  unfold fetch_sitemap_urls.
  pose proof (fetch_sitemaps_spec self sitemap_paths ∅ (net st) u) as H.
  destruct (fetch_sitemaps X self _ _ _) as [urls w]. simpl in *.
  by intros [?%elem_of_empty|?]%H.
Qed.

(** The discovered set only grows, and what it gains are links found by
    [crawl_internal_links]. *)
Lemma loop_reaches_urls self c c' :
  loop_reaches X self c c' →
  all_urls c.1 ⊆ all_urls c'.1
  ∧ ∀ u, u ∈ all_urls c'.1 →
      u ∈ all_urls c.1
      ∨ ∃ html links, crawl_internal_links X self html = Returns links ∧ u ∈ links.
Proof.
  induction 1 as [c|f st url rest [f1 st1] c'' Hq Hbody _ [IHsub IHnew]].
  { split; [done|]. by left. }
  destruct (loop_body_frontier _ _ _ _ _ _ _ Hbody) as (new & -> & _ & _ & Hlinks).
  simpl in *. split; [set_solver|].
  intros u [[Hu|Hu%elem_of_list_to_set]%elem_of_union|?]%IHnew; [by left| |by right].
  destruct Hlinks as [->|(html & links & Hcr & Hin)]; [by apply elem_of_nil in Hu|].
  right. exists html, links. auto.
Qed.

(** X7.  The list [discover_all_pages] returns is sorted and without
    duplicates; it holds the base URL and every URL of the sitemaps; and
    every URL in it other than the base URL is a normalized URL, without
    query string or fragment. *)
Theorem discovered_urls fuel self (st : @state world) urls st' :
  discover_all_pages X fuel self st = Some (Returns (urls, st')) →
  StronglySorted String.le urls
  ∧ NoDup urls
  ∧ base_url self ∈ urls
  ∧ (∀ u, u ∈ (fetch_sitemap_urls X self st).1 → u ∈ urls)
  ∧ (∀ u, u ∈ urls →
       u = base_url self
       ∨ (Py.contains "?" u = false ∧ Py.contains "#" u = false
          ∧ ∃ v, normalize_url X v = Returns u)).
Proof.
  unfold discover_all_pages.
  pose proof (fetch_sitemap_urls_spec self st) as Hsitemap.
  destruct (fetch_sitemap_urls X self st) as [sitemap_urls st1]. simpl in Hsitemap.
  destruct (discover_loop X fuel self _ st1) as [[[f st2]|]|] eqn:Hloop; [|done..].
  intros [= <- <-].
  apply discover_loop_reaches in Hloop as [Hreach _].
  apply loop_reaches_urls in Hreach as [Hsub Hnew]. simpl in Hsub, Hnew.
  assert (∀ u, u ∈ merge_sort String.le (elements (all_urls f)) ↔ u ∈ all_urls f) as Hin.
  { intros u. by rw merge_sort_Permutation elem_of_elements. }
  split_and!.
  - apply StronglySorted_merge_sort; apply _.
  - rw merge_sort_Permutation. apply NoDup_elements.
  - apply Hin. set_solver.
  - intros u Hu. apply Hin. set_solver.
  - intros u [[->%elem_of_singleton|Hu]%elem_of_union|(html & links & Hcr & Hu)]%Hin%Hnew.
    + by left.
    + right. destruct (Hsitemap u Hu) as [v Hv].
      destruct (normalize_url_plain X _ _ Hv). eauto.
    + right. apply (crawl_anchors_spec X _ _ _ _ Hcr) in Hu
        as [?%elem_of_empty|(a & absolute & _ & _ & _ & _ & Hv & _)]; [done|].
      destruct (normalize_url_plain X _ _ Hv). eauto.
Qed.

End Discovered.

(* ===================================================================== *)
(** * The header and the footer *)
(* ===================================================================== *)

Section GlobalComponents.
Context {world : Type} (X : externals world).

(** What the [continue]s of the header loop let through. *)
Lemma navigation_item_inv a text :
  navigation_item a = Some text →
  text = get_text_strip "" a
  ∧ 3 ≤ Py.len text ≤ 50
  ∧ Py.contains "@" text = false
  ∧ Py.contains_any ["cookie"; "consent"; "refuse"] (Py.lower text) = false.
Proof.
  unfold navigation_item.
  destruct (_ || _ || _) eqn:Hlen; [done|].
  apply orb_false_iff in Hlen as [[_ H50%Nat.ltb_ge]%orb_false_iff H3%Nat.ltb_ge].
  destruct (Py.contains "@" _ || _) eqn:Hat; [done|].
  apply orb_false_iff in Hat as [Hat _].
  destruct (Py.contains_any social_platforms _); [done|].
  destruct (_ || _); [done|].
  destruct (Py.contains_any _ _) eqn:Hcookie; [done|].
  by intros [= <-].
Qed.

Lemma collect_navigation_spec (P : string → Prop) anchors navigation :
  (∀ a text, navigation_item a = Some text → P text) →
  NoDup navigation → Forall P navigation →
  NoDup (collect_navigation anchors navigation)
  ∧ Forall P (collect_navigation anchors navigation).
Proof.
  intros HP. revert navigation.
  induction anchors as [|a anchors IH]; intros navigation Hnd Hall; simpl; [done|].
  destruct (navigation_item a) as [text|] eqn:Ha; [|by apply IH].
  case_bool_decide as Hin; [by apply IH|]. apply IH.
  - apply NoDup_app. split; [done|]. split; [|apply NoDup_singleton].
    by intros x Hx ->%list_elem_of_singleton.
  - apply Forall_app. split; [done|]. constructor; [|done]. by eapply HP.
Qed.

(** X9.  The header has the keys [logo], [navigation] and [contact], in
    this order.  The navigation has at most ten items, no item twice, each
    of 3 to 50 characters, without [@] and without the words of a cookie
    banner; the contact is [None] or a dictionary that is not empty and
    whose keys are among [email] and [phone]. *)
Theorem header_shape soup :
  ∃ logo navigation contact,
    extract_header X soup
    = [("logo", VStr logo); ("navigation", VList navigation); ("contact", contact)]
    ∧ length navigation ≤ 10
    ∧ NoDup navigation
    ∧ Forall (λ text, 3 ≤ Py.len text ≤ 50
                      ∧ Py.contains "@" text = false
                      ∧ Py.contains_any ["cookie"; "consent"; "refuse"] (Py.lower text) = false)
        navigation
    ∧ (contact = VNone
       ∨ ∃ d, contact = VDict d ∧ d ≠ [] ∧ ∀ k v, (k, v) ∈ d → k = "email" ∨ k = "phone").
Proof.
  unfold extract_header. eexists _, _, _. split; [reflexivity|].
  set (header := match find (named ["header"]) soup with Some h => Some h | None => _ end).
  assert (∀ anchors,
            NoDup (collect_navigation anchors [])
            ∧ Forall (λ text, 3 ≤ Py.len text ≤ 50
                              ∧ Py.contains "@" text = false
                              ∧ Py.contains_any ["cookie"; "consent"; "refuse"] (Py.lower text)
                                = false)
                (collect_navigation anchors [])) as Hnav.
  { intros anchors. apply collect_navigation_spec; [|constructor|constructor].
    by intros a text (_ & ? & ? & ?)%navigation_item_inv. }
  split_and!.
  - rw length_take. lia.
  - destruct header as [h|]; [|constructor]. apply NoDup_take, Hnav.
  - destruct header as [h|]; [|constructor]. apply Forall_take, Hnav.
  - destruct header as [h|]; [|by left].
    destruct (re_findall X email_pattern _) as [|email emails];
      destruct (re_findall X _ _) as [|phone phones]; simpl; [by left|right..];
      eexists; (split; [reflexivity|]); (split; [done|]); intros k v Hin;
      repeat (apply elem_of_cons in Hin as [[= -> ->]|Hin]; [by auto|]);
      by apply elem_of_nil in Hin.
Qed.

(** The texts [collect_footer_links] adds are not empty and shorter than
    30 characters. *)
Lemma collect_footer_links_spec self anchors links links' :
  collect_footer_links X self anchors links = Returns links' →
  Forall (λ text, 0 < Py.len text < 30) links →
  Forall (λ text, 0 < Py.len text < 30) links'.
Proof.
  revert links. induction anchors as [|a anchors IH]; intros links; simpl.
  { by intros [= <-]. }
  destruct (is_internal_link X self _) as [internal|]; [|done]. rw bind_returns.
  destruct (_ && _ && _ && _) eqn:Hc; [|by apply IH].
  apply andb_true_iff in Hc as [[[_ Ht%PyFacts.truthy_len]%andb_true_iff _]%andb_true_iff
                                Hl%Nat.ltb_lt].
  intros Hrest Hall. apply (IH _ Hrest). apply Forall_app. split; [done|]. by constructor.
Qed.

Lemma social_link_inv a p : p ∈ social_link a → p ∈ social_platforms.
Proof.
  unfold social_link. destruct (List.filter _ _) as [|q qs] eqn:Hf; [by intros ?%elem_of_nil|].
  intros ->%list_elem_of_singleton.
  assert (In q (q :: qs)) as Hin by by left.
  rw -Hf in Hin. apply filter_In in Hin as [? _]. by apply list_elem_of_In.
Qed.

Lemma drop_falsy_subset result kv : kv ∈ drop_falsy result → kv ∈ result.
Proof.
  unfold drop_falsy. intros Hin. apply list_elem_of_In, filter_In in Hin as [? _].
  by apply list_elem_of_In.
Qed.

Lemma drop_falsy_keys result : (drop_falsy result).*1 `sublist_of` result.*1.
Proof.
  unfold drop_falsy. induction result as [|[k v] result IH]; simpl; [done|].
  destruct (value_truthy v); simpl; [by apply sublist_skip|by apply sublist_cons].
Qed.

(** X10.  The keys of the footer are among [address], [phone], [email],
    [footer_links] and [social_links], in this order.  The footer links,
    when present, are one to ten texts, none twice, each not empty and
    shorter than 30 characters; the social links, when present, are
    platform names of the fixed list, none twice.  Without a [footer]
    element the footer is the empty dictionary. *)
Theorem footer_shape self soup footer :
  extract_footer X self soup = Returns footer →
  footer.*1 `sublist_of` ["address"; "phone"; "email"; "footer_links"; "social_links"]
  ∧ (∀ links, ("footer_links", VList links) ∈ footer →
       1 ≤ length links ≤ 10 ∧ NoDup links ∧ Forall (λ text, 0 < Py.len text < 30) links)
  ∧ (∀ platforms, ("social_links", VList platforms) ∈ footer →
       platforms ≠ [] ∧ NoDup platforms ∧ Forall (λ p, p ∈ social_platforms) platforms)
  ∧ (find (named ["footer"]) soup = None → footer = []).
Proof.
  unfold extract_footer. destruct (find (named ["footer"]) soup) as [f|].
  2: { intros [= <-]. split_and!; [apply sublist_nil_l|by intros ? ?%elem_of_nil..|done]. }
  destruct (collect_footer_links X self _ _) as [links|] eqn:Hlinks; [|done].
  rw bind_returns. cbv zeta.
  match goal with |- Returns (drop_falsy ?r) = _ → _ => set (result := r) end.
  intros [= <-].
  assert (∀ k v, (k, v) ∈ drop_falsy result → value_truthy v = true ∧ (k, v) ∈ result) as Hin.
  { intros k v Hkv. split; [|by apply drop_falsy_subset].
    unfold drop_falsy in Hkv. by apply list_elem_of_In, filter_In in Hkv as [_ ?]. }
  split_and!; [apply (drop_falsy_keys result)| | |done].
  - intros l [Hl Hkv]%Hin. simpl in Hl.
    unfold result in Hkv. rw !elem_of_cons elem_of_nil in Hkv.
    destruct Hkv as [[=]|[[=]|[[=]|[[= ->]|[[=]|[]]]]]]. split_and!.
    + destruct (take 10 _); [done|simpl; lia].
    + rw length_take. lia.
    + apply NoDup_take, dict_fromkeys_NoDup.
    + apply Forall_take, Forall_forall. intros text Ht%PyFacts.dict_fromkeys_subset.
      apply collect_footer_links_spec in Hlinks; [|constructor].
      by eapply Forall_forall in Hlinks.
  - intros l [Hl Hkv]%Hin. simpl in Hl.
    unfold result in Hkv. rw !elem_of_cons elem_of_nil in Hkv.
    destruct Hkv as [[=]|[[=]|[[=]|[[=]|[[= ->]|[]]]]]]. split_and!.
    + intros Hnil. by rw Hnil in Hl.
    + apply dict_fromkeys_NoDup.
    + apply Forall_forall. intros p Hp%PyFacts.dict_fromkeys_subset.
      apply list_elem_of_In, in_flat_map in Hp as (a & _ & Hp).
      eapply social_link_inv. by apply list_elem_of_In.
Qed.

End GlobalComponents.


(* ===================================================================== *)
(** * The pages of a website *)
(* ===================================================================== *)

Section Pages.
Context {world : Type} (X : externals world).

Lemma generate_page_slug_truthy url slug :
  generate_page_slug X url = Returns slug → slug ≠ "".
Proof.
  unfold generate_page_slug. destruct (Url.urlparse _ url) as [parsed|]; [|done].
  rw bind_returns. destruct (negb _); [by intros [= <-]|].
  destruct (Py.truthy _) eqn:Ht; intros [= <-]; [|done]. by intros Hs; rw Hs in Ht.
Qed.

(** What every page record satisfies. *)
Lemma parse_page_record self url html (st : @state world) p st' :
  parse_page X self url html st = Returns (Some p, st') →
  page_slug p ≠ "" ∧ page_path p ≠ ""
  ∧ length (links_internal p) ≤ 20 ∧ length (links_external p) ≤ 10.
Proof.
  unfold parse_page. destruct (match content_hash X _ with Some _ => _ | None => _ end); [done|].
  destruct (generate_page_slug X url) as [slug|] eqn:Hslug; [|done]. rw bind_returns.
  destruct (Url.urlparse _ url) as [parsed|]; [|done]. rw bind_returns.
  destruct (extract_page_components _) as [components|]; [|done]. rw bind_returns.
  unfold extract_page_links.
  destruct (page_links X self _ _) as [[internal external]|]; [|done]. rw !bind_returns.
  intros [= <- _]. simpl. split_and!.
  - by eapply generate_page_slug_truthy.
  - destruct (Py.truthy (Url.path parsed)) eqn:Ht; [|done]. by intros Hp; rw Hp in Ht.
  - rw length_take. lia.
  - rw length_take. lia.
Qed.

Lemma parse_page_hashes self url html (st : @state world) r st' :
  parse_page X self url html st = Returns (r, st') →
  seen_content_hashes st ⊆ seen_content_hashes st'.
Proof.
  unfold parse_page. destruct (match content_hash X _ with Some _ => _ | None => _ end).
  { by intros [= <- <-]. }
  destruct (generate_page_slug X url) as [slug|]; [|done]. rw bind_returns.
  destruct (Url.urlparse _ url) as [parsed|]; [|done]. rw bind_returns.
  destruct (extract_page_components _) as [components|]; [|done]. rw bind_returns.
  destruct (extract_page_links X self _) as [[internal external]|]; [|done]. rw !bind_returns.
  intros [= <- <-]. destruct (content_hash X _); simpl; set_solver.
Qed.

Lemma parse_pages_inv (Q : page → Prop) self urls pages (st : @state world) pages' st' :
  (∀ url html st p st', parse_page X self url html st = Returns (Some p, st') → Q p) →
  parse_pages X self urls pages st = Returns (pages', st') →
  length pages' ≤ length pages + length urls
  ∧ (Forall Q pages → Forall Q pages')
  ∧ seen_content_hashes st ⊆ seen_content_hashes st'.
Proof.
  intros HQ. revert pages st. induction urls as [|url urls IH]; intros pages st; simpl.
  { intros [= <- <-]. split; [lia|done]. }
  pose proof (fetch_sets X url st) as (_ & _ & Hseen).
  destruct (fetch X url st) as [html st1]. simpl in Hseen.
  destruct (no_html html).
  { intros (? & ? & ?)%IH. split_and!; [lia|done|by rw -Hseen]. }
  destruct (parse_page X self url _ st1) as [[page_data st2]|] eqn:Hpage; [|done].
  rw bind_returns. pose proof (parse_page_hashes _ _ _ _ _ _ Hpage) as Hsub.
  destruct page_data as [p|]; intros (Hlen & Hall & Hs)%IH.
  - rw length_app in Hlen. simpl in Hlen. split_and!; [lia| |set_solver].
    intros Hpages. apply Hall, Forall_app. split; [done|]. constructor; [|done].
    by eapply HQ.
  - split_and!; [lia|done|set_solver].
Qed.

(** X21.  In the website a run returns, the URL is the base URL of the
    parser; there are no more pages than discovered URLs; every page has a
    slug and a path that are not empty, at most 20 internal and at most 10
    external links; and the run only adds to the fingerprints seen. *)
Theorem website_pages fuel self (st : @state world) w st' :
  run X fuel self st = Some (Returns (Website w, st')) →
  site_url w = base_url self
  ∧ (∃ urls st1,
       discover_all_pages X fuel self st = Some (Returns (urls, st1))
       ∧ length (pages w) ≤ length urls)
  ∧ Forall (λ p, page_slug p ≠ "" ∧ page_path p ≠ ""
                 ∧ length (links_internal p) ≤ 20 ∧ length (links_external p) ≤ 10)
      (pages w)
  ∧ seen_content_hashes st ⊆ seen_content_hashes st'.
Proof.
  unfold run.
  pose proof (fetch_sitemap_urls_sets X self st) as (_ & _ & Hseen0).
  destruct (discover_all_pages X fuel self st) as [[[urls st1]|]|] eqn:Hd; [|done..].
  assert (seen_content_hashes st1 = seen_content_hashes st) as Hseen1.
  { unfold discover_all_pages in Hd.
    destruct (fetch_sitemap_urls X self st) as [sitemap_urls st0]. simpl in Hseen0.
    destruct (discover_loop X fuel self _ st0) as [[[f st2]|]|] eqn:Hloop; [|done..].
    injection Hd as _ <-.
    apply discover_loop_reaches in Hloop as [Hreach _].
    rw -Hseen0. clear -Hreach.
    remember (initial_frontier self sitemap_urls, st0) as c eqn:Hc.
    remember (f, st2) as c' eqn:Hc'.
    assert (seen_content_hashes c'.2 = seen_content_hashes c.2) as H; [|by subst].
    clear Hc Hc'. induction Hreach as [|f0 s0 url rest [f1 s1] c'' Hq Hbody _ IH]; [done|].
    rw IH. simpl. unfold loop_body in Hbody. case_bool_decide; [by injection Hbody as _ <-|].
    pose proof (fetch_sets X url s0) as (_ & _ & Hs).
    destruct (fetch X url s0) as [html s2]. simpl in Hs.
    destruct (no_html html); [by injection Hbody as _ <-|].
    destruct (crawl_internal_links X self _); [|done]. by injection Hbody as _ <-. }
  pose proof (fetch_sets X (base_url self) st1) as (_ & _ & Hseen2).
  destruct (fetch X (base_url self) st1) as [homepage_html st2]. simpl in Hseen2.
  destruct (no_html homepage_html); [done|].
  destruct (extract_footer X self _) as [footer|]; [|done]. rw bind_returns.
  destruct (parse_pages X self urls [] st2) as [[pages' st3]|] eqn:Hpages; [|done].
  rw bind_returns. intros [= <- <-]. simpl.
  eapply (parse_pages_inv _ _ _ _ _ _ _ (parse_page_record self)) in Hpages
    as (Hlen & Hall & Hsub).
  split_and!; [done|by exists urls, st1|by apply Hall|].
  by rw -Hseen1 -Hseen2.
Qed.

End Pages.

(* ===================================================================== *)
(** * The entry point and the sitemaps *)
(* ===================================================================== *)

Section EntryPoint.
Import Py Url PyFacts.
#[local] Arguments String.append !_ _ / : simpl nomatch.

Lemma not_delimiter_not_sep c : negb (netloc_delimiter c) = true → is_not "/" c = true.
Proof. each_char c. Qed.

(** X22.  The URL the entry point hands to the parser starts with
    [http://] or [https://]; the name of the output file made from it is
    [_analysis.json] after a text without slash and without dot. *)
Theorem output_file_name ok url f :
  output_file ok (website_url url) = Returns f →
  startswith_any ["http://"; "https://"] (website_url url) = true
  ∧ ∃ domain,
      f = domain +:+ "_analysis.json"
      ∧ contains "/" domain = false
      ∧ contains "." domain = false.
Proof.
  intros Hf. split.
  - unfold website_url. destruct (startswith_any _ url) eqn:Hs; [done|].
    unfold startswith_any. cbn [existsb]. by rw (startswith_app_refl "https://") orb_true_r.
  - unfold output_file in Hf.
    destruct (urlparse ok _) as [parsed|] eqn:Hp; [|done]. rw bind_returns in Hf.
    injection Hf as <-. eexists. split; [reflexivity|].
    apply urlparse_well_split in Hp as [_ _ Hdelim _ _ _ _ _].
    split; apply all_chars_contains_false.
    + apply all_chars_replace_char; [done|]. apply all_chars_replace_go.
      eapply all_chars_impl; [|exact Hdelim]. apply not_delimiter_not_sep.
    + by apply replace_char_gone.
Qed.

End EntryPoint.

Section Sitemaps.
Context {world : Type} (X : externals world).

(** A [loc] whose text makes [normalize_url] raise ends the sitemap it
    stands in: the URLs before it stay, those after it are not read. *)
Lemma add_locs_raises locs bad rest urls :
  Forall (λ loc, normalize_url X (Py.strip (get_text loc)) ≠ Raises) locs →
  normalize_url X (Py.strip (get_text bad)) = Raises →
  add_locs X (locs ++ bad :: rest) urls = add_locs X locs urls.
Proof.
  intros Hlocs Hbad. revert urls.
  induction Hlocs as [|loc locs Hloc _ IH]; intros urls; simpl; [by rw Hbad|].
  by destruct (normalize_url X _).
Qed.

(** X8.  Every URL [fetch_sitemap_urls] returns is a normalized URL,
    without query string or fragment; the sitemap requests do not go
    through [fetch] and leave the visited set alone; and a [loc] that makes
    [normalize_url] raise ends its sitemap: the URLs before it are kept,
    those after it are not read. *)
Theorem sitemap_urls self (st : @state world) :
  (∀ u, u ∈ (fetch_sitemap_urls X self st).1 →
     Py.contains "?" u = false ∧ Py.contains "#" u = false
     ∧ ∃ v, normalize_url X v = Returns u)
  ∧ fetched (fetch_sitemap_urls X self st).2 = fetched st
  ∧ visited (fetch_sitemap_urls X self st).2 = visited st
  ∧ (∀ locs bad rest urls,
       Forall (λ loc, normalize_url X (Py.strip (get_text loc)) ≠ Raises) locs →
       normalize_url X (Py.strip (get_text bad)) = Raises →
       add_locs X (locs ++ bad :: rest) urls = add_locs X locs urls).
Proof.
  split_and!.
  - intros u [v Hv]%fetch_sitemap_urls_spec.
    destruct (normalize_url_plain X _ _ Hv). eauto.
  - apply fetch_sitemap_urls_sets.
  - apply fetch_sitemap_urls_sets.
  - apply add_locs_raises.
Qed.

End Sitemaps.

(* ===================================================================== *)
(** * More examples *)
(* ===================================================================== *)

(** The shape theorem at a URL with upper case, a query and a fragment. *)
Lemma normalize_url_shape_witness :
  normalize_url offline "HTTP://example.com/about/?page=2#team"
  = Returns "http://example.com/about"
  ∧ Py.contains "?" "http://example.com/about" = false
  ∧ Py.contains "#" "http://example.com/about" = false
  ∧ Url.all_chars safe_char "http://example.com/about" = true
  ∧ (Py.endswith "/" "http://example.com/about" = true →
     ∃ r, Url.urlparse (bracketed_host_ok offline) "HTTP://example.com/about/?page=2#team"
          = Returns r ∧ Py.len (Url.path r) ≤ 1).
Proof.
  split; [by vm_compute|].
  apply (normalize_url_shape offline "HTTP://example.com/about/?page=2#team"
           "http://example.com/about").
  by vm_compute.
Defined.

(** A query string and a fragment after [https://example.com/about]. *)
Lemma url_tail_ignored_witness :
  normalize_url offline ("https://example.com/about" +:+ String "?" "page=2#team")
  = normalize_url offline "https://example.com/about"
  ∧ is_internal_link offline example_parser
      ("https://example.com/about" +:+ String "?" "page=2#team")
    = is_internal_link offline example_parser "https://example.com/about"
  ∧ generate_page_slug offline ("https://example.com/about" +:+ String "?" "page=2#team")
    = generate_page_slug offline "https://example.com/about".
Proof.
  apply (url_tail_ignored offline example_parser "https://example.com/about" "?" "page=2#team");
    [by vm_compute|by vm_compute|by left].
Defined.

(** The parser made from [https://example.com/]. *)
Lemma parser_base_url_witness :
  init offline "https://example.com/" = Returns example_parser
  ∧ base_url example_parser = Py.rstrip_chars "/" "https://example.com/"
  ∧ Py.endswith "/" (base_url example_parser) = false
  ∧ is_internal_link offline example_parser (base_url example_parser) = Returns true
  ∧ ∃ r, Url.urlparse (bracketed_host_ok offline) (base_url example_parser) = Returns r
         ∧ internal_domain example_parser = Url.netloc r.
Proof.
  split; [by vm_compute|].
  apply (parser_base_url offline "https://example.com/" example_parser). by vm_compute.
Defined.

(** A [mailto:] link and a relative path. *)
Lemma links_without_host_witness :
  is_internal_link offline example_parser "mailto:info@example.com" = Returns true
  ∧ is_internal_link offline example_parser "about/team.html" = Returns true.
Proof.
  split; apply (links_without_host_are_internal offline example_parser); by vm_compute.
Defined.

(** The links of the first page of the crawler trap. *)
Lemma crawl_internal_links_witness :
  ∃ urls,
    crawl_internal_links trap trap_parser (trap_url 0) = Returns urls
    ∧ ∀ u, u ∈ urls ↔
        ∃ a absolute,
          a ∈ anchors_with_href (parse_html trap (trap_url 0))
          ∧ startswith_any skipped_schemes (get_default a "href" "") = false
          ∧ urljoin trap (base_url trap_parser) (get_default a "href" "") = Returns absolute
          ∧ is_internal_link trap trap_parser absolute = Returns true
          ∧ normalize_url trap absolute = Returns u
          ∧ search_extension media_extensions u = false.
Proof.
  exists {[trap_url 1]}. split; [apply trap_crawl|].
  apply (crawl_internal_links_spec trap trap_parser (trap_url 0)), trap_crawl.
Defined.

(** Discovery on a site that has a sitemap and serves no HTML. *)
Lemma discovered_urls_witness :
  (∃ st', discover_all_pages sitemap_site 5 example_parser (init_state tt)
          = Some (Returns (["https://example.com"; "https://example.com/contact";
                            "https://example.com/news"], st')))
  ∧ StronglySorted String.le
      ["https://example.com"; "https://example.com/contact"; "https://example.com/news"]
  ∧ NoDup ["https://example.com"; "https://example.com/contact"; "https://example.com/news"]
  ∧ base_url example_parser
    ∈ ["https://example.com"; "https://example.com/contact"; "https://example.com/news"]
  ∧ (∀ u, u ∈ (fetch_sitemap_urls sitemap_site example_parser (init_state tt)).1 →
       u ∈ ["https://example.com"; "https://example.com/contact"; "https://example.com/news"])
  ∧ (∀ u, u ∈ ["https://example.com"; "https://example.com/contact";
               "https://example.com/news"] →
       u = base_url example_parser
       ∨ (Py.contains "?" u = false ∧ Py.contains "#" u = false
          ∧ ∃ v, normalize_url sitemap_site v = Returns u)).
Proof.
  assert (∃ st', discover_all_pages sitemap_site 5 example_parser (init_state tt)
                 = Some (Returns (["https://example.com"; "https://example.com/contact";
                                   "https://example.com/news"], st'))) as [st' Hrun]
    by (eexists; vm_compute; reflexivity).
  split; [by exists st'|].
  exact (discovered_urls sitemap_site 5 example_parser (init_state tt) _ _ Hrun).
Defined.

(** The footer of [imprint_page]. *)
Lemma footer_shape_witness :
  extract_footer one_page example_parser imprint_page
  = Returns [("footer_links", VList ["Imprint"]); ("social_links", VList ["twitter"])]
  ∧ ["footer_links"; "social_links"]
    `sublist_of` ["address"; "phone"; "email"; "footer_links"; "social_links"]
  ∧ (∀ links,
       ("footer_links", VList links)
       ∈ [("footer_links", VList ["Imprint"]); ("social_links", VList ["twitter"])] →
       1 ≤ length links ≤ 10 ∧ NoDup links ∧ Forall (λ text, 0 < Py.len text < 30) links)
  ∧ (∀ platforms,
       ("social_links", VList platforms)
       ∈ [("footer_links", VList ["Imprint"]); ("social_links", VList ["twitter"])] →
       platforms ≠ [] ∧ NoDup platforms ∧ Forall (λ p, p ∈ social_platforms) platforms)
  ∧ (find (named ["footer"]) imprint_page = None →
     [("footer_links", VList ["Imprint"]); ("social_links", VList ["twitter"])] = []).
Proof.
  split; [by vm_compute|].
  apply (footer_shape one_page example_parser imprint_page
           [("footer_links", VList ["Imprint"]); ("social_links", VList ["twitter"])]).
  by vm_compute.
Defined.

(** The slug of a page with capitals, an escape and an extension. *)
Lemma page_slug_shape_witness :
  generate_page_slug offline "https://example.com/About_Us/Our%20Team--2024.html?x=1"
  = Returns "our-20team-2024"
  ∧ "our-20team-2024" ≠ ""
  ∧ Url.all_chars slug_char "our-20team-2024" = true
  ∧ Py.startswith "-" "our-20team-2024" = false
  ∧ Py.endswith "-" "our-20team-2024" = false
  ∧ Py.contains "--" "our-20team-2024" = false.
Proof.
  split; [by vm_compute|].
  apply (page_slug_shape offline "https://example.com/About_Us/Our%20Team--2024.html?x=1"
           "our-20team-2024").
  by vm_compute.
Defined.

(** The list of [feature_list]. *)
Lemma list_component_witness :
  3 ≤ length ["Fast page discovery"; "Clean component output"; "No configuration needed"] ≤ 10
  ∧ Forall (λ item, 0 < Py.len item < 200)
      ["Fast page discovery"; "Clean component output"; "No configuration needed"]
  ∧ name feature_list ∉ ["nav"; "header"; "footer"].
Proof.
  apply (list_component_bounds feature_list
           ["Fast page discovery"; "Clean component output"; "No configuration needed"]).
  by vm_compute.
Defined.

(** A table of two columns and two rows. *)
Lemma table_component_witness :
  length [["Full name"; "Age (years)"]; ["Alice Smith"; "31"]; ["Bob Jones"; "27"]] ≤ 5
  ∧ Forall (λ row, row ≠ [] ∧ Exists (λ cell, cell ≠ "") row)
      [["Full name"; "Age (years)"]; ["Alice Smith"; "31"]; ["Bob Jones"; "27"]]
  ∧ (["Full name"; "Age (years)"] ≠ []
     ∧ Forall (λ name, name ≠ "") ["Full name"; "Age (years)"]).
Proof.
  apply (table_component_bounds
           (simple_table ["Full name"; "Age (years)"] [["Alice Smith"; "31"]; ["Bob Jones"; "27"]])
           (Some ["Full name"; "Age (years)"])
           [["Full name"; "Age (years)"]; ["Alice Smith"; "31"]; ["Bob Jones"; "27"]]).
  by vm_compute.
Defined.

(** The gallery of [photo_strip]. *)
Lemma gallery_component_witness :
  2 ≤ 2
  ∧ 2 = length (find_all (named ["img"]) photo_strip)
  ∧ 1 ≤ length [("Office building", "/img/office.jpg"); ("Image", "/img/team.jpg")] ≤ 5
  ∧ length [("Office building", "/img/office.jpg"); ("Image", "/img/team.jpg")] ≤ 2
  ∧ Forall (λ image : string * string, image.2 ≠ "")
      [("Office building", "/img/office.jpg"); ("Image", "/img/team.jpg")].
Proof.
  apply (gallery_component_bounds photo_strip 2
           [("Office building", "/img/office.jpg"); ("Image", "/img/team.jpg")]).
  by vm_compute.
Defined.

(** The form of [signup]. *)
Lemma form_component_witness :
  ["Your Email"] ≠ [] ∧ NoDup ["Your Email"] ∧ Forall (λ f, f ≠ "") ["Your Email"].
Proof. apply (form_component_fields signup ["Your Email"]). by vm_compute. Defined.

(** The text block of [long_notice]. *)
Lemma text_component_witness :
  100 < Py.len (get_text_strip " " long_notice)
  ∧ 50 < Py.len "Our office is closed on public holidays and at weekends. Please use the contact form for urgent requests during these days." ≤ 403.
Proof.
  apply (text_component_lengths long_notice
           (TextBlock "Our office is closed on public holidays and at weekends. Please use the contact form for urgent requests during these days.")).
  by vm_compute.
Defined.

(** The links of [links_page]. *)
Lemma page_links_shape_witness :
  extract_page_links one_page example_parser links_page
  = Returns (["https://example.com/about"], ["https://other.example.org/partners"])
  ∧ length ["https://example.com/about"] ≤ 20
  ∧ length ["https://other.example.org/partners"] ≤ 10
  ∧ NoDup ["https://example.com/about"] ∧ NoDup ["https://other.example.org/partners"]
  ∧ Forall (λ u, Py.endswith ".pdf" u = false
                 ∧ Py.contains "?" u = false ∧ Py.contains "#" u = false
                 ∧ ∃ absolute, is_internal_link one_page example_parser absolute = Returns true
                               ∧ normalize_url one_page absolute = Returns u)
      ["https://example.com/about"]
  ∧ Forall (λ u, Py.endswith ".pdf" u = false
                 ∧ is_internal_link one_page example_parser u = Returns false)
      ["https://other.example.org/partners"].
Proof.
  split; [by vm_compute|].
  apply (page_links_shape one_page example_parser links_page
           ["https://example.com/about"] ["https://other.example.org/partners"]).
  by vm_compute.
Defined.

(** The website of the site of one page. *)
Lemma website_pages_witness :
  ∃ w st',
    run one_page 5 example_parser (init_state tt) = Some (Returns (Website w, st'))
    ∧ site_url w = base_url example_parser
    ∧ (∃ urls st1,
         discover_all_pages one_page 5 example_parser (init_state tt)
         = Some (Returns (urls, st1))
         ∧ length (pages w) ≤ length urls)
    ∧ Forall (λ p, page_slug p ≠ "" ∧ page_path p ≠ ""
                   ∧ length (links_internal p) ≤ 20 ∧ length (links_external p) ≤ 10)
        (pages w)
    ∧ seen_content_hashes (init_state tt) ⊆ seen_content_hashes st'.
Proof.
  assert (∃ w st', run one_page 5 example_parser (init_state tt)
                   = Some (Returns (Website w, st'))) as (w & st' & Hrun)
    by (eexists _, _; vm_compute; reflexivity).
  exists w, st'. split; [done|].
  exact (website_pages one_page 5 example_parser (init_state tt) w st' Hrun).
Defined.

(** The output file for [www.example.com/start]. *)
Lemma output_file_name_witness :
  output_file (λ _, true) (website_url "www.example.com/start")
  = Returns "example_com_analysis.json"
  ∧ startswith_any ["http://"; "https://"] (website_url "www.example.com/start") = true
  ∧ ∃ domain,
      "example_com_analysis.json" = domain +:+ "_analysis.json"
      ∧ Py.contains "/" domain = false
      ∧ Py.contains "." domain = false.
Proof.
  split; [by vm_compute|].
  apply (output_file_name (λ _, true) "www.example.com/start" "example_com_analysis.json").
  by vm_compute.
Defined.

(** A [www.] host and another case are external to [example.com]. *)
Lemma absolute_link_internal_witness :
  is_internal_link offline example_parser ("https" +:+ "://" +:+ "example.com" +:+ "/about")
  = Returns true
  ∧ is_internal_link offline example_parser ("https" +:+ "://" +:+ "www.example.com" +:+ "/about")
    = Returns false
  ∧ is_internal_link offline example_parser ("https" +:+ "://" +:+ "Example.com" +:+ "/about")
    = Returns false.
Proof.
  split_and!;
    [exact (absolute_link_internal offline example_parser "https" "example.com" "/about"
              ltac:(by vm_compute) ltac:(done) eq_refl eq_refl eq_refl)
    |exact (absolute_link_internal offline example_parser "https" "www.example.com" "/about"
              ltac:(by vm_compute) ltac:(done) eq_refl eq_refl eq_refl)
    |exact (absolute_link_internal offline example_parser "https" "Example.com" "/about"
              ltac:(by vm_compute) ltac:(done) eq_refl eq_refl eq_refl)].
Defined.
